(** * Inventory management system: stock, transactions and reports

    A shallow embedding of [Inventory_management_system.py] and the
    properties of its stock and transaction rules.

    The first part models what the program takes from Python: exceptions,
    strings, [int], [decimal.Decimal] with the default context (28
    significant digits, [ROUND_HALF_EVEN]), [float] with its [repr], the
    dates of [datetime], and the values of a JSON document.  The second part
    is the program, a module for each class: [JSONStorage], [Transaction],
    [TransactionManager], [User] (and [UserLogin], the user that logs in),
    [Product], [Inventory], [Billing] and [InventoryManagementSystem] with
    its forms, its menus and [run].  The third part states and proves the
    properties.

    A string is the string of its bytes; digits, letters and white space
    are those of ASCII.  A [dict] with string keys is a [gmap string _]; the
    iteration order of a [gmap] stands for the insertion order of the
    [dict], which no property below depends on.  A call that can raise returns an [outcome]; a method
    that mutates its object or a file is a function from the state to the
    outcome and the new state.

    The properties keep to the inputs on which these definitions are the
    interpreter: a text that a reader of numbers or dates refuses is a text
    in ASCII, an [int] that is written has at most 4300 digits, and the
    result of a decimal operation lies in the exponent range of the
    context; each property names the ones it needs. *)

From Stdlib Require Import ZArith NArith String Ascii List Bool Lia.
From Stdlib Require Import DecimalString DecimalN DecimalPos.
From stdpp Require Import gmap strings list fin_maps.

Set Warnings "-register-all".
Local Open Scope Z_scope.

(** ** Exceptions and outcomes *)

Inductive exn : Type :=
| ValueError
| KeyError
| TypeError
| AttributeError
| EOFError
| OverflowError
| InvalidOperation.

Inductive outcome (A : Type) : Type :=
| Returns (a : A)
| Raises (e : exn).
Arguments Returns {A} a.
Arguments Raises {A} e.

Definition obind {A B : Type} (x : outcome A) (k : A -> outcome B) : outcome B :=
  match x with
  | Returns a => k a
  | Raises e => Raises e
  end.

#[global] Instance outcome_ret : MRet outcome := @Returns.
#[global] Instance outcome_bind : MBind outcome := fun A B k x => obind x k.

(** A method of an object with state [S]: the state after the call stands
    next to what the call returned or raised. *)
Definition M (S A : Type) : Type := S -> outcome A * S.

Definition retM {S A : Type} (a : A) : M S A := fun s => (Returns a, s).
Definition throw {S A : Type} (e : exn) : M S A := fun s => (Raises e, s).
Definition bindM {S A B : Type} (m : M S A) (k : A -> M S B) : M S B :=
  fun s => match m s with
           | (Returns a, s') => k a s'
           | (Raises e, s') => (Raises e, s')
           end.
Definition lift {S A : Type} (x : outcome A) : M S A := fun s => (x, s).
Definition get {S : Type} : M S S := fun s => (Returns s, s).
Definition put {S : Type} (s : S) : M S unit := fun _ => (Returns tt, s).

#[global] Instance M_ret {S : Type} : MRet (M S) := @retM S.
#[global] Instance M_bind {S : Type} : MBind (M S) := fun A B k m => bindM m k.

(** ** Strings *)

Definition is_digit (c : ascii) : bool :=
  let n := nat_of_ascii c in (48 <=? n)%nat && (n <=? 57)%nat.

Definition is_upper (c : ascii) : bool :=
  let n := nat_of_ascii c in (65 <=? n)%nat && (n <=? 90)%nat.

(** The ASCII white space [str.strip] removes. *)
Definition is_space (c : ascii) : bool :=
  let n := nat_of_ascii c in
  ((9 <=? n)%nat && (n <=? 13)%nat) || (28 <=? n)%nat && (n <=? 32)%nat.

Definition lower_char (c : ascii) : ascii :=
  if is_upper c then ascii_of_nat (nat_of_ascii c + 32) else c.

(** [str.lower] on the bytes of the string: the letters A to Z are folded
    and any other byte is kept.  (No text with a character outside ASCII
    folds to [admin] or [done], the two words the program compares a
    lower-case form with.) *)
Fixpoint lower (s : string) : string :=
  match s with
  | EmptyString => EmptyString
  | String c r => String (lower_char c) (lower r)
  end.

Fixpoint lstrip (s : string) : string :=
  match s with
  | EmptyString => EmptyString
  | String c r => if is_space c then lstrip r else s
  end.

Fixpoint rstrip (s : string) : string :=
  match s with
  | EmptyString => EmptyString
  | String c r =>
      match rstrip r with
      | EmptyString => if is_space c then EmptyString else String c EmptyString
      | r' => String c r'
      end
  end.

Definition strip (s : string) : string := rstrip (lstrip s).

Fixpoint zeros (n : nat) : string :=
  match n with
  | O => EmptyString
  | S k => String "0" (zeros k)
  end.

Fixpoint string_forallb (p : ascii -> bool) (s : string) : bool :=
  match s with
  | EmptyString => true
  | String c r => p c && string_forallb p r
  end.

Fixpoint string_filter (p : ascii -> bool) (s : string) : string :=
  match s with
  | EmptyString => EmptyString
  | String c r => if p c then String c (string_filter p r) else string_filter p r
  end.

(** The longest prefix of digits, and what follows it. *)
Fixpoint span_digits (s : string) : string * string :=
  match s with
  | EmptyString => (EmptyString, EmptyString)
  | String c r =>
      if is_digit c
      then let (a, b) := span_digits r in (String c a, b)
      else (EmptyString, s)
  end.

Definition slen (s : string) : Z := Z.of_nat (String.length s).

(** The slices [s[:n]] and [s[n:]]. *)
Fixpoint str_take_nat (n : nat) (s : string) : string :=
  match n, s with
  | S k, String c r => String c (str_take_nat k r)
  | _, _ => EmptyString
  end.

Fixpoint str_drop_nat (n : nat) (s : string) : string :=
  match n, s with
  | S k, String c r => str_drop_nat k r
  | _, _ => s
  end.

Definition str_take (n : Z) (s : string) : string := str_take_nat (Z.to_nat n) s.
Definition str_drop (n : Z) (s : string) : string := str_drop_nat (Z.to_nat n) s.

(** ** Decimal numerals *)

Definition digit_val (c : ascii) : N := N.of_nat (nat_of_ascii c - 48).

(** [int(s)] of a string of digits, most significant first. *)
Fixpoint num_of_digits (acc : N) (s : string) : N :=
  match s with
  | EmptyString => acc
  | String c r => num_of_digits (10 * acc + digit_val c) r
  end.

(** [str(n)] of a natural number. *)
Definition digits (n : N) : string := NilZero.string_of_uint (N.to_uint n).

Definition ndigits (n : N) : Z := slen (digits n).

(** ["%+d" % z] *)
Definition signed_str (z : Z) : string :=
  (if z <? 0 then "-" else "+") +:+ digits (Z.abs_N z).

(** [str(z)] of an [int]. *)
Definition int_str (z : Z) : string :=
  (if z <? 0 then "-" else "") +:+ digits (Z.abs_N z).

(** An optional sign in front of a numeral: whether it is negative, and the
    rest. *)
Definition lex_sign (s : string) : bool * string :=
  match s with
  | String "-" r => (true, r)
  | String "+" r => (false, r)
  | _ => (false, s)
  end.

(** The exponent part that may end a numeral: the letter E in either case,
    an optional sign and at least one digit; nothing may follow it. *)
Definition lex_exponent (s : string) : option Z :=
  match s with
  | EmptyString => Some 0
  | String c r =>
      if (Ascii.eqb c "E" || Ascii.eqb c "e")%bool then
        let (neg, r1) := lex_sign r in
        match span_digits r1 with
        | (EmptyString, _) => None
        | (ds, EmptyString) =>
            let v := Z.of_N (num_of_digits 0 ds) in
            Some (if neg then - v else v)
        | (_, String _ _) => None
        end
      else None
  end.

(** A numeral: an optional sign, digits with an optional point among them
    (at least one digit in all), and an optional exponent part.  It is read
    as its sign, the digits before and after the point, and the exponent. *)
Definition lex_numeral (s : string) : option (bool * string * string * Z) :=
  let (neg, s1) := lex_sign s in
  let (ip, s2) := span_digits s1 in
  let (fp, s3) :=
    match s2 with
    | String "." r => span_digits r
    | _ => (EmptyString, s2)
    end in
  match ip +:+ fp with
  | EmptyString => None
  | _ =>
      match lex_exponent s3 with
      | Some e => Some (neg, ip, fp, e)
      | None => None
      end
  end.

(** ** [decimal.Decimal]

    A finite decimal number is a sign, a coefficient and an exponent, as in
    the module [decimal]: its value is [(-1)^sign * coefficient * 10^exponent].
    The special values (the infinities and NaN) and the bounds
    [Emax = 999999] and [Emin = -999999] on the exponent are left out: money
    amounts never meet them.  The precision of the default context is kept:
    the result of an operation is rounded to 28 significant digits, half to
    even.  So the operations below are those of the context on finite
    numbers whose exact result lies in its exponent range ([in_context]);
    outside of it the context raises [decimal.Overflow] or rounds to its
    smallest exponent, and the properties that compute with amounts take
    the results inside. *)

Record PyDecimal : Type := mkDecimal {
  dsign : bool;      (* [_sign]: true when negative *)
  dcoef : N;         (* [_int], as a number *)
  dexp : Z           (* [_exp] *)
}.

#[global] Instance PyDecimal_eq_dec : EqDecision PyDecimal.
Proof. solve_decision. Defined.

(** [str(d)]: the scientific string of the number; no exponent is written
    when the exponent is at most 0 and the number is at least [1E-6]. *)
Definition dec_str (d : PyDecimal) : string :=
  let ds := digits (dcoef d) in
  let n := slen ds in
  let leftdigits := dexp d + n in
  let dotplace :=
    if (dexp d <=? 0) && (-6 <? leftdigits) then leftdigits else 1 in
  let intpart :=
    if dotplace <=? 0 then "0"
    else if n <=? dotplace then ds +:+ zeros (Z.to_nat (dotplace - n))
    else str_take dotplace ds in
  let fracpart :=
    if dotplace <=? 0 then "." +:+ zeros (Z.to_nat (- dotplace)) +:+ ds
    else if n <=? dotplace then ""
    else "." +:+ str_drop dotplace ds in
  let exp :=
    if leftdigits =? dotplace then ""
    else "E" +:+ signed_str (leftdigits - dotplace) in
  (if dsign d then "-" else "") +:+ intpart +:+ fracpart +:+ exp.

(** [Decimal(s)] of a string: white space around the numeral and
    underscores are dropped; the coefficient is the digits before and after
    the point read as one number, and the digits after the point lower the
    exponent.  A string that is no numeral raises [InvalidOperation]. *)
Definition Decimal_of_str (s : string) : outcome PyDecimal :=
  let s := string_filter (fun c => negb (Ascii.eqb c "_")) (strip s) in
  match lex_numeral s with
  | Some (neg, ip, fp, e) =>
      Returns (mkDecimal neg (num_of_digits 0 (ip +:+ fp)) (e - slen fp))
  | None => Raises InvalidOperation
  end.

(** [Decimal(z)] of an [int]. *)
Definition Decimal_of_int (z : Z) : PyDecimal :=
  mkDecimal (z <? 0) (Z.abs_N z) 0.

(** The precision of the default context. *)
Definition prec : Z := 28.

(** [_fix]: the number rounded to the precision of the context.  With [k]
    digits too many, the last [k] digits are dropped; the rest goes up by
    one when they are more than half a unit, or half a unit exactly next to
    an odd digit, and when that makes a 29th digit the last digit is dropped
    as well. *)
Definition fix_ (d : PyDecimal) : PyDecimal :=
  let k := ndigits (dcoef d) - prec in
  if (dcoef d =? 0)%N || (k <=? 0) then d
  else
    let p := (10 ^ Z.to_N k)%N in
    let q := (dcoef d / p)%N in
    let r := (dcoef d mod p)%N in
    let changed := (p <? 2 * r)%N || ((2 * r =? p)%N && N.odd q) in
    if changed then
      let coeff := (q + 1)%N in
      if prec <? ndigits coeff
      then mkDecimal (dsign d) (coeff / 10)%N (dexp d + k + 1)
      else mkDecimal (dsign d) coeff (dexp d + k)
    else mkDecimal (dsign d) q (dexp d + k).

(** The coefficient of [d], with its sign, at the exponent [e <= dexp d]. *)
Definition scaled (d : PyDecimal) (e : Z) : Z :=
  let c := Z.of_N (dcoef d) * 10 ^ (dexp d - e) in
  if dsign d then - c else c.

(** The exact sum: the exponent is the smaller of the two; a zero sum is
    negative only when both numbers are negative zeros. *)
Definition dec_add_exact (a b : PyDecimal) : PyDecimal :=
  let e := Z.min (dexp a) (dexp b) in
  let s := scaled a e + scaled b e in
  let sign :=
    if s =? 0
    then (dcoef a =? 0)%N && (dcoef b =? 0)%N && dsign a && dsign b
    else s <? 0 in
  mkDecimal sign (Z.abs_N s) e.

(** [a + b] *)
Definition dec_add (a b : PyDecimal) : PyDecimal := fix_ (dec_add_exact a b).

(** [copy_negate] *)
Definition dec_neg (a : PyDecimal) : PyDecimal :=
  mkDecimal (negb (dsign a)) (dcoef a) (dexp a).

(** [a - b] is [a + b.copy_negate()]. *)
Definition dec_sub (a b : PyDecimal) : PyDecimal := dec_add a (dec_neg b).

(** [a * b] *)
Definition dec_mul (a b : PyDecimal) : PyDecimal :=
  fix_ (mkDecimal (xorb (dsign a) (dsign b)) (dcoef a * dcoef b) (dexp a + dexp b)).

(** [_cmp]: the comparison of the two values, which is exact. *)
Definition dec_cmp (a b : PyDecimal) : comparison :=
  let e := Z.min (dexp a) (dexp b) in
  scaled a e ?= scaled b e.

(** [a < b] and [a == b] *)
Definition dec_lt (a b : PyDecimal) : bool :=
  match dec_cmp a b with Lt => true | _ => false end.
Definition dec_eq (a b : PyDecimal) : bool :=
  match dec_cmp a b with Eq => true | _ => false end.

(** ** [int] and [float] of a string

    Both strip the white space of C ([\t] to [\r] and the space) and accept
    one underscore between two digits.  The digits are those of ASCII; the
    properties that rest on a text being refused take the text as written
    in ASCII, since the readers of Python take the decimal digits and the
    white space of every script. *)

(** [sys.get_int_max_str_digits()]: the most digits of an [int] that [int]
    reads from a text and that [str], [repr] and [json.dumps] write; more
    digits raise [ValueError] (leading zeros count, underscores do not). *)
Definition int_max_str_digits : Z := 4300.

Definition is_cspace (c : ascii) : bool :=
  let n := nat_of_ascii c in ((9 <=? n)%nat && (n <=? 13)%nat) || (n =? 32)%nat.

Fixpoint lstrip_c (s : string) : string :=
  match s with
  | EmptyString => EmptyString
  | String c r => if is_cspace c then lstrip_c r else s
  end.

Fixpoint rstrip_c (s : string) : string :=
  match s with
  | EmptyString => EmptyString
  | String c r =>
      match rstrip_c r with
      | EmptyString => if is_cspace c then EmptyString else String c EmptyString
      | r' => String c r'
      end
  end.

(** The string without its underscores, when each of them stands between two
    digits. *)
Fixpoint group_digits (after_digit : bool) (s : string) : option string :=
  match s with
  | EmptyString => Some EmptyString
  | String c r =>
      if Ascii.eqb c "_" then
        match r with
        | String c' _ =>
            if after_digit && is_digit c' then group_digits false r else None
        | EmptyString => None
        end
      else String c <$> group_digits (is_digit c) r
  end.

(** [int(s)] of a string, in base 10. *)
Definition int_of_str (s : string) : outcome Z :=
  match group_digits false (rstrip_c (lstrip_c s)) with
  | Some t =>
      let (neg, t1) := lex_sign t in
      match span_digits t1 with
      | (EmptyString, _) => Raises ValueError
      | (ds, EmptyString) =>
          if int_max_str_digits <? slen ds then Raises ValueError
          else
            let v := Z.of_N (num_of_digits 0 ds) in
            Returns (if neg then - v else v)
      | (_, String _ _) => Raises ValueError
      end
  | None => Raises ValueError
  end.

(** A binary64 number: a finite [(-1)^neg * m * 2^e] with [m < 2^53] and
    [-1074 <= e <= 971], where [m >= 2^52] unless [e = -1074]; an infinity;
    or NaN. *)
Inductive PyFloat : Type :=
| FFinite (neg : bool) (m : N) (e : Z)
| FInf (neg : bool)
| FNaN.

#[global] Instance PyFloat_eq_dec : EqDecision PyFloat.
Proof. solve_decision. Defined.

(** [n / d] rounded to the nearest integer, half to even ([0 <= n], [0 < d]). *)
Definition div_half_even (n d : Z) : Z :=
  let q := n / d in
  let r := n mod d in
  if 2 * r <? d then q
  else if d <? 2 * r then q + 1
  else if Z.even q then q else q + 1.

(** The binary64 number nearest to [n / d] ([0 <= n], [0 < d]), ties to
    even: 53 bits are kept, fewer below [2^-1022], and what rounds to
    [2^1024] or more is an infinity. *)
Definition binary64_of_ratio (neg : bool) (n d : Z) : PyFloat :=
  if n =? 0 then FFinite neg 0 (-1074)
  else
    let l := Z.log2 n - Z.log2 d in
    let fl := if (if 0 <=? l then d * 2 ^ l <=? n else d <=? n * 2 ^ (- l))
              then l else l - 1 in
    let e := Z.max (fl - 52) (-1074) in
    let m := if 0 <=? e then div_half_even n (d * 2 ^ e)
             else div_half_even (n * 2 ^ (- e)) d in
    let (m, e) := if m =? 2 ^ 53 then (2 ^ 52, e + 1) else (m, e) in
    if 971 <? e then FInf neg else FFinite neg (Z.to_N m) e.

(** The binary64 number nearest to [c * 10^x]. *)
Definition binary64_of_decimal (neg : bool) (c : N) (x : Z) : PyFloat :=
  if 0 <=? x then binary64_of_ratio neg (Z.of_N c * 10 ^ x) 1
  else binary64_of_ratio neg (Z.of_N c) (10 ^ (- x)).

(** [float(s)] of a string: a numeral, or one of the names [inf], [infinity]
    and [nan] in any case, behind an optional sign. *)
Definition float_of_str (s : string) : outcome PyFloat :=
  let t := rstrip_c (lstrip_c s) in
  let (neg, name) := lex_sign (lower t) in
  if (String.eqb name "inf" || String.eqb name "infinity")%bool then Returns (FInf neg)
  else if String.eqb name "nan" then Returns FNaN
  else
    match group_digits false t with
    | Some u =>
        match lex_numeral u with
        | Some (neg, ip, fp, e) =>
            Returns (binary64_of_decimal neg (num_of_digits 0 (ip +:+ fp)) (e - slen fp))
        | None => Raises ValueError
        end
    | None => Raises ValueError
    end.

(** *** [repr] of a [float]

    The shortest string of digits that reads back as the same number and,
    among the strings of that length, the nearest to it (of two equally
    near, the one that ends in an even digit). *)

(** The decimal exponent [k] of [n / d > 0]: [10^(k-1) <= n / d < 10^k]. *)
Definition decimal_exponent (n d : Z) : Z :=
  if d <=? n then
    ndigits (Z.to_N (n / d))
  else
    let j := ndigits (Z.to_N ((d + n - 1) / n)) in
    if d <=? n * 10 ^ (j - 1) then 2 - j else 1 - j.

(** [n / d * 10^x] as a ratio. *)
Definition shift10 (n d x : Z) : Z * Z :=
  if 0 <=? x then (n * 10 ^ x, d) else (n, d * 10 ^ (- x)).

(** With [p] digits: the two [p]-digit numbers around [n / d], and of those
    that read back as [f] the nearer one. *)
Definition repr_candidate (f : PyFloat) (n d k p : Z) : option Z :=
  let (n', d') := shift10 n d (p - k) in
  let lo := n' / d' in
  let hi := lo + 1 in
  let back (c : Z) := bool_decide (binary64_of_decimal false (Z.to_N c) (k - p) = f) in
  let exact := n' mod d' =? 0 in
  let near_lo :=
    (2 * (n' mod d') <? d') || ((2 * (n' mod d') =? d') && Z.even lo) in
  if exact then (if back lo then Some lo else None)
  else match back lo, back hi with
       | true, true => Some (if near_lo then lo else hi)
       | true, false => Some lo
       | false, true => Some hi
       | false, false => None
       end.

Fixpoint repr_search (fuel : nat) (f : PyFloat) (n d k p : Z) : Z * Z :=
  match fuel with
  | O => (0, p)
  | S fuel' =>
      match repr_candidate f n d k p with
      | Some c => (c, p)
      | None => repr_search fuel' f n d k (p + 1)
      end
  end.

Fixpoint strip_zeros (fuel : nat) (c : Z) : Z :=
  match fuel with
  | O => c
  | S fuel' => if (c mod 10 =? 0) && negb (c =? 0) then strip_zeros fuel' (c / 10) else c
  end.

(** The digits of [repr] and the place of the point: the value is
    [0.digits * 10^decpt]. *)
Definition repr_digits (m : N) (e : Z) : string * Z :=
  let (n, d) := if 0 <=? e then (Z.of_N m * 2 ^ e, 1) else (Z.of_N m, 2 ^ (- e)) in
  let k := decimal_exponent n d in
  let (c, p) := repr_search 17 (FFinite false m e) n d k 1 in
  let c' := strip_zeros 20 c in
  (digits (Z.to_N c'), k + (ndigits (Z.to_N c) - p)).

(** [repr(f)], which is also [str(f)]: an exponent is written when the point
    would stand more than 16 places to the right or more than 3 to the left
    of the digits. *)
Definition float_repr (f : PyFloat) : string :=
  match f with
  | FNaN => "nan"
  | FInf neg => if neg then "-inf" else "inf"
  | FFinite neg m e =>
      (if neg then "-" else "") +:+
      (if (m =? 0)%N then "0.0"
       else
         let (ds, decpt) := repr_digits m e in
         let n := slen ds in
         if (decpt <=? -4) || (16 <? decpt) then
           str_take 1 ds +:+ (if 1 <? n then "." +:+ str_drop 1 ds else "") +:+ "e" +:+
           (if decpt - 1 <? 0 then "-" else "+") +:+
           (if Z.abs (decpt - 1) <? 10 then "0" else "") +:+
           digits (Z.abs_N (decpt - 1))
         else if decpt <=? 0 then "0." +:+ zeros (Z.to_nat (- decpt)) +:+ ds
         else if n <=? decpt then ds +:+ zeros (Z.to_nat (decpt - n)) +:+ ".0"
         else str_take decpt ds +:+ "." +:+ str_drop decpt ds)
  end.

(** ** [datetime]

    Naive dates and times of the proleptic Gregorian calendar, with the
    arithmetic of the module [datetime]. *)

Record datetime : Type := mkDatetime {
  year : Z; month : Z; day : Z;
  hour : Z; minute : Z; second : Z; microsecond : Z
}.

#[global] Instance datetime_eq_dec : EqDecision datetime.
Proof. solve_decision. Defined.

(** [d.date()], as the triple of year, month and day. *)
Definition date_of (d : datetime) : Z * Z * Z := (year d, month d, day d).

Definition _is_leap (y : Z) : bool :=
  (y mod 4 =? 0) && (negb (y mod 100 =? 0) || (y mod 400 =? 0)).

Definition _days_before_year (y : Z) : Z :=
  let y := y - 1 in y * 365 + y / 4 - y / 100 + y / 400.

Definition _days_in_month (y m : Z) : Z :=
  if (m =? 2) && _is_leap y then 29
  else nth (Z.to_nat m) [0; 31; 28; 31; 30; 31; 30; 31; 31; 30; 31; 30; 31] 0.

Definition _days_before_month (y m : Z) : Z :=
  nth (Z.to_nat m) [0; 0; 31; 59; 90; 120; 151; 181; 212; 243; 273; 304; 334] 0
  + (if (2 <? m) && _is_leap y then 1 else 0).

Definition _ymd2ord (y m d : Z) : Z :=
  _days_before_year y + _days_before_month y m + d.

Definition toordinal (d : datetime) : Z := _ymd2ord (year d) (month d) (day d).

(** [(a - b).days]: the difference is normalised so that its seconds and
    microseconds are not negative, hence the days are rounded down. *)
Definition sub_days (a b : datetime) : Z :=
  let secs (d : datetime) := second d + minute d * 60 + hour d * 3600 in
  let us := ((toordinal a - toordinal b) * 86400 + (secs a - secs b)) * 1000000
            + (microsecond a - microsecond b) in
  us / (86400 * 1000000).

Definition valid_date (y m d : Z) : bool :=
  (1 <=? y) && (y <=? 9999) && (1 <=? m) && (m <=? 12) &&
  (1 <=? d) && (d <=? _days_in_month y m).

(** Exactly [n] digits at the head of [s]: their value and the rest. *)
Fixpoint read_digits (n : nat) (acc : N) (s : string) : option (Z * string) :=
  match n with
  | O => Some (Z.of_N acc, s)
  | S k =>
      match s with
      | String c r =>
          if is_digit c then read_digits k (10 * acc + digit_val c) r else None
      | EmptyString => None
      end
  end.

Definition expect (c : ascii) (s : string) : option string :=
  match s with
  | String c' r => if Ascii.eqb c c' then Some r else None
  | EmptyString => None
  end.

(** The directive [%m]: [1[0-2]], [0[1-9]] or [[1-9]], tried in this order. *)
Definition read_month (s : string) : option (Z * string) :=
  match read_digits 2 0 s with
  | Some (m, r) => if (1 <=? m) && (m <=? 12) then Some (m, r)
                   else match read_digits 1 0 s with
                        | Some (m, r) => if 1 <=? m then Some (m, r) else None
                        | None => None
                        end
  | None => match read_digits 1 0 s with
            | Some (m, r) => if 1 <=? m then Some (m, r) else None
            | None => None
            end
  end.

(** The directive [%d]: [3[01]], [[12]\d], [0[1-9]], [[1-9]] or a space and
    [[1-9]], tried in this order. *)
Definition read_day (s : string) : option (Z * string) :=
  let one (t : string) :=
    match read_digits 1 0 t with
    | Some (d, r) => if 1 <=? d then Some (d, r) else None
    | None => None
    end in
  match read_digits 2 0 s with
  | Some (d, r) => if (1 <=? d) && (d <=? 31) then Some (d, r) else one s
  | None =>
      match one s with
      | Some x => Some x
      | None => match expect " " s with
                | Some t => one t
                | None => None
                end
      end
  end.

(** [datetime.strptime(s, "%Y-%m-%d")]: the whole string must be read, and
    the date must exist. *)
Definition strptime_ymd (s : string) : outcome datetime :=
  let parsed :=
    '(y, s1) ← read_digits 4 0 s;
    s2 ← expect "-" s1;
    '(m, s3) ← read_month s2;
    s4 ← expect "-" s3;
    '(d, s5) ← read_day s4;
    match s5 with
    | EmptyString => Some (y, m, d)
    | String _ _ => None
    end in
  match parsed with
  | Some (y, m, d) =>
      if valid_date y m d then Returns (mkDatetime y m d 0 0 0 0)
      else Raises ValueError
  | None => Raises ValueError
  end.

(** The part of a second written behind the point: the first six digits
    are the microseconds. *)
Definition read_fraction (s : string) : option Z :=
  let (ds, r) := span_digits s in
  match r with
  | EmptyString =>
      let ds := str_take_nat 6 ds in
      let n := String.length ds in
      if (1 <=? n)%nat
      then Some (Z.of_N (num_of_digits 0 ds) * 10 ^ (6 - Z.of_nat n))
      else None
  | String _ _ => None
  end.

(** The time [HH[:MM[:SS[.ffffff]]]] of an ISO text. *)
Definition read_time (s : string) : option (Z * Z * Z * Z) :=
  '(hh, s1) ← read_digits 2 0 s;
  match s1 with
  | EmptyString => Some (hh, 0, 0, 0)
  | String _ _ =>
      s2 ← expect ":" s1;
      '(mi, s3) ← read_digits 2 0 s2;
      match s3 with
      | EmptyString => Some (hh, mi, 0, 0)
      | String _ _ =>
          s4 ← expect ":" s3;
          '(ss, s5) ← read_digits 2 0 s4;
          match s5 with
          | EmptyString => Some (hh, mi, ss, 0)
          | String c s6 =>
              if (Ascii.eqb c "." || Ascii.eqb c ",")%bool
              then us ← read_fraction s6; Some (hh, mi, ss, us)
              else None
          end
      end
  end.

(** [datetime.fromisoformat(s)] for a date [YYYY-MM-DD], alone or followed
    by one separator character and a time; these are the layouts
    [isoformat] writes.  The other ISO 8601 layouts the function reads
    (dates without hyphens, week dates, times without colons, time zones)
    are left out. *)
Definition fromisoformat (s : string) : outcome datetime :=
  let parsed :=
    '(y, s1) ← read_digits 4 0 s;
    s2 ← expect "-" s1;
    '(m, s3) ← read_digits 2 0 s2;
    s4 ← expect "-" s3;
    '(d, s5) ← read_digits 2 0 s4;
    match s5 with
    | EmptyString => Some (mkDatetime y m d 0 0 0 0)
    | String _ s6 =>
        '(hh, mi, ss, us) ← read_time s6;
        Some (mkDatetime y m d hh mi ss us)
    end in
  match parsed with
  | Some t =>
      if valid_date (year t) (month t) (day t) &&
         (hour t <? 24) && (minute t <? 60) && (second t <? 60)
      then Returns t else Raises ValueError
  | None => Raises ValueError
  end.

(** [n] written with at least [w] digits. *)
Definition pad (w : nat) (n : Z) : string :=
  let ds := digits (Z.to_N n) in
  zeros (w - String.length ds) +:+ ds.

(** [d.date().isoformat()] *)
Definition date_isoformat (d : datetime) : string :=
  pad 4 (year d) +:+ "-" +:+ pad 2 (month d) +:+ "-" +:+ pad 2 (day d).

(** [d.isoformat()]: the microseconds are written when they are not 0. *)
Definition isoformat (d : datetime) : string :=
  date_isoformat d +:+ "T" +:+
  pad 2 (hour d) +:+ ":" +:+ pad 2 (minute d) +:+ ":" +:+ pad 2 (second d) +:+
  (if microsecond d =? 0 then "" else "." +:+ pad 6 (microsecond d)).

(** [Decimal(f)] of a [float] is exact: [n / 2^k] in lowest terms is
    [n * 5^k] at the exponent [-k]. *)
Fixpoint lowest_terms (fuel : nat) (m : Z) (k : Z) : Z * Z :=
  match fuel with
  | O => (m, k)
  | S fuel' =>
      if (0 <? k) && Z.even m && negb (m =? 0)
      then lowest_terms fuel' (m / 2) (k - 1) else (m, k)
  end.

(** An infinity or NaN has no finite decimal number. *)
Definition Decimal_of_float (f : PyFloat) : outcome PyDecimal :=
  match f with
  | FFinite neg m e =>
      if (m =? 0)%N then Returns (mkDecimal neg 0 0)
      else if 0 <=? e then Returns (mkDecimal neg (m * 2 ^ Z.to_N e) 0)
      else let (n, k) := lowest_terms 1074 (Z.of_N m) (- e) in
           Returns (mkDecimal neg (Z.to_N (n * 5 ^ k)) (- k))
  | _ => Raises InvalidOperation
  end.

(** ** The values of a JSON document *)

Inductive pyval : Type :=
| VNone
| VBool (b : bool)
| VInt (z : Z)
| VFloat (f : PyFloat)
| VStr (s : string)
| VList (l : list pyval)
| VDict (d : gmap string pyval).

(** A record of a document is a [dict] of fields; a document maps the
    identifiers to the records. *)
Abbreviation record := (gmap string pyval).
Abbreviation document := (gmap string record).

(** [r[k]] *)
Definition getitem (r : record) (k : string) : outcome pyval :=
  match r !! k with
  | Some v => Returns v
  | None => Raises KeyError
  end.

(** [int(v)] *)
Definition py_int (v : pyval) : outcome Z :=
  match v with
  | VInt z => Returns z
  | VBool b => Returns (if b then 1 else 0)
  | VStr s => int_of_str s
  | VFloat (FFinite neg m e) =>
      let a := if 0 <=? e then Z.of_N m * 2 ^ e else Z.of_N m / 2 ^ (- e) in
      Returns (if neg then - a else a)
  | VFloat (FInf _) => Raises OverflowError
  | VFloat FNaN => Raises ValueError
  | VNone | VList _ | VDict _ => Raises TypeError
  end.

(** [Decimal(str(v))]: the text of [None], of a [bool], of a list or of a
    dict is no numeral. *)
Definition Decimal_of_text (v : pyval) : outcome PyDecimal :=
  match v with
  | VStr s => Decimal_of_str s
  | VInt z => Decimal_of_str (int_str z)
  | VFloat f => Decimal_of_str (float_repr f)
  | VNone | VBool _ | VList _ | VDict _ => Raises InvalidOperation
  end.

(** [Decimal(v)] *)
Definition Decimal_of_value (v : pyval) : outcome PyDecimal :=
  match v with
  | VStr s => Decimal_of_str s
  | VInt z => Returns (Decimal_of_int z)
  | VBool b => Returns (Decimal_of_int (if b then 1 else 0))
  | VFloat f => Decimal_of_float f
  | VNone | VList _ | VDict _ => Raises TypeError
  end.

(** What [sum] accumulates from its start value, the [int] 0. *)
Inductive number : Type :=
| NInt (z : Z)
| NDecimal (d : PyDecimal).

(** [acc + d] for a [Decimal] [d]: an [int] is converted exactly. *)
Definition number_add (acc : number) (d : PyDecimal) : number :=
  match acc with
  | NInt z => NDecimal (dec_add (Decimal_of_int z) d)
  | NDecimal a => NDecimal (dec_add a d)
  end.

Definition number_str (x : number) : string :=
  match x with
  | NInt z => int_str z
  | NDecimal d => dec_str d
  end.

(** [sum(ds)] *)
Definition sum_decimals (ds : list PyDecimal) : number :=
  fold_left number_add ds (NInt 0).

(** A comprehension [[f(x) for x in l]] whose body may raise. *)
Fixpoint mapM {A B : Type} (f : A -> outcome B) (l : list A) : outcome (list B) :=
  match l with
  | [] => Returns []
  | x :: r => y ← f x; ys ← mapM f r; Returns (y :: ys)
  end.

(** A comprehension [[x for x in l if p(x)]] whose condition may raise. *)
Fixpoint filterM {A : Type} (p : A -> outcome bool) (l : list A) : outcome (list A) :=
  match l with
  | [] => Returns []
  | x :: r => b ← p x; ys ← filterM p r; Returns (if b : bool then x :: ys else ys)
  end.

(** ** [JSONStorage]

    The file behind a storage object is absent, unreadable as JSON, or holds
    a document.  [save_data] replaces the file, and the count of the writes
    is kept beside it; the file system is taken to accept every write, so
    the handler in [save_data] that prints a refused write has no case
    here.  A document in a file is one [json.loads] has read, so its ints
    have at most 4300 digits; [json.dumps] refuses an int of more digits
    with [ValueError] before anything is written, so the properties that
    say what is written take the ints a call brings in as writable
    ([int_writable], [json_writable]). *)

Inductive file : Type :=
| NoFile
| Garbled
| Document (d : document).

Module JSONStorage.

Record t : Type := make {
  contents : file;
  writes : nat
}.

Definition load_data (self : t) : document :=
  match contents self with
  | Document d => d
  | NoFile | Garbled => ∅
  end.

Definition save_data (data : document) (self : t) : t :=
  {| contents := Document data; writes := S (writes self) |}.

End JSONStorage.

(** ** [TransactionItem] and [Transaction] *)

Record TransactionItem : Type := mkItem {
  product_id : string;
  quantity : Z;
  unit_price : PyDecimal;
  total_price : PyDecimal
}.

Module Transaction.

Record t : Type := make {
  _transaction_id : string;
  _cashier : string;
  _items : list TransactionItem;
  _timestamp : datetime;
  _total_amount : PyDecimal;
  _payment_received : PyDecimal;
  _change : PyDecimal
}.

(** [Decimal('0.00')] *)
Definition zero : PyDecimal := mkDecimal false 0 (-2).

(** [__init__]; [now] is what [datetime.now()] reads. *)
Definition init (transaction_id cashier : string) (now : datetime) : t :=
  make transaction_id cashier [] now zero zero zero.

Definition add_item (item : TransactionItem) : M t unit :=
  self ← get;
  put (make (_transaction_id self) (_cashier self) (_items self ++ [item])
         (_timestamp self) (_total_amount self) (_payment_received self)
         (_change self));;
  self ← get;
  put (make (_transaction_id self) (_cashier self) (_items self)
         (_timestamp self) (dec_add (_total_amount self) (total_price item))
         (_payment_received self) (_change self)).

Definition process_payment (amount_received : PyDecimal) : M t unit :=
  self ← get;
  if dec_lt amount_received (_total_amount self) then throw ValueError
  else
    put (make (_transaction_id self) (_cashier self) (_items self)
           (_timestamp self) (_total_amount self) amount_received
           (_change self));;
    self ← get;
    put (make (_transaction_id self) (_cashier self) (_items self)
           (_timestamp self) (_total_amount self) (_payment_received self)
           (dec_sub amount_received (_total_amount self))).

Definition item_dict (item : TransactionItem) : pyval :=
  VDict (<["product_id" := VStr (product_id item)]>
         (<["quantity" := VInt (quantity item)]>
         (<["unit_price" := VStr (dec_str (unit_price item))]>
         (<["total_price" := VStr (dec_str (total_price item))]> ∅)))).

Definition to_dict (self : t) : record :=
  <["transaction_id" := VStr (_transaction_id self)]>
  (<["cashier" := VStr (_cashier self)]>
  (<["timestamp" := VStr (isoformat (_timestamp self))]>
  (<["items" := VList (item_dict <$> _items self)]>
  (<["total_amount" := VStr (dec_str (_total_amount self))]>
  (<["payment_received" := VStr (dec_str (_payment_received self))]>
  (<["change" := VStr (dec_str (_change self))]> ∅)))))).

End Transaction.

(** ** [TransactionManager] *)

(** [x + y] for the numbers a JSON document holds, as [sum] adds them: an
    [int] and a [float] add as floats. *)
Definition float_ratio (f : PyFloat) : option (Z * Z) :=
  match f with
  | FFinite neg m e =>
      let n := if neg then - Z.of_N m else Z.of_N m in
      Some (if 0 <=? e then (n * 2 ^ e, 1) else (n, 2 ^ (- e)))
  | _ => None
  end.

Definition float_is_neg (f : PyFloat) : bool :=
  match f with
  | FFinite neg _ _ | FInf neg => neg
  | FNaN => false
  end.

Definition float_add (a b : PyFloat) : PyFloat :=
  match float_ratio a, float_ratio b with
  | Some (n1, d1), Some (n2, d2) =>
      let n := n1 * d2 + n2 * d1 in
      if n =? 0 then FFinite (float_is_neg a && float_is_neg b) 0 (-1074)
      else binary64_of_ratio (n <? 0) (Z.abs n) (d1 * d2)
  | _, _ =>
      match a, b with
      | FNaN, _ | _, FNaN => FNaN
      | FInf s1, FInf s2 => if Bool.eqb s1 s2 then FInf s1 else FNaN
      | FInf s1, _ => FInf s1
      | _, FInf s2 => FInf s2
      | _, _ => FNaN
      end
  end.

(** [float(z)] of an [int] *)
Definition float_of_int (z : Z) : outcome PyFloat :=
  match binary64_of_ratio (z <? 0) (Z.abs z) 1 with
  | FInf _ => Raises OverflowError
  | f => Returns f
  end.

Definition py_add (x y : pyval) : outcome pyval :=
  let as_int (v : pyval) :=
    match v with
    | VInt z => Some z
    | VBool b => Some (if b then 1 else 0)
    | _ => None
    end in
  match as_int x, as_int y, x, y with
  | Some a, Some b, _, _ => Returns (VInt (a + b))
  | Some a, None, _, VFloat g => f ← float_of_int a; Returns (VFloat (float_add f g))
  | None, Some b, VFloat f, _ => g ← float_of_int b; Returns (VFloat (float_add f g))
  | None, None, VFloat f, VFloat g => Returns (VFloat (float_add f g))
  | _, _, _, _ => Raises TypeError
  end.

(** [sum(f(x) for x in l)], from the [int] 0: each term is computed when
    it is added. *)
Definition py_sum {A : Type} (f : A -> outcome pyval) (l : list A) : outcome pyval :=
  foldl (fun acc x => a ← acc; v ← f x; py_add a v) (Returns (VInt 0)) l.

(** What a [for] over the value walks through, as far as a record can be
    read from each element: a list gives its elements, a string its
    characters and a dict its keys. *)
Definition elements_of (v : pyval) : outcome (list pyval) :=
  match v with
  | VList l => Returns l
  | VStr s => Returns ((fun c => VStr (String c EmptyString)) <$> list_ascii_of_string s)
  | VDict d => Returns (VStr <$> (map_to_list d).*1)
  | VNone | VBool _ | VInt _ | VFloat _ => Raises TypeError
  end.

(** [v[k]] for a string [k]: only a dict has such an item. *)
Definition subscript (v : pyval) (k : string) : outcome pyval :=
  match v with
  | VDict r => getitem r k
  | _ => Raises TypeError
  end.

(** ** Comparison, text and product of the values of a document *)

(** [v == s] for a string [s]: only an equal string is equal to it. *)
Definition eq_str (v : pyval) (s : string) : bool :=
  match v with
  | VStr t => bool_decide (t = s)
  | _ => false
  end.

(** [v <= z] for an [int] [z]: a number compares by its value, exactly; NaN
    is below nothing; [None], a string, a list or a dict does not compare
    with an [int]. *)
Definition le_int (v : pyval) (z : Z) : outcome bool :=
  match v with
  | VInt a => Returns (a <=? z)
  | VBool b => Returns ((if b then 1 else 0) <=? z)
  | VFloat f =>
      match float_ratio f with
      | Some (n, d) => Returns (n <=? z * d)
      | None => Returns (match f with FInf neg => neg | _ => false end)
      end
  | VNone | VStr _ | VList _ | VDict _ => Raises TypeError
  end.

Definition hex_digit (n : nat) : ascii :=
  ascii_of_nat (if (n <? 10)%nat then 48 + n else 87 + n).

(** What [repr] writes for the character [c] between the quotes [q]: the
    quote and the backslash behind a backslash, the control characters as
    escapes, any other character as it is. *)
Definition repr_char (q c : ascii) : string :=
  let n := nat_of_ascii c in
  if (Ascii.eqb c q || Ascii.eqb c "\")%bool then String "\" (String c "")
  else if Ascii.eqb c "009" then "\t"
  else if Ascii.eqb c "010" then "\n"
  else if Ascii.eqb c "013" then "\r"
  else if ((n <? 32) || (n =? 127))%nat then
    "\x" +:+ String (hex_digit (n / 16)) (String (hex_digit (n mod 16)) "")
  else String c "".

Fixpoint repr_chars (q : ascii) (s : string) : string :=
  match s with
  | EmptyString => EmptyString
  | String c r => repr_char q c +:+ repr_chars q r
  end.

(** [repr(s)] of a string: between single quotes, or between double quotes
    when the string holds a single quote and no double quote. *)
Definition str_repr (s : string) : string :=
  let has (c : ascii) := negb (string_forallb (fun x => negb (Ascii.eqb x c)) s) in
  let q : ascii := if has "'"%char && negb (has "034"%char) then "034"%char else "'"%char in
  String q (repr_chars q s) +:+ String q "".

(** [sep.join(l)] *)
Definition join (sep : string) (l : list string) : string :=
  match l with
  | [] => ""
  | x :: r => foldl (fun acc y => acc +:+ sep +:+ y) x r
  end.

(** [repr(v)] *)
Fixpoint py_repr (v : pyval) : string :=
  match v with
  | VNone => "None"
  | VBool b => if b then "True" else "False"
  | VInt z => int_str z
  | VFloat f => float_repr f
  | VStr s => str_repr s
  | VList l => "[" +:+ join ", " (py_repr <$> l) +:+ "]"
  | VDict d =>
      "{" +:+
      join ", " ((fun kv => str_repr kv.1 +:+ ": " +:+ kv.2) <$> map_to_list (py_repr <$> d))
      +:+ "}"
  end.

(** [str(v)]: a string is its own text, any other value is written as
    [repr] writes it. *)
Definition py_str (v : pyval) : string :=
  match v with
  | VStr s => s
  | _ => py_repr v
  end.

(** [a * b] of two floats: the exact product rounded to the nearest
    binary64 number; an infinity times zero is NaN. *)
Definition float_mul (a b : PyFloat) : PyFloat :=
  match a, b with
  | FNaN, _ | _, FNaN => FNaN
  | FInf s1, FInf s2 => FInf (xorb s1 s2)
  | FInf s1, FFinite s2 m _ | FFinite s1 m _, FInf s2 =>
      if (m =? 0)%N then FNaN else FInf (xorb s1 s2)
  | FFinite s1 m1 e1, FFinite s2 m2 e2 =>
      let m := Z.of_N (m1 * m2) in
      let e := e1 + e2 in
      if 0 <=? e then binary64_of_ratio (xorb s1 s2) (m * 2 ^ e) 1
      else binary64_of_ratio (xorb s1 s2) m (2 ^ (- e))
  end.

Fixpoint repeat_string (n : nat) (s : string) : string :=
  match n with
  | O => EmptyString
  | S k => s +:+ repeat_string k s
  end.

(** [x * y]: the product of two numbers, an [int] and a [float] as floats;
    a string or a list times an [int] is that many copies of it, none for a
    negative [int]. *)
Definition py_mul (x y : pyval) : outcome pyval :=
  let as_int (v : pyval) :=
    match v with
    | VInt z => Some z
    | VBool b => Some (if b then 1 else 0)
    | _ => None
    end in
  match as_int x, as_int y, x, y with
  | Some a, Some b, _, _ => Returns (VInt (a * b))
  | Some a, None, _, VFloat g => f ← float_of_int a; Returns (VFloat (float_mul f g))
  | None, Some b, VFloat f, _ => g ← float_of_int b; Returns (VFloat (float_mul f g))
  | None, None, VFloat f, VFloat g => Returns (VFloat (float_mul f g))
  | Some a, None, _, VStr s | None, Some a, VStr s, _ =>
      Returns (VStr (repeat_string (Z.to_nat a) s))
  | Some a, None, _, VList l | None, Some a, VList l, _ =>
      Returns (VList (concat (replicate (Z.to_nat a) l)))
  | _, _, _, _ => Raises TypeError
  end.

(** A [for] loop over [l] that carries [acc] and may raise. *)
Fixpoint foldM {A B : Type} (f : B -> A -> outcome B) (acc : B) (l : list A) : outcome B :=
  match l with
  | [] => Returns acc
  | x :: r => acc' ← f acc x; foldM f acc' r
  end.

Module TransactionManager.

Record t : Type := make {
  _storage : JSONStorage.t
}.

Definition save_transaction (transaction : Transaction.t) : M t unit :=
  self ← get;
  let transactions := JSONStorage.load_data (_storage self) in
  let transactions :=
    <[Transaction._transaction_id transaction := Transaction.to_dict transaction]>
      transactions in
  put (make (JSONStorage.save_data transactions (_storage self))).

(** The condition of the comprehension: the record was written on the
    calendar day of [date]. *)
Definition on_day (date : datetime) (v : record) : outcome bool :=
  ts ← getitem v "timestamp";
  match ts with
  | VStr s => d ← fromisoformat s; Returns (bool_decide (date_of d = date_of date))
  | _ => Raises TypeError
  end.

Definition items_sold (v : record) : outcome pyval :=
  items ← getitem v "items";
  l ← elements_of items;
  py_sum (fun item => subscript item "quantity") l.

Definition get_daily_sales_report (date : datetime) (self : t) : outcome record :=
  let transactions := JSONStorage.load_data (_storage self) in
  daily ← filterM (fun kv => on_day date kv.2) (map_to_list transactions);
  amounts ← mapM (fun kv => a ← getitem kv.2 "total_amount"; Decimal_of_value a) daily;
  let total_sales := sum_decimals amounts in
  total_items ← py_sum (fun kv => items_sold kv.2) daily;
  Returns (<["date" := VStr (date_isoformat date)]>
          (<["total_sales" := VStr (number_str total_sales)]>
          (<["total_transactions" := VInt (Z.of_nat (length daily))]>
          (<["total_items_sold" := total_items]>
          (<["transactions" := VDict (VDict <$> list_to_map daily)]> ∅))))).

(** The condition of the second comprehension: the record was written in
    the month [m] of the year [y].  The month is read from the timestamp
    only when the year is [y]; it is the same timestamp. *)
Definition in_month (y m : Z) (v : record) : outcome bool :=
  ts ← getitem v "timestamp";
  match ts with
  | VStr s => d ← fromisoformat s; Returns ((year d =? y) && (month d =? m))
  | _ => Raises TypeError
  end.

(** One round of the loop over the records of the month: the total of the
    day of [t] grows by the amount of [t]; a day met for the first time
    starts at [Decimal('0.00')] and goes last in [daily_totals]. *)
Definition add_day (daily_totals : list (Z * Z * Z * PyDecimal)) (t : record)
  : outcome (list (Z * Z * Z * PyDecimal)) :=
  ts ← getitem t "timestamp";
  d ← match ts with
      | VStr s => fromisoformat s
      | _ => Raises TypeError
      end;
  let date := date_of d in
  let daily_totals :=
    if decide (date ∈ daily_totals.*1) then daily_totals
    else daily_totals ++ [(date, Transaction.zero)] in
  a ← getitem t "total_amount";
  amount ← Decimal_of_value a;
  Returns ((fun kv : Z * Z * Z * PyDecimal =>
              if decide (kv.1 = date) then (kv.1, dec_add kv.2 amount) else kv)
           <$> daily_totals).

(** [str(date)] of a date. *)
Definition date_str (date : Z * Z * Z) : string :=
  let '(y, m, d) := date in date_isoformat (mkDatetime y m d 0 0 0 0).

Definition get_monthly_sales_report (year month : Z) (self : t) : outcome record :=
  let transactions := JSONStorage.load_data (_storage self) in
  monthly ← filterM (fun kv => in_month year month kv.2) (map_to_list transactions);
  daily_totals ← foldM add_day [] monthly.*2;
  Returns (<["year" := VInt year]>
          (<["month" := VInt month]>
          (<["total_sales" := VStr (number_str (sum_decimals daily_totals.*2))]>
          (<["total_transactions" := VInt (Z.of_nat (length monthly))]>
          (<["daily_totals" :=
               VDict (list_to_map
                        ((fun kv : Z * Z * Z * PyDecimal =>
                            (date_str kv.1, VStr (dec_str kv.2))) <$> daily_totals))]>
             ∅))))).

End TransactionManager.

(** ** [User] *)

Module User.

Record t : Type := make {
  _username : string;
  _password : string;
  _role : string;
  _storage : JSONStorage.t
}.

Definition _determine_role (username : string) : string :=
  if decide (username = "admin") then "Admin" else "salesman".

(** [__init__]; [users] is the file of the user data. *)
Definition init (username password : string) (users : JSONStorage.t) : t :=
  make username password (_determine_role username) users.

Definition register : M t bool :=
  self ← get;
  if decide (lower (_username self) = "admin") then mret false
  else
    let user_data := JSONStorage.load_data (_storage self) in
    if decide (is_Some (user_data !! _username self)) then mret false
    else
      let user_data :=
        <[_username self :=
            <["password" := VStr (_password self)]>
            (<["role" := VStr "salesman"]> ∅)]> user_data in
      put (make (_username self) (_password self) (_role self)
             (JSONStorage.save_data user_data (_storage self)));;
      mret true.

End User.

(** ** The [User] that logs in

    [authenticate] puts in [_role] what the file holds under ["role"], which
    is any value of the document; so the object that logs in carries its
    role as a value. *)

Module UserLogin.

Record t : Type := make {
  _username : string;
  _password : string;
  _role : pyval;
  _storage : JSONStorage.t
}.

(** [__init__]; [users] is the file of the user data. *)
Definition init (username password : string) (users : JSONStorage.t) : t :=
  make username password (VStr (User._determine_role username)) users.

Definition authenticate : M t bool :=
  self ← get;
  let user_data := JSONStorage.load_data (_storage self) in
  if bool_decide (user_data = ∅) && bool_decide (_username self = "admin") then
    let user_data :=
      <[_username self :=
          <["password" := VStr (_password self)]>
          (<["role" := VStr "Admin"]> ∅)]> user_data in
    put (make (_username self) (_password self) (_role self)
           (JSONStorage.save_data user_data (_storage self)));;
    mret true
  else
    match user_data !! _username self with
    | Some r =>
        stored_password ← lift (getitem r "password");
        if eq_str stored_password (_password self) then
          role ← lift (getitem r "role");
          put (make (_username self) (_password self) role (_storage self));;
          mret true
        else mret false
    | None => mret false
    end.

End UserLogin.

(** ** [Product] *)

(** What the program passes as a price: [Decimal] by the signature of
    [Product], a [float] from the admin form. *)
Inductive price : Type :=
| PDecimal (d : PyDecimal)
| PFloat (f : PyFloat).

(** [str(p)] *)
Definition price_str (p : price) : string :=
  match p with
  | PDecimal d => dec_str d
  | PFloat f => float_repr f
  end.

Module Product.

Record t : Type := make {
  _product_id : string;
  _name : string;
  _category : string;
  _price : price;
  _quantity : Z;
  _expiry_date : string
}.

Definition to_dict (self : t) : record :=
  <["product_id" := VStr (_product_id self)]>
  (<["name" := VStr (_name self)]>
  (<["category" := VStr (_category self)]>
  (<["price" := VStr (price_str (_price self))]>
  (<["quantity" := VInt (_quantity self)]>
  (<["expiry_date" := VStr (_expiry_date self)]> ∅))))).

End Product.

(** ** [Inventory] *)

Module Inventory.

Record t : Type := make {
  _storage : JSONStorage.t;
  _low_stock_threshold : Z
}.

(** [__init__]; [products] is the file of the inventory. *)
Definition init (products : JSONStorage.t) : t := make products 5.

Definition load : M t document :=
  self ← get; mret (JSONStorage.load_data (_storage self)).

Definition save (inventory : document) : M t unit :=
  self ← get;
  put (make (JSONStorage.save_data inventory (_storage self))
         (_low_stock_threshold self)).

Definition add_product (product : Product.t) : M t bool :=
  inventory ← load;
  if decide (is_Some (inventory !! Product._product_id product)) then mret false
  else
    save (<[Product._product_id product := Product.to_dict product]> inventory);;
    mret true.

(** [updates] are the keyword arguments: one named as a parameter of the
    method, [self] or [product_id], makes the call raise [TypeError] before
    the body runs.  [dict.update] lets the updates win over the fields the
    record has. *)
Definition update_prodcut (product_id : string) (updates : record) : M t bool :=
  if decide (is_Some (updates !! "self") \/ is_Some (updates !! "product_id"))
  then throw TypeError
  else
    inventory ← load;
    match inventory !! product_id with
    | None => mret false
    | Some r =>
        save (<[product_id := updates ∪ r]> inventory);;
        mret true
    end.

Definition delete_product (product_id : string) : M t bool :=
  inventory ← load;
  if decide (is_Some (inventory !! product_id)) then
    save (delete product_id inventory);;
    mret true
  else mret false.

Definition adjust_stock (product_id : string) (quantity_change : Z) : M t bool :=
  inventory ← load;
  match inventory !! product_id with
  | None => mret false
  | Some r =>
      q ← lift (getitem r "quantity");
      current ← lift (py_int q);
      let new_quantity := current + quantity_change in
      if new_quantity <? 0 then mret false
      else
        let r := <["quantity" := VInt new_quantity]> r in
        let inventory := <[product_id := r]> inventory in
        self ← get;
        (if new_quantity <=? _low_stock_threshold self
         then lift (getitem r "name");; mret tt     (* the low stock alert *)
         else mret tt);;
        save inventory;;
        mret true
  end.

(** The condition of the comprehension; [today] is what [datetime.now()]
    reads. *)
Definition expires_within (today : datetime) (days : Z) (product : record) : outcome bool :=
  e ← getitem product "expiry_date";
  match e with
  | VStr s => d ← strptime_ymd s; Returns (sub_days d today <=? days)
  | _ => Raises TypeError
  end.

Definition get_expiring_products (days : Z) (today : datetime) (self : t)
  : outcome (list record) :=
  let inventory := JSONStorage.load_data (_storage self) in
  filterM (expires_within today days) (map_to_list inventory).*2.

(** The two sides are compared in lower case; [lower] is [str.lower] on a
    text in ASCII. *)
Definition search_products (criteria value : string) (self : t) : list record :=
  let inventory := JSONStorage.load_data (_storage self) in
  filter (fun product : record =>
            lower (py_str (default (VStr "") (product !! criteria))) = lower value)
         (map_to_list inventory).*2.

Definition get_low_stock_products (self : t) : outcome (list record) :=
  let inventory := JSONStorage.load_data (_storage self) in
  filterM (fun product : record =>
             q ← getitem product "quantity"; le_int q (_low_stock_threshold self))
          (map_to_list inventory).*2.

(** The body of the loop over the restocking events of a product: the
    purchase the event stands for, when it is of the day of [date]. *)
Definition purchase_event (product_id : string) (product_data : record)
    (date : datetime) (event : pyval) : outcome (list record) :=
  d ← subscript event "date";
  restock_date ← match d with
                 | VStr s => strptime_ymd s
                 | _ => Raises TypeError
                 end;
  if bool_decide (date_of restock_date = date_of date) then
    name ← getitem product_data "name";
    quantity ← subscript event "quantity";
    price ← subscript event "price";
    total_cost ← py_mul quantity price;
    Returns [<["product_id" := VStr product_id]>
             (<["product_name" := name]>
             (<["quantity_restocked" := quantity]>
             (<["price_per_unit" := price]>
             (<["total_cost" := total_cost]>
             (<["date" := d]> ∅)))))]
  else Returns [].

Definition get_daily_purchase_report (date : datetime) (self : t)
  : outcome (list record) :=
  let inventory := JSONStorage.load_data (_storage self) in
  purchase_events ←
    mapM (fun kv : string * record =>
            match kv.2 !! "restocking_history" with
            | Some history =>
                events ← elements_of history;
                purchases ← mapM (purchase_event kv.1 kv.2 date) events;
                Returns (concat purchases)
            | None => Returns []
            end)
         (map_to_list inventory);
  Returns (concat purchase_events).

End Inventory.

(** ** The running system

    [Billing] holds the inventory and the transaction manager of the
    [InventoryManagementSystem] that built it, so one state stands for the
    objects of both; [stdin] is what the user is still to type, a line for
    each call of [input]. *)

Record system : Type := mkSystem {
  _inventory : Inventory.t;
  _transaction_manager : TransactionManager.t;
  stdin : list string
}.

Definition input : M system string :=
  w ← get;
  match stdin w with
  | [] => throw EOFError
  | line :: rest =>
      put (mkSystem (_inventory w) (_transaction_manager w) rest);; mret line
  end.

Definition on_inventory {A : Type} (m : M Inventory.t A) : M system A :=
  fun w =>
    let (r, inv) := m (_inventory w) in
    (r, mkSystem inv (_transaction_manager w) (stdin w)).

Definition on_manager {A : Type} (m : M TransactionManager.t A) : M system A :=
  fun w =>
    let (r, tm) := m (_transaction_manager w) in
    (r, mkSystem (_inventory w) tm (stdin w)).

(** A method with a local object [L] besides the system. *)
Definition on_system {L A : Type} (m : M system A) : M (system * L) A :=
  fun s => let (r, w) := m s.1 in (r, (w, s.2)).

Definition on_local {L A : Type} (m : M L A) : M (system * L) A :=
  fun s => let (r, l) := m s.2 in (r, (s.1, l)).

(** [try: m  except ValueError: ...], where the handler only prints and the
    statement then has the value [a]. *)
Definition except_ValueError {S A : Type} (m : M S A) (a : A) : M S A :=
  fun s =>
    match m s with
    | (Raises ValueError, s') => (Returns a, s')
    | r => r
    end.

Module Billing.

(** The body of the [try] in the first loop of [create_bill]: one line of
    the bill, for the product id just read. *)
Definition add_line (product_id : string) : M (system * Transaction.t) unit :=
  text ← on_system input;
  quantity ← lift (int_of_str text);
  if quantity <=? 0 then mret tt
  else
    inventory ← on_system (on_inventory Inventory.load);
    match inventory !! product_id with
    | None => mret tt
    | Some product =>
        q ← lift (getitem product "quantity");
        stock ← lift (py_int q);
        if stock <? quantity then mret tt
        else
          p ← lift (getitem product "price");
          unit_price ← lift (Decimal_of_text p);
          n ← lift (Decimal_of_str (int_str quantity));
          let total_price := dec_mul unit_price n in
          let item := mkItem product_id quantity unit_price total_price in
          on_local (Transaction.add_item item);;
          on_system (on_inventory (Inventory.adjust_stock product_id (- quantity)));;
          lift (getitem product "name");;
          mret tt
    end.

(** The first loop; each round reads a line, so the lines left bound it. *)
Fixpoint items_loop (fuel : nat) : M (system * Transaction.t) unit :=
  match fuel with
  | O => throw EOFError
  | S fuel' =>
      product_id ← on_system input;
      if decide (lower product_id = "done") then mret tt
      else except_ValueError (add_line product_id) tt;; items_loop fuel'
  end.

(** The body of the [try] in the second loop: whether the payment was
    taken. *)
Definition take_payment : M (system * Transaction.t) bool :=
  text ← on_system input;
  payment ← lift (Decimal_of_str text);
  transaction ← on_local get;
  if dec_lt payment (Transaction._total_amount transaction) then mret false
  else on_local (Transaction.process_payment payment);; mret true.

(** The second loop: a payment below the total is asked again. *)
Fixpoint payment_loop (fuel : nat) : M (system * Transaction.t) unit :=
  match fuel with
  | O => throw EOFError
  | S fuel' =>
      paid ← except_ValueError take_payment false;
      if paid : bool then mret tt else payment_loop fuel'
  end.

Definition transaction_id_at (now : datetime) : string :=
  "TXN" +:+ pad 4 (year now) +:+ pad 2 (month now) +:+ pad 2 (day now) +:+
  pad 2 (hour now) +:+ pad 2 (minute now) +:+ pad 2 (second now).

(** [create_bill]; [now] is what [datetime.now()] reads when the bill is
    opened: the reading for the id and the reading for the timestamp in
    [Transaction.__init__], which follows it at once, are taken as one.  The
    receipt is printed from fields the loops have read already. *)
Definition create_bill (cashier : string) (now : datetime)
  : M system (option Transaction.t) :=
  fun w =>
    let transaction := Transaction.init (transaction_id_at now) cashier now in
    let fuel := S (length (stdin w)) in
    let run : M (system * Transaction.t) (option Transaction.t) :=
      items_loop fuel;;
      transaction ← on_local get;
      match Transaction._items transaction with
      | [] => mret None
      | _ :: _ =>
          payment_loop fuel;;
          transaction ← on_local get;
          on_system (on_manager (TransactionManager.save_transaction transaction));;
          mret (Some transaction)
      end in
    let (r, s) := run (w, transaction) in (r, s.1).

End Billing.

(** ** The session

    The state of the program while [run] goes on: the inventory, the ledger
    and the lines to read; the file of the user data, which every [User]
    object opens; the user logged in; and the clock, the time each call of
    [datetime.now()] is going to read.  What the program prints is left
    out: a view is the calls it makes, which can raise. *)

Record session : Type := mkSession {
  machine : system;
  user_file : JSONStorage.t;
  _current_user : option UserLogin.t;
  clock : nat -> datetime;
  ticks : nat
}.

Definition on_machine {A : Type} (m : M system A) : M session A :=
  fun s =>
    let (r, w) := m (machine s) in
    (r, mkSession w (user_file s) (_current_user s) (clock s) (ticks s)).

(** [datetime.now()] *)
Definition now : M session datetime :=
  fun s =>
    (Returns (clock s (ticks s)),
     mkSession (machine s) (user_file s) (_current_user s) (clock s) (S (ticks s))).

Definition set_current_user (user : option UserLogin.t) : M session unit :=
  fun s => (Returns tt, mkSession (machine s) (user_file s) user (clock s) (ticks s)).

Definition set_user_file (file : JSONStorage.t) : M session unit :=
  fun s => (Returns tt, mkSession (machine s) file (_current_user s) (clock s) (ticks s)).

Module InventoryManagementSystem.

(** The admin form: six lines are read, the price as a [float]. *)
Definition _add_product : M system unit :=
  product_id ← input;
  name ← input;
  category ← input;
  text ← input;
  price ← lift (float_of_str text);
  text ← input;
  quantity ← lift (int_of_str text);
  expiry_date ← input;
  let product :=
    Product.make product_id name category (PFloat price) quantity expiry_date in
  on_inventory (Inventory.add_product product);;
  mret tt.

(** The admin form for an update: a line for each field, an empty line to
    skip the field. *)
Definition _update_product : M system unit :=
  product_id ← input;
  updates ← foldl (fun acc field =>
                     updates ← acc;
                     value ← input;
                     mret (if decide (value = "") then updates
                           else <[field := VStr value]> updates))
                  (mret (∅ : record))
                  ["name"; "category"; "price"; "quantity"; "expiry_date"];
  on_inventory (Inventory.update_prodcut product_id updates);;
  mret tt.


Definition _delete_product : M system unit :=
  product_id ← input;
  on_inventory (Inventory.delete_product product_id);;
  mret tt.

Definition _adjust_stock : M system unit :=
  product_id ← input;
  text ← input;
  quantity_change ← lift (int_of_str text);
  on_inventory (Inventory.adjust_stock product_id quantity_change);;
  mret tt.

(** The search form: the results are only shown. *)
Definition _search_products : M system unit :=
  choice ← input;
  if decide (choice = "1") then
    name ← input;
    w ← get;
    let results := Inventory.search_products "name" name (_inventory w) in
    mret tt
  else if decide (choice = "2") then
    category ← input;
    w ← get;
    let results := Inventory.search_products "category" category (_inventory w) in
    mret tt
  else mret tt.

Definition _view_low_stock : M system unit :=
  w ← get;
  lift (Inventory.get_low_stock_products (_inventory w));;
  mret tt.

Definition _view_expiring_products : M session unit :=
  today ← now;
  s ← get;
  lift (Inventory.get_expiring_products 30 today (_inventory (machine s)));;
  mret tt.

Definition _view_all_products : M system unit :=
  w ← get;
  let inventory := JSONStorage.load_data (Inventory._storage (_inventory w)) in
  mret tt.

(** [create_bill] reads the clock when it opens the bill. *)
Definition _create_bill : M session unit :=
  s ← get;
  match _current_user s with
  | None => mret tt
  | Some user =>
      opened ← now;
      on_machine (Billing.create_bill (UserLogin._username user) opened);;
      mret tt
  end.

Definition _view_daily_sales_report : M session unit :=
  date_str ← on_machine input;
  except_ValueError
    (date ← (if decide (date_str = "") then now else lift (strptime_ymd date_str));
     s ← get;
     lift (TransactionManager.get_daily_sales_report date
             (_transaction_manager (machine s)));;
     mret tt)
    tt.

Definition _view_monthly_sales_report : M system unit :=
  except_ValueError
    (text ← input;
     year ← lift (int_of_str text);
     text ← input;
     month ← lift (int_of_str text);
     w ← get;
     lift (TransactionManager.get_monthly_sales_report year month (_transaction_manager w));;
     mret tt)
    tt.

Definition _handle_admin_choice (choice : string) : M session unit :=
  if decide (choice = "1") then on_machine _add_product
  else if decide (choice = "2") then on_machine _update_product
  else if decide (choice = "3") then on_machine _delete_product
  else if decide (choice = "4") then on_machine _view_all_products
  else if decide (choice = "5") then on_machine _search_products
  else if decide (choice = "6") then on_machine _view_low_stock
  else if decide (choice = "7") then _view_expiring_products
  else mret tt.

Definition _handle_salesman_choice (choice : string) : M session unit :=
  if decide (choice = "1") then _create_bill
  else if decide (choice = "2") then on_machine _view_all_products
  else if decide (choice = "3") then on_machine _search_products
  else if decide (choice = "4") then on_machine _adjust_stock
  else if decide (choice = "5") then on_machine _view_low_stock
  else if decide (choice = "6") then _view_daily_sales_report
  else mret tt.

(** The menus; each round reads a line, so the lines left bound the
    rounds. *)
Fixpoint _show_admin_menu (fuel : nat) : M session unit :=
  match fuel with
  | O => throw EOFError
  | S fuel' =>
      choice ← on_machine input;
      if decide (choice = "8") then set_current_user None
      else _handle_admin_choice choice;; _show_admin_menu fuel'
  end.

Fixpoint _show_salesman_menu (fuel : nat) : M session unit :=
  match fuel with
  | O => throw EOFError
  | S fuel' =>
      choice ← on_machine input;
      if decide (choice = "7") then set_current_user None
      else _handle_salesman_choice choice;; _show_salesman_menu fuel'
  end.

Definition _show_menu : M session unit :=
  s ← get;
  let fuel := S (length (stdin (machine s))) in
  match _current_user s with
  | Some user =>
      if eq_str (UserLogin._role user) "Admin" then _show_admin_menu fuel
      else _show_salesman_menu fuel
  | None => throw AttributeError
  end.

Definition login (username password : string) : M session bool :=
  s ← get;
  let (r, user) :=
    UserLogin.authenticate (UserLogin.init username password (user_file s)) in
  set_user_file (UserLogin._storage user);;
  accepted ← lift r;
  if accepted : bool then set_current_user (Some user);; mret true
  else mret false.

Definition register (username password : string) : M session bool :=
  s ← get;
  let (r, user) := User.register (User.init username password (user_file s)) in
  set_user_file (User._storage user);;
  lift r.

Fixpoint run_loop (fuel : nat) : M session unit :=
  match fuel with
  | O => throw EOFError
  | S fuel' =>
      choice ← on_machine input;
      if decide (choice = "1") then
        username ← on_machine input;
        password ← on_machine input;
        accepted ← login username password;
        (if accepted : bool then _show_menu else mret tt);;
        run_loop fuel'
      else if decide (choice = "2") then
        username ← on_machine input;
        password ← on_machine input;
        register username password;;
        run_loop fuel'
      else if decide (choice = "3") then mret tt
      else run_loop fuel'
  end.

Definition run : M session unit :=
  fun s => run_loop (S (length (stdin (machine s)))) s.

End InventoryManagementSystem.


(** ** What the properties speak about *)

(** The inventory document as the next call will load it. *)
Definition stored (inv : Inventory.t) : document :=
  JSONStorage.load_data (Inventory._storage inv).

(** The record holds a quantity that [int] reads as a number that is not
    negative. *)
Definition nonneg_quantity (r : record) : bool :=
  match r !! "quantity" with
  | Some v => match py_int v with
              | Returns q => 0 <=? q
              | Raises _ => false
              end
  | None => false
  end.

(** Every product of the catalog holds a quantity that is not negative. *)
Definition stock_ok (inv : Inventory.t) : Prop :=
  map_Forall (fun _ r => nonneg_quantity r = true) (stored inv).

(** A sequence of [adjust_stock] calls, each on the state the one before
    left, whatever it returned or raised. *)
Definition adjust_all (calls : list (string * Z)) (inv : Inventory.t) : Inventory.t :=
  foldl (fun inv call => (Inventory.adjust_stock call.1 call.2 inv).2) inv calls.

(** The user document as the next call will load it. *)
Definition users (u : User.t) : document :=
  JSONStorage.load_data (User._storage u).

(** The record [register] writes for a salesman. *)
Definition salesman_record (password : string) : record :=
  <["password" := VStr password]> (<["role" := VStr "salesman"]> ∅).

(** A bill of two pieces of soap at 10.00, not paid yet. *)
Definition noon : datetime := mkDatetime 2024 1 1 12 0 0 0.

Definition bill20 : Transaction.t :=
  (Transaction.add_item
     (mkItem "P1" 2 (mkDecimal false 1000 (-2)) (mkDecimal false 2000 (-2)))
     (Transaction.init "TXN20240101120000" "bob" noon)).2.

(** The transaction document as the next call will load it. *)
Definition recorded (tm : TransactionManager.t) : document :=
  JSONStorage.load_data (TransactionManager._storage tm).

(** The record carries a timestamp that reads as a day other than the day
    of [date]. *)
Definition off_day (date : datetime) (v : record) : Prop :=
  exists s d, v !! "timestamp" = Some (VStr s) /\ fromisoformat s = Returns d /\
              date_of d <> date_of date.

(** The report of a day without sales. *)
Definition empty_report (date : datetime) : record :=
  <["date" := VStr (date_isoformat date)]>
  (<["total_sales" := VStr "0"]>
  (<["total_transactions" := VInt 0]>
  (<["total_items_sold" := VInt 0]>
  (<["transactions" := VDict ∅]> ∅)))).

(** The bill of 20.00 paid with 25.00 and recorded in an empty ledger. *)
Definition ledger1 : TransactionManager.t :=
  (TransactionManager.save_transaction
     (Transaction.process_payment (mkDecimal false 2500 (-2)) bill20).2
     (TransactionManager.make (JSONStorage.make NoFile 0))).2.

(** The sum of the totals of the items, without any rounding. *)
Definition exact_sum (items : list TransactionItem) : PyDecimal :=
  foldl (fun acc item => dec_add_exact acc (total_price item)) Transaction.zero items.

(** A sequence of [add_item] calls. *)
Definition add_items (items : list TransactionItem) (t : Transaction.t) : Transaction.t :=
  foldl (fun t item => (Transaction.add_item item t).2) t items.

(** The number needs no rounding in the context: its coefficient has at most
    28 digits in front of its trailing zeros. *)
Definition fits (d : PyDecimal) : bool :=
  let k := ndigits (dcoef d) - prec in
  (k <=? 0) || (dcoef d mod 10 ^ Z.to_N k =? 0)%N.

(** No sum on the way from [total] through [items] needs rounding. *)
Fixpoint no_rounding (total : PyDecimal) (items : list TransactionItem) : bool :=
  match items with
  | [] => true
  | item :: rest =>
      fits (dec_add_exact total (total_price item)) &&
      no_rounding (dec_add total (total_price item)) rest
  end.

(** The exponent range of the default context. *)
Definition Emax : Z := 999999.
Definition Emin : Z := -999999.
Definition Etiny : Z := Emin - prec + 1.

(** The adjusted exponent: the exponent of the first digit. *)
Definition adjusted (d : PyDecimal) : Z := ndigits (dcoef d) + dexp d - 1.

(** The exact result [x] of an operation lies in the exponent range of the
    context, so that the context does no more to it than [fix_]: a zero has
    an exponent from [Etiny] to [Emax]; any other number is rounded at an
    exponent that is not below [Etiny], and the rounded number is not above
    the largest number of the context. *)
Definition in_context (x : PyDecimal) : bool :=
  if (dcoef x =? 0)%N then (Etiny <=? dexp x) && (dexp x <=? Emax)
  else (Etiny <=? Z.max (dexp x) (adjusted x - prec + 1)) && (adjusted (fix_ x) <=? Emax).

(** The exact product, which [dec_mul] rounds. *)
Definition dec_mul_exact (a b : PyDecimal) : PyDecimal :=
  mkDecimal (xorb (dsign a) (dsign b)) (dcoef a * dcoef b) (dexp a + dexp b).

(** Every sum on the way from [total] through [items] lies in the exponent
    range of the context. *)
Fixpoint in_range (total : PyDecimal) (items : list TransactionItem) : bool :=
  match items with
  | [] => true
  | item :: rest =>
      in_context (dec_add_exact total (total_price item)) &&
      in_range (dec_add total (total_price item)) rest
  end.

(** [json.dumps], [str] and [repr] write the [int]: it has at most 4300
    digits. *)
Definition int_writable (z : Z) : bool := Z.abs z <? 10 ^ int_max_str_digits.

(** [json.dumps] writes the value: every [int] in it can be written. *)
Fixpoint json_writable (v : pyval) : bool :=
  match v with
  | VInt z => int_writable z
  | VList l => forallb json_writable l
  | VDict d => forallb (fun kv : string * bool => kv.2) (map_to_list (json_writable <$> d))
  | VNone | VBool _ | VFloat _ | VStr _ => true
  end.

(** A shop with one product: ten pieces of soap at 10.00. *)
Definition soap : Product.t :=
  Product.make "P1" "Soap" "Home" (PDecimal (mkDecimal false 1000 (-2))) 10 "2024-01-02".

Definition shop : Inventory.t :=
  (Inventory.add_product soap (Inventory.init (JSONStorage.make NoFile 0))).2.

(** The microseconds [t] stands past its midnight. *)
Definition time_of_day (t : datetime) : Z :=
  (second t + minute t * 60 + hour t * 3600) * 1000000 + microsecond t.

(** Two items whose sum has 29 digits. *)
Definition wide_items : list TransactionItem :=
  [mkItem "P1" 1 (mkDecimal false 1 28) (mkDecimal false 1 28);
   mkItem "P2" 1 (mkDecimal false 1 0) (mkDecimal false 1 0)].

(** Soap twice at 10.00, then a pen at 0.995 and a crate at 1.2E+3. *)
Definition mixed_items : list TransactionItem :=
  [mkItem "P1" 2 (mkDecimal false 1000 (-2)) (mkDecimal false 2000 (-2));
   mkItem "P2" 1 (mkDecimal false 995 (-3)) (mkDecimal false 995 (-3));
   mkItem "P3" 1 (mkDecimal false 12 2) (mkDecimal false 12 2)].

(** What follows a run of digits starts with no digit. *)
Definition ends_digits (s : string) : Prop :=
  match s with
  | EmptyString => True
  | String c _ => is_digit c = false
  end.

(** The characters of the text of a finite decimal number. *)
Definition is_numeral_char (c : ascii) : bool :=
  is_digit c || Ascii.eqb c "-" || Ascii.eqb c "+" || Ascii.eqb c "." || Ascii.eqb c "E".

(** The exponent part of a text: nothing, or the letter and a signed
    number. *)
Inductive exponent_text : string -> Z -> Prop :=
| no_exponent : exponent_text "" 0
| an_exponent (z : Z) : exponent_text ("E" +:+ signed_str z) z.

(** The text put together from its parts. *)
Definition numeral_text (neg : bool) (ip : string) (dot : bool) (fp x : string) : string :=
  (if neg then "-" else "") +:+ ip +:+ (if dot then "." +:+ fp else "") +:+ x.

(** The amount in hundredths, of a number with at most two decimal
    places. *)
Definition cents (d : PyDecimal) : Z := Z.abs (scaled d (-2)).

Definition total_cents (items : list TransactionItem) : Z :=
  foldr (fun item acc => cents (total_price item) + acc) 0 items.

(** The records of the catalog, in the order a listing walks through
    them. *)
Definition products (inv : Inventory.t) : list record :=
  (map_to_list (stored inv)).*2.

(** The quantity of the record is an [int]. *)
Definition counted (r : record) : bool :=
  match r !! "quantity" with
  | Some (VInt _) => true
  | _ => false
  end.

(** No record of the catalog holds a restocking history. *)
Definition no_history (inv : Inventory.t) : Prop :=
  map_Forall (fun _ (r : record) => r !! "restocking_history" = None) (stored inv).

(** The user document as a login will load it. *)
Definition accounts (u : UserLogin.t) : document :=
  JSONStorage.load_data (UserLogin._storage u).

(** The record [authenticate] writes for the first admin. *)
Definition admin_record (password : string) : record :=
  <["password" := VStr password]> (<["role" := VStr "Admin"]> ∅).

(** The role ["Admin"] stands in no record but the one of ["admin"]. *)
Definition only_admin (doc : document) : Prop :=
  forall name r, doc !! name = Some r -> r !! "role" = Some (VStr "Admin") -> name = "admin".

(** A date and time of the calendar. *)
Definition valid_datetime (d : datetime) : bool :=
  valid_date (year d) (month d) (day d) &&
  (0 <=? hour d) && (hour d <? 24) && (0 <=? minute d) && (minute d <? 60) &&
  (0 <=? second d) && (second d <? 60) &&
  (0 <=? microsecond d) && (microsecond d <? 1000000).

(** The record carries a timestamp that reads as a time outside the month
    [m] of the year [y]. *)
Definition off_month (y m : Z) (v : record) : Prop :=
  exists s d, v !! "timestamp" = Some (VStr s) /\ fromisoformat s = Returns d /\
              (year d =? y) && (month d =? m) = false.

(** The pieces a bill counts: the sum of the quantities of its items. *)
Definition pieces (items : list TransactionItem) : Z :=
  foldr (fun item acc => quantity item + acc) 0 items.

(** The time of [d] to the second. *)
Definition to_the_second (d : datetime) : Z * Z * Z * Z * Z * Z :=
  (year d, month d, day d, hour d, minute d, second d).

(** The time a transaction id names: the digits behind the three letters,
    read as a date and a time to the second. *)
Definition time_of_id (id : string) : option (Z * Z * Z * Z * Z * Z) :=
  '(y, s) ← read_digits 4 0 (str_drop_nat 3 id);
  '(m, s) ← read_digits 2 0 s;
  '(d, s) ← read_digits 2 0 s;
  '(h, s) ← read_digits 2 0 s;
  '(mi, s) ← read_digits 2 0 s;
  '(se, _) ← read_digits 2 0 s;
  Some (y, m, d, h, mi, se).

(** A line of a bill as [create_bill] makes it: a positive quantity, and
    the unit price times the quantity as the total. *)
Definition line_ok (item : TransactionItem) : Prop :=
  0 < quantity item /\
  total_price item = dec_mul (unit_price item) (Decimal_of_int (quantity item)).

(** The pieces of the product [pid] on a bill. *)
Definition sold (pid : string) (items : list TransactionItem) : Z :=
  pieces (filter (fun item => product_id item = pid) items).

(** The stock a record holds, as [int] reads its quantity. *)
Definition stock_of (r : record) : outcome Z :=
  q ← getitem r "quantity"; py_int q.

(** The system with the lines [rest] left to read. *)
Definition with_stdin (w : system) (rest : list string) : system :=
  mkSystem (_inventory w) (_transaction_manager w) rest.

(** The text is written in ASCII ([str.isascii]); on such a text [lower],
    [strip] and the readers of numbers and dates are the ones of Python. *)
Definition ascii_text (s : string) : bool :=
  string_forallb (fun c => (nat_of_ascii c <? 128)%nat) s.

(** The text of an infinity or of a NaN, which [Decimal] reads as a special
    value: behind white space, underscores and a sign, one of the words
    [inf] and [infinity], or [nan] or [snan] and digits, in any case. *)
Definition special_text (s : string) : bool :=
  let s := lower (string_filter (fun c => negb (Ascii.eqb c "_")) (strip s)) in
  let body := (lex_sign s).2 in
  let nan_digits (t : string) := string_forallb is_digit t in
  bool_decide (body = "inf") || bool_decide (body = "infinity") ||
  (bool_decide (str_take_nat 3 body = "nan") && nan_digits (str_drop_nat 3 body)) ||
  (bool_decide (str_take_nat 4 body = "snan") && nan_digits (str_drop_nat 4 body)).




(** What a round of the first loop of [create_bill] leaves, from the state
    [(w, t)] in which the quantity has been read: the line is dropped; the
    record of the product cannot be read; the line is sold, the item on the
    bill and the stock written; or the sale fails after the item was put on
    the bill. *)
Inductive line_outcome (pid : string) (w : system) (t : Transaction.t)
  : outcome unit * (system * Transaction.t) -> Prop :=
| line_dropped :
    line_outcome pid w t (Returns tt, (w, t))
| line_unreadable (e : exn) :
    e <> ValueError -> line_outcome pid w t (Raises e, (w, t))
| line_sold (product : record) (q : pyval) (quantity stock : Z) (unit_price : PyDecimal) :
    0 < quantity ->
    stored (_inventory w) !! pid = Some product ->
    product !! "quantity" = Some q -> py_int q = Returns stock -> quantity <= stock ->
    (p ← getitem product "price"; Decimal_of_text p) = Returns unit_price ->
    is_Some (product !! "name") ->
    let item := mkItem pid quantity unit_price
                  (dec_mul unit_price (Decimal_of_int quantity)) in
    line_outcome pid w t
      (Returns tt,
       (mkSystem
          (Inventory.make
             (JSONStorage.save_data
                (<[pid := <["quantity" := VInt (stock - quantity)]> product]>
                   (stored (_inventory w)))
                (Inventory._storage (_inventory w)))
             (Inventory._low_stock_threshold (_inventory w)))
          (_transaction_manager w) (stdin w),
        (Transaction.add_item item t).2))
| line_failed (e : exn) (quantity : Z) (item : TransactionItem) :
    line_outcome pid w t
      (Raises e,
       (mkSystem (Inventory.adjust_stock pid (- quantity) (_inventory w)).2
          (_transaction_manager w) (stdin w),
        (Transaction.add_item item t).2)).

(** The line of a bill for [pid] with the quantity typed as [text] sells
    nothing: the text, in ASCII, is no number, the number is not positive,
    the catalog has no such product, or the stock of the product is below
    the number or is kept as a text, in ASCII, that [int] does not read. *)
Definition refused (w : system) (pid text : string) : Prop :=
  match int_of_str text with
  | Raises _ => ascii_text text = true
  | Returns quantity =>
      quantity <= 0 \/
      match stored (_inventory w) !! pid with
      | None => True
      | Some product =>
          match stock_of product with
          | Returns stock => stock < quantity
          | Raises e =>
              e = ValueError /\
              forall s, product !! "quantity" = Some (VStr s) -> ascii_text s = true
          end
      end
  end.

(** The method leaves every state in the relation [R] to the state it
    found, whatever it returns or raises. *)
Definition keeps {S A : Type} (R : S -> S -> Prop) (m : M S A) : Prop :=
  forall s, R s (m s).2.

(** The catalog but for the quantities. *)
Definition descriptions (inv : Inventory.t) : document :=
  delete "quantity" <$> stored inv.

(** What a method leaves of the catalog when all it does to it is to
    adjust stock: the products and all their fields but the quantity, and
    no quantity below zero. *)
Definition stock_only (inv inv' : Inventory.t) : Prop :=
  descriptions inv' = descriptions inv /\ (stock_ok inv -> stock_ok inv').

(** The same of a system. *)
Definition touches_stock_only (w w' : system) : Prop :=
  stock_only (_inventory w) (_inventory w').

(** The method leaves the ledger as it was. *)
Definition leaves_ledger (w w' : system) : Prop :=
  _transaction_manager w' = _transaction_manager w.

(** What the menu of a salesman leaves as it was: the catalog but for the
    stock and the file of the user data; the user stays logged in, or is
    logged out. *)
Definition salesman_frame (s s' : session) : Prop :=
  touches_stock_only (machine s) (machine s') /\
  user_file s' = user_file s /\
  (_current_user s' = _current_user s \/ _current_user s' = None).

(** What the menu of an admin leaves as it was: the ledger and the file of
    the user data; the user stays logged in, or is logged out. *)
Definition admin_frame (s s' : session) : Prop :=
  leaves_ledger (machine s) (machine s') /\
  user_file s' = user_file s /\
  (_current_user s' = _current_user s \/ _current_user s' = None).

(** The file of the user data holds users, none of them with the role
    ["Admin"], and the user logged in, if there is one, has not that role
    either. *)
Definition no_admin (s : session) : Prop :=
  JSONStorage.load_data (user_file s) <> ∅ /\
  (forall name r, JSONStorage.load_data (user_file s) !! name = Some r ->
     r !! "role" <> Some (VStr "Admin")) /\
  (forall user, _current_user s = Some user -> UserLogin._role user <> VStr "Admin").

(** What [run] leaves as it was while no admin exists: the catalog but for
    the stock, and the lack of an admin. *)
Definition closed_catalog (s s' : session) : Prop :=
  no_admin s ->
  no_admin s' /\ stock_only (_inventory (machine s)) (_inventory (machine s')).

(** * Properties *)

(** Unfolds the plumbing of the two monads. *)
Ltac run :=
  cbv [mbind mret M_bind M_ret bindM retM outcome_bind outcome_ret obind
       get put lift throw].

(** ** The inventory *)

Section InventoryFacts.

Implicit Types (inv : Inventory.t) (r updates : record) (pid : string).

(** A keyword named as a parameter of the method stops the call. *)
Lemma update_prodcut_keyword inv pid updates :
  is_Some (updates !! "self") \/ is_Some (updates !! "product_id") ->
  Inventory.update_prodcut pid updates inv = (Raises TypeError, inv).
Proof.
  intros H. unfold Inventory.update_prodcut.
  destruct (decide _); [reflexivity | contradiction].
Qed.

Lemma update_prodcut_absent inv pid updates :
  updates !! "self" = None -> updates !! "product_id" = None ->
  stored inv !! pid = None ->
  Inventory.update_prodcut pid updates inv = (Returns false, inv).
Proof.
  intros Hs Hp H. unfold Inventory.update_prodcut, Inventory.load.
  destruct (decide _) as [[[x Hx]|[x Hx]]|_]; [congruence | congruence |]. run.
  fold (stored inv). rewrite H. reflexivity.
Qed.

Lemma update_prodcut_present inv pid updates r :
  updates !! "self" = None -> updates !! "product_id" = None ->
  stored inv !! pid = Some r ->
  Inventory.update_prodcut pid updates inv =
    (Returns true,
     Inventory.make
       (JSONStorage.save_data (<[pid := updates ∪ r]> (stored inv)) (Inventory._storage inv))
       (Inventory._low_stock_threshold inv)).
Proof.
  intros Hs Hp H. unfold Inventory.update_prodcut, Inventory.load, Inventory.save.
  destruct (decide _) as [[[x Hx]|[x Hx]]|_]; [congruence | congruence |]. run.
  fold (stored inv). rewrite H. reflexivity.
Qed.

Lemma add_product_duplicate inv (product : Product.t) :
  is_Some (stored inv !! Product._product_id product) ->
  Inventory.add_product product inv = (Returns false, inv).
Proof.
  intros H. unfold Inventory.add_product, Inventory.load. run.
  fold (stored inv). destruct (decide _) as [_|n]; [reflexivity | contradiction].
Qed.

Lemma add_product_fresh inv (product : Product.t) :
  stored inv !! Product._product_id product = None ->
  Inventory.add_product product inv =
    (Returns true,
     Inventory.make
       (JSONStorage.save_data
          (<[Product._product_id product := Product.to_dict product]> (stored inv))
          (Inventory._storage inv))
       (Inventory._low_stock_threshold inv)).
Proof.
  intros H. unfold Inventory.add_product, Inventory.load, Inventory.save. run.
  fold (stored inv). destruct (decide _) as [[x Hx]|_]; [congruence | reflexivity].
Qed.

Lemma delete_product_absent inv pid :
  stored inv !! pid = None ->
  Inventory.delete_product pid inv = (Returns false, inv).
Proof.
  intros H. unfold Inventory.delete_product, Inventory.load. run.
  fold (stored inv). destruct (decide _) as [[x Hx]|_]; [congruence | reflexivity].
Qed.

Lemma adjust_stock_absent inv pid delta :
  stored inv !! pid = None ->
  Inventory.adjust_stock pid delta inv = (Returns false, inv).
Proof.
  intros H. unfold Inventory.adjust_stock, Inventory.load. run.
  fold (stored inv). rewrite H. reflexivity.
Qed.

Lemma adjust_stock_below_zero inv pid delta r q current :
  stored inv !! pid = Some r ->
  r !! "quantity" = Some q ->
  py_int q = Returns current ->
  current + delta < 0 ->
  Inventory.adjust_stock pid delta inv = (Returns false, inv).
Proof.
  intros H Hq Hint Hneg. unfold Inventory.adjust_stock, Inventory.load. run.
  fold (stored inv). rewrite H. unfold getitem. rewrite Hq, Hint.
  destruct (Z.ltb_spec (current + delta) 0); [reflexivity | lia].
Qed.

(** What a call on a present product with a readable quantity does when
    the new quantity is not negative. *)
Lemma adjust_stock_applies inv pid delta r q current :
  stored inv !! pid = Some r ->
  r !! "quantity" = Some q ->
  py_int q = Returns current ->
  0 <= current + delta ->
  let r' := <["quantity" := VInt (current + delta)]> r in
  Inventory.adjust_stock pid delta inv =
    if (current + delta <=? Inventory._low_stock_threshold inv) && bool_decide (r !! "name" = None)
    then (Raises KeyError, inv)
    else (Returns true,
          Inventory.make
            (JSONStorage.save_data (<[pid := r']> (stored inv)) (Inventory._storage inv))
            (Inventory._low_stock_threshold inv)).
Proof.
  intros H Hq Hint Hpos r'. unfold Inventory.adjust_stock, Inventory.load, Inventory.save. run.
  fold (stored inv). rewrite H. unfold getitem. rewrite Hq, Hint.
  destruct (Z.ltb_spec (current + delta) 0); [lia |].
  destruct (current + delta <=? Inventory._low_stock_threshold inv); simpl; [| reflexivity].
  rewrite lookup_insert_ne by discriminate.
  destruct (r !! "name") as [v|] eqn:Hn; reflexivity.
Qed.

End InventoryFacts.

(** The quantity a record of a sound catalog holds. *)
Lemma nonneg_quantity_inv (r : record) :
  nonneg_quantity r = true ->
  exists v q, r !! "quantity" = Some v /\ py_int v = Returns q /\ 0 <= q.
Proof.
  unfold nonneg_quantity. destruct (r !! "quantity") as [v|]; [| discriminate].
  destruct (py_int v) as [q|] eqn:Hq; [| discriminate].
  intros H. apply Z.leb_le in H. now exists v, q.
Qed.

Lemma adjust_stock_keeps_stock_ok (inv : Inventory.t) (pid : string) (delta : Z) :
  stock_ok inv -> stock_ok (Inventory.adjust_stock pid delta inv).2.
Proof.
  intros Hok. destruct (stored inv !! pid) as [r|] eqn:Hr.
  - destruct (nonneg_quantity_inv r (Hok _ _ Hr)) as (v & q & Hv & Hq & Hq0).
    destruct (Z.lt_ge_cases (q + delta) 0) as [Hneg|Hpos].
    + rewrite (adjust_stock_below_zero inv pid delta r v q Hr Hv Hq Hneg).
      exact Hok.
    + rewrite (adjust_stock_applies inv pid delta r v q Hr Hv Hq Hpos).
      destruct (_ && _); [exact Hok |].
      unfold stock_ok, stored. simpl. fold (stored inv).
      apply map_Forall_insert_2; [| exact Hok].
      unfold nonneg_quantity. rewrite lookup_insert_eq. simpl. lia.
  - rewrite adjust_stock_absent by assumption. exact Hok.
Qed.

Lemma adjust_all_keeps_stock_ok (calls : list (string * Z)) (inv : Inventory.t) :
  stock_ok inv -> stock_ok (adjust_all calls inv).
Proof.
  revert inv. induction calls as [|[pid delta] calls IH]; intros inv Hok; [exact Hok |].
  apply IH. now apply adjust_stock_keeps_stock_ok.
Qed.

(** C1: from a catalog in which every quantity is at least 0, every sequence
    of [adjust_stock] calls leaves every stored quantity at least 0; on the
    state [s] any such sequence reaches, a call for an absent id returns
    [False] and changes nothing, a call that would take the quantity below 0
    returns [False] and changes nothing, a call that returns [True] has set
    the quantity to the sum and touched no other product, and a call whose
    sum is not negative does return [True] when the record has its name and
    the sum is an [int] that can be written, one of at most 4300 digits. *)
Theorem adjust_stock_never_negative (inv : Inventory.t) (calls : list (string * Z)) :
  stock_ok inv ->
  let s := adjust_all calls inv in
  stock_ok s /\
  forall (pid : string) (delta : Z),
    (stored s !! pid = None ->
     Inventory.adjust_stock pid delta s = (Returns false, s)) /\
    (forall r v q, stored s !! pid = Some r -> r !! "quantity" = Some v ->
       py_int v = Returns q -> q + delta < 0 ->
       Inventory.adjust_stock pid delta s = (Returns false, s)) /\
    (forall s', Inventory.adjust_stock pid delta s = (Returns true, s') ->
       exists r v q, stored s !! pid = Some r /\ r !! "quantity" = Some v /\
         py_int v = Returns q /\ 0 <= q + delta /\
         stored s' !! pid = Some (<["quantity" := VInt (q + delta)]> r) /\
         forall other, other <> pid -> stored s' !! other = stored s !! other) /\
    (forall r v q, stored s !! pid = Some r -> r !! "quantity" = Some v ->
       py_int v = Returns q -> 0 <= q + delta -> is_Some (r !! "name") ->
       int_writable (q + delta) = true ->
       exists s', Inventory.adjust_stock pid delta s = (Returns true, s')).
Proof.
  intros Hok s. assert (Hs : stock_ok s) by now apply adjust_all_keeps_stock_ok.
  split; [exact Hs |]. intros pid delta. repeat split.
  - apply adjust_stock_absent.
  - intros r v q. apply adjust_stock_below_zero.
  - intros s' Hcall. destruct (stored s !! pid) as [r|] eqn:Hr.
    + destruct (nonneg_quantity_inv r (Hs _ _ Hr)) as (v & q & Hv & Hq & Hq0).
      exists r, v, q. destruct (Z.lt_ge_cases (q + delta) 0) as [Hneg|Hpos].
      * rewrite (adjust_stock_below_zero s pid delta r v q Hr Hv Hq Hneg) in Hcall.
        discriminate.
      * rewrite (adjust_stock_applies s pid delta r v q Hr Hv Hq Hpos) in Hcall.
        destruct (_ && _); [discriminate |]. injection Hcall as <-.
        do 4 (split; [easy |]).
        unfold stored at 1 2. simpl. fold (stored s).
        split; [apply lookup_insert_eq |].
        intros other Hne. now apply lookup_insert_ne.
    + rewrite adjust_stock_absent in Hcall by assumption. discriminate.
  - intros r v q Hr Hv Hq Hpos [w Hw] _.
    rewrite (adjust_stock_applies s pid delta r v q Hr Hv Hq Hpos).
    rewrite Hw. rewrite bool_decide_eq_false_2 by discriminate.
    rewrite andb_false_r. eauto.
Qed.

Lemma adjust_stock_never_negative_witness :
  stock_ok shop /\
  stock_ok (adjust_all [("P1", -3); ("P1", -10); ("P7", 4)] shop).
Proof.
  assert (H : stock_ok shop).
  { unfold stock_ok. refine (bool_decide_unpack _ _). vm_compute. exact I. }
  split; [exact H |].
  exact (proj1 (adjust_stock_never_negative shop [("P1", -3); ("P1", -10); ("P7", 4)] H)).
Defined.

(** The scenario of the catalog: of ten pieces three are sold; selling ten
    more is refused and seven stay. *)
Example adjust_stock_scenario :
  let s1 := (Inventory.adjust_stock "P1" (-3) shop) in
  let s2 := (Inventory.adjust_stock "P1" (-10) s1.2) in
  s1.1 = Returns true /\ stored s1.2 !! "P1" ≫= (.!! "quantity") = Some (VInt 7) /\
  s2.1 = Returns false /\ stored s2.2 !! "P1" ≫= (.!! "quantity") = Some (VInt 7) /\
  (Inventory.add_product soap shop).1 = Returns false.
Proof. vm_compute. repeat split. Qed.

(** C9, as stated, fails: the soap is in the catalog, and an update of its
    field [product_id] is a keyword that collides with the parameter of the
    method; the call raises [TypeError] and merges nothing. *)
Lemma update_prodcut_product_id_raises :
  stored shop !! "P1" = Some (Product.to_dict soap) /\
  Product.to_dict soap !! "product_id" = Some (VStr "P1") /\
  Inventory.update_prodcut "P1" {["product_id" := VStr "P2"]} shop = (Raises TypeError, shop).
Proof.
  split; [vm_cast_no_check (eq_refl (Some (Product.to_dict soap))) |].
  split; [reflexivity |].
  apply update_prodcut_keyword. right. rewrite lookup_singleton_eq. eauto.
Qed.

(** C9, amended: for updates that name neither [self] nor [product_id] and
    that [json.dumps] can write (no [int] of more than 4300 digits),
    [update_prodcut] returns [False] and changes nothing when the id is
    absent; otherwise it returns [True], writes the document once, and in
    the stored document the record of the product holds every given field
    with its given value and every other field as before, while the record
    of every other product is as before. *)
Theorem update_prodcut_merges (inv : Inventory.t) (pid : string) (updates : record) :
  updates !! "self" = None -> updates !! "product_id" = None ->
  map_Forall (fun _ v => json_writable v = true) updates ->
  match stored inv !! pid with
  | None => Inventory.update_prodcut pid updates inv = (Returns false, inv)
  | Some r =>
      exists inv',
        Inventory.update_prodcut pid updates inv = (Returns true, inv') /\
        JSONStorage.contents (Inventory._storage inv') = Document (stored inv') /\
        JSONStorage.writes (Inventory._storage inv') =
          S (JSONStorage.writes (Inventory._storage inv)) /\
        (exists r', stored inv' !! pid = Some r' /\
           (forall k v, updates !! k = Some v -> r' !! k = Some v) /\
           (forall k, updates !! k = None -> r' !! k = r !! k)) /\
        (forall other, other <> pid -> stored inv' !! other = stored inv !! other)
  end.
Proof.
  intros Hself Hid _. destruct (stored inv !! pid) as [r|] eqn:Hr.
  - eexists. split; [apply (update_prodcut_present inv pid updates r Hself Hid Hr) |].
    unfold stored at 1 2 3. simpl. fold (stored inv).
    split; [reflexivity |]. split; [reflexivity |]. split.
    + exists (updates ∪ r). split; [apply lookup_insert_eq |]. split.
      * intros k v Hk. now apply lookup_union_Some_l.
      * intros k Hk. now apply lookup_union_r.
    + intros other Hne. now apply lookup_insert_ne.
  - now apply update_prodcut_absent.
Qed.

Lemma update_prodcut_merges_witness :
  exists inv',
    Inventory.update_prodcut "P1" {["price" := VStr "12.50"]} shop = (Returns true, inv') /\
    stored inv' !! "P1" ≫= (.!! "price") = Some (VStr "12.50").
Proof.
  pose proof (update_prodcut_merges shop "P1" {["price" := VStr "12.50"]} eq_refl eq_refl) as H.
  assert (E : stored shop !! "P1" = Some (Product.to_dict soap))
    by (vm_cast_no_check (eq_refl (Some (Product.to_dict soap)))).
  rewrite E in H.
  destruct H as (inv' & Hcall & _ & _ & (r' & Hr' & Hnew & _) & _).
  { apply map_Forall_singleton. reflexivity. }
  exists inv'. split; [exact Hcall |].
  rewrite Hr'. simpl. apply Hnew. apply lookup_singleton_eq.
Defined.

(** C10, as stated, fails: the catalog has no product [P7], and an update
    of [P7] whose keyword is [product_id] does not return [False]: the call
    raises [TypeError], the storage left as it was. *)
Lemma update_prodcut_absent_raises :
  stored shop !! "P7" = None /\
  Inventory.update_prodcut "P7" {["product_id" := VStr "P8"]} shop = (Raises TypeError, shop) /\
  (Raises TypeError : outcome bool) <> Returns false.
Proof.
  split; [vm_cast_no_check (eq_refl (@None record)) |].
  split; [| discriminate].
  apply update_prodcut_keyword. right. rewrite lookup_singleton_eq. eauto.
Qed.

(** C10, amended: every catalog operation that fails returns [False] and
    leaves the storage as it was, its contents and the count of its writes:
    adding a product whose id is taken; updating (with updates that name
    neither [self] nor [product_id]), deleting or adjusting a product whose
    id is absent; and an adjustment that would take the quantity below
    zero.  An update with a keyword named [self] or [product_id] raises
    [TypeError] and leaves the storage as it was, too. *)
Theorem failed_operations_write_nothing (inv : Inventory.t) :
  (forall product, is_Some (stored inv !! Product._product_id product) ->
     Inventory.add_product product inv = (Returns false, inv)) /\
  (forall pid updates, stored inv !! pid = None ->
     if decide (is_Some (updates !! "self") \/ is_Some (updates !! "product_id"))
     then Inventory.update_prodcut pid updates inv = (Raises TypeError, inv)
     else Inventory.update_prodcut pid updates inv = (Returns false, inv)) /\
  (forall pid, stored inv !! pid = None ->
     Inventory.delete_product pid inv = (Returns false, inv)) /\
  (forall pid delta, stored inv !! pid = None ->
     Inventory.adjust_stock pid delta inv = (Returns false, inv)) /\
  (forall pid delta r q current,
     stored inv !! pid = Some r -> r !! "quantity" = Some q ->
     py_int q = Returns current -> current + delta < 0 ->
     Inventory.adjust_stock pid delta inv = (Returns false, inv)).
Proof.
  repeat split.
  - apply add_product_duplicate.
  - intros pid updates Hnone. destruct (decide _) as [Hk|Hk].
    + now apply update_prodcut_keyword.
    + apply update_prodcut_absent; [| | exact Hnone].
      * destruct (updates !! "self") eqn:E; [exfalso; apply Hk; left; eauto | reflexivity].
      * destruct (updates !! "product_id") eqn:E; [exfalso; apply Hk; right; eauto | reflexivity].
  - apply delete_product_absent.
  - intros. now apply adjust_stock_absent.
  - intros pid delta r q current. apply adjust_stock_below_zero.
Qed.

Lemma failed_operations_write_nothing_witness :
  Inventory.add_product soap shop = (Returns false, shop) /\
  Inventory.delete_product "P7" shop = (Returns false, shop) /\
  Inventory.adjust_stock "P1" (-11) shop = (Returns false, shop).
Proof.
  destruct (failed_operations_write_nothing shop) as (Hadd & _ & Hdel & _ & Hadj).
  split; [apply Hadd; vm_compute; eauto |].
  split; [apply Hdel; reflexivity |].
  apply (Hadj "P1" (-11) (Product.to_dict soap) (VInt 10) 10); reflexivity.
Defined.

(** ** The bill *)

(** The scenario of the bill: two pieces of soap at 10.00 total 20.00; a
    payment of 15.00 is refused and asked again; 20.00 settles with the
    change 0.00, and 25.00 with the change 5.00; the stock goes from ten to
    eight and the transaction is recorded. *)
Example create_bill_scenario :
  let sale payments :=
    Billing.create_bill "bob" noon
      (mkSystem shop (TransactionManager.make (JSONStorage.make NoFile 0))
         (["P1"; "2"; "done"] ++ payments)) in
  let summary (r : outcome (option Transaction.t) * system) :=
    (t ← r.1;
     Returns (option_map
       (fun t => (dec_str (Transaction._total_amount t),
                  dec_str (Transaction._payment_received t),
                  dec_str (Transaction._change t))) t),
     stored (_inventory r.2) !! "P1" ≫= (.!! "quantity"),
     size (recorded (_transaction_manager r.2))) in
  summary (sale ["15.00"; "20.00"])
    = (Returns (Some ("20.00", "20.00", "0.00")), Some (VInt 8), 1%nat) /\
  summary (sale ["25.00"])
    = (Returns (Some ("20.00", "25.00", "5.00")), Some (VInt 8), 1%nat) /\
  summary (sale ["15.00"]) = (Raises EOFError, Some (VInt 8), 0%nat).
Proof. vm_compute. repeat split. Qed.

(** ** Registration *)

(** C8, as stated, fails: with no user stored, the name [ADMIN] is neither
    the name [admin] nor present, and yet [register] returns [False] and
    creates nothing. *)
Lemma register_ADMIN_refused :
  let u := User.init "ADMIN" "secret" (JSONStorage.make NoFile 0) in
  User._username u <> "admin" /\ users u !! User._username u = None /\
  User.register u = (Returns false, u).
Proof. repeat split. discriminate. Qed.

(** C8, amended: [register] returns [False] and changes nothing for the
    name [admin], whatever the store holds, and for every name whose
    lower-case form is [admin]; it returns [False] and changes nothing for
    a name the store holds; for any other name it returns [True] and the
    store then holds that name with the given password and the role
    [salesman], next to the users it held. *)
Theorem register_outcome (u : User.t) :
  (User._username u = "admin" -> User.register u = (Returns false, u)) /\
  (lower (User._username u) = "admin" -> User.register u = (Returns false, u)) /\
  (is_Some (users u !! User._username u) -> User.register u = (Returns false, u)) /\
  (lower (User._username u) <> "admin" -> users u !! User._username u = None ->
   exists u',
     User.register u = (Returns true, u') /\
     users u' = <[User._username u := salesman_record (User._password u)]> (users u) /\
     User._username u' = User._username u /\ User._password u' = User._password u).
Proof.
  assert (Hlow : lower (User._username u) = "admin" -> User.register u = (Returns false, u)).
  { intros H. unfold User.register. run. destruct (decide _); [reflexivity | contradiction]. }
  split; [intros H; apply Hlow; now rewrite H |]. split; [exact Hlow |]. split.
  - intros H. unfold User.register. run. destruct (decide _); [reflexivity |].
    fold (users u). destruct (decide _); [reflexivity | contradiction].
  - intros Hne Hnone. unfold User.register. run. destruct (decide _); [contradiction |].
    fold (users u). destruct (decide _) as [[x Hx]|_]; [congruence |].
    eexists. split; [reflexivity |]. repeat split.
Qed.

Lemma register_outcome_witness :
  (User.register (User.init "admin" "secret" (JSONStorage.make NoFile 0))).1 = Returns false /\
  (User.register (User.init "carol" "secret" (JSONStorage.make NoFile 0))).1 = Returns true.
Proof.
  split.
  - rewrite (proj1 (register_outcome (User.init "admin" "secret" (JSONStorage.make NoFile 0)))
               eq_refl).
    reflexivity.
  - destruct (proj2 (proj2 (proj2
      (register_outcome (User.init "carol" "secret" (JSONStorage.make NoFile 0)))))
      ltac:(discriminate) eq_refl) as (u' & -> & _).
    reflexivity.
Defined.

(** ** Payment *)

(** C2, as stated, fails: the bill of 20.00 paid with 25.00 takes a second
    payment of 30.00, which replaces the payment and the change, and it
    still takes a further item. *)
Lemma second_payment_accepted :
  let paid := (Transaction.process_payment (mkDecimal false 2500 (-2)) bill20).2 in
  let again := Transaction.process_payment (mkDecimal false 3000 (-2)) paid in
  (Transaction.process_payment (mkDecimal false 2500 (-2)) bill20).1 = Returns tt /\
  Transaction._change paid = mkDecimal false 500 (-2) /\
  again.1 = Returns tt /\
  Transaction._payment_received again.2 = mkDecimal false 3000 (-2) /\
  Transaction._change again.2 = mkDecimal false 1000 (-2) /\
  again.2 <> paid /\
  (Transaction.add_item (mkItem "P1" 1 (mkDecimal false 1000 (-2)) (mkDecimal false 1000 (-2)))
     paid).2 <> paid.
Proof. vm_compute. repeat split; discriminate. Qed.

(** C2, amended: [process_payment] with an amount below the total raises
    [ValueError] and leaves the transaction as it was; with any other amount
    whose difference to the total lies in the exponent range of the decimal
    context it records the amount as the payment received and the amount
    less the total as the change, and changes no other field.  The
    transaction keeps no state that closes it: after a payment, a further
    sufficient payment is taken in the same way and replaces the first, and
    [add_item] still appends its item. *)
Theorem process_payment_outcome (t : Transaction.t) (amount : PyDecimal) :
  (dec_lt amount (Transaction._total_amount t) = true ->
   Transaction.process_payment amount t = (Raises ValueError, t)) /\
  (dec_lt amount (Transaction._total_amount t) = false ->
   in_context (dec_add_exact amount (dec_neg (Transaction._total_amount t))) = true ->
   let t' := Transaction.make (Transaction._transaction_id t) (Transaction._cashier t)
               (Transaction._items t) (Transaction._timestamp t)
               (Transaction._total_amount t) amount
               (dec_sub amount (Transaction._total_amount t)) in
   Transaction.process_payment amount t = (Returns tt, t') /\
   (forall again, dec_lt again (Transaction._total_amount t) = false ->
      in_context (dec_add_exact again (dec_neg (Transaction._total_amount t))) = true ->
      exists t'', Transaction.process_payment again t' = (Returns tt, t'') /\
        Transaction._payment_received t'' = again /\
        Transaction._change t'' = dec_sub again (Transaction._total_amount t)) /\
   (forall item, Transaction._items (Transaction.add_item item t').2 =
                 Transaction._items t ++ [item])).
Proof.
  split.
  - intros H. unfold Transaction.process_payment. run. now rewrite H.
  - intros H _ t'. split; [| split].
    + unfold Transaction.process_payment. run. now rewrite H.
    + intros again Ha _. eexists. unfold Transaction.process_payment. run.
      simpl. rewrite Ha. repeat split.
    + intros item. reflexivity.
Qed.

Lemma process_payment_outcome_witness :
  Transaction.process_payment (mkDecimal false 1500 (-2)) bill20
    = (Raises ValueError, bill20) /\
  (Transaction.process_payment (mkDecimal false 2500 (-2)) bill20).1 = Returns tt.
Proof.
  split.
  - exact (proj1 (process_payment_outcome bill20 (mkDecimal false 1500 (-2))) eq_refl).
  - rewrite (proj1 (proj2 (process_payment_outcome bill20 (mkDecimal false 2500 (-2)))
                      eq_refl eq_refl)).
    reflexivity.
Defined.

(** ** The daily report *)

Lemma filterM_all_false {A : Type} (p : A -> outcome bool) (l : list A) :
  Forall (fun x => p x = Returns false) l -> filterM p l = Returns [].
Proof.
  induction 1 as [|x l Hx _ IH]; [reflexivity |].
  simpl. rewrite Hx. run. now rewrite IH.
Qed.

Lemma off_day_on_day (date : datetime) (v : record) :
  off_day date v -> TransactionManager.on_day date v = Returns false.
Proof.
  intros (s & d & Hts & Hd & Hne). unfold TransactionManager.on_day, getitem.
  rewrite Hts. run. rewrite Hd. now rewrite bool_decide_eq_false_2.
Qed.

(** C5, as stated, fails: the ledger holds one sale, of the first of
    January; the report of the second of January gives the total ["0"],
    not ["0.00"]. *)
Lemma empty_day_total_is_0 :
  (r ← TransactionManager.get_daily_sales_report (mkDatetime 2024 1 2 0 0 0 0) ledger1;
   Returns (r !! "total_sales", r !! "total_transactions"))
    = Returns (Some (VStr "0"), Some (VInt 0)) /\
  VStr "0" <> VStr "0.00".
Proof. split; [vm_compute; reflexivity | discriminate]. Qed.

(** C5, amended: when every recorded transaction carries a timestamp of
    another calendar day, the report of the day has the total sales ["0"]
    (the text of the [int] 0 that [sum] returns for no terms), 0
    transactions, 0 items sold and no transaction. *)
Theorem daily_report_of_empty_day (tm : TransactionManager.t) (date : datetime) :
  (forall id v, recorded tm !! id = Some v -> off_day date v) ->
  TransactionManager.get_daily_sales_report date tm = Returns (empty_report date).
Proof.
  intros H. unfold TransactionManager.get_daily_sales_report. fold (recorded tm).
  rewrite filterM_all_false.
  - run. simpl. rewrite fmap_empty. reflexivity.
  - apply Forall_forall. intros [id v] Hin. apply off_day_on_day.
    apply (H id). simpl. now apply elem_of_map_to_list.
Qed.

Lemma daily_report_of_empty_day_witness :
  TransactionManager.get_daily_sales_report (mkDatetime 2024 1 2 0 0 0 0) ledger1
    = Returns (empty_report (mkDatetime 2024 1 2 0 0 0 0)).
Proof.
  apply daily_report_of_empty_day. intros id v Hv.
  assert (Hl : recorded ledger1 =
               {["TXN20240101120000" :=
                   Transaction.to_dict
                     (Transaction.process_payment (mkDecimal false 2500 (-2)) bill20).2]})
    by reflexivity.
  rewrite Hl in Hv. apply lookup_singleton_Some in Hv as [_ <-].
  exists "2024-01-01T12:00:00", noon. repeat split. discriminate.
Defined.

(** ** Expiring products *)

(** From a clock that is past midnight to the midnight of a date, the days
    of the difference are one fewer than the days between the two dates. *)
Lemma sub_days_midnight (y m d : Z) (today : datetime) :
  0 < time_of_day today < 86400 * 1000000 ->
  sub_days (mkDatetime y m d 0 0 0 0) today =
    _ymd2ord y m d - toordinal today - 1.
Proof.
  unfold time_of_day, sub_days, toordinal. simpl. intros H.
  symmetry. apply Z.div_unique with
    (r := 86400 * 1000000
          - ((second today + minute today * 60 + hour today * 3600) * 1000000
             + microsecond today)); lia.
Qed.

(** At midnight itself the days of the difference are the days between the
    dates. *)
Lemma sub_days_at_midnight (y m d : Z) (today : datetime) :
  time_of_day today = 0 ->
  sub_days (mkDatetime y m d 0 0 0 0) today = _ymd2ord y m d - toordinal today.
Proof.
  unfold time_of_day, sub_days, toordinal. simpl. intros H.
  symmetry. apply Z.div_unique with (r := 0); lia.
Qed.

(** What [get_expiring_products] returns when every record carries a
    readable expiry date: the products of the catalog for which the days of
    the difference are at most [days]. *)
Lemma filterM_total {A : Type} (p : A -> outcome bool) (q : A -> bool) (l : list A) :
  Forall (fun x => p x = Returns (q x)) l -> filterM p l = Returns (List.filter q l).
Proof.
  induction 1 as [|x l Hx _ IH]; [reflexivity |].
  simpl. rewrite Hx. run. rewrite IH. reflexivity.
Qed.

Lemma strptime_ymd_midnight (s : string) (d : datetime) :
  strptime_ymd s = Returns d -> d = mkDatetime (year d) (month d) (day d) 0 0 0 0.
Proof.
  unfold strptime_ymd. destruct (_ ≫= _) as [[[y m] dd]|]; [| discriminate].
  destruct (valid_date y m dd); [| discriminate]. now intros [= <-].
Qed.

Lemma expires_within_read (today : datetime) (days : Z) (r : record) (s : string) (d : datetime) :
  r !! "expiry_date" = Some (VStr s) -> strptime_ymd s = Returns d ->
  Inventory.expires_within today days r = Returns (sub_days d today <=? days).
Proof.
  intros Hr Hd. unfold Inventory.expires_within, getitem. rewrite Hr. run. now rewrite Hd.
Qed.

(** The products returned when every record carries a readable expiry date:
    those for which the days of the difference are at most [days]. *)
Lemma get_expiring_products_read (days : Z) (today : datetime) (inv : Inventory.t)
    (count : record -> Z) :
  (forall id r, stored inv !! id = Some r ->
     exists s d, r !! "expiry_date" = Some (VStr s) /\ strptime_ymd s = Returns d /\
                 count r = sub_days d today) ->
  Inventory.get_expiring_products days today inv
    = Returns (List.filter (fun r => count r <=? days) (map_to_list (stored inv)).*2).
Proof.
  intros H. unfold Inventory.get_expiring_products. fold (stored inv).
  apply filterM_total. apply Forall_forall. intros r Hin.
  apply list_elem_of_fmap in Hin as [[id r'] [-> Hin]]. simpl.
  apply elem_of_map_to_list in Hin.
  destruct (H id r' Hin) as (s & d & Hs & Hd & ->).
  now apply expires_within_read with s.
Qed.

(** Past midnight, a product that expires [days + 1] days after today meets
    the condition for [days]. *)
Lemma expires_within_one_day_late (today : datetime) (days : Z) (r : record)
    (s : string) (d : datetime) :
  r !! "expiry_date" = Some (VStr s) -> strptime_ymd s = Returns d ->
  0 < time_of_day today < 86400 * 1000000 ->
  toordinal d - toordinal today = days + 1 ->
  Inventory.expires_within today days r = Returns true.
Proof.
  intros Hr Hd Ht Hdays. rewrite (expires_within_read today days r s d Hr Hd).
  pose proof (strptime_ymd_midnight s d Hd) as E.
  destruct d as [y m dd h mi se us]. simpl in E. injection E as -> -> -> ->.
  rewrite sub_days_midnight by assumption.
  f_equal. apply Z.leb_le. unfold toordinal in *. simpl in Hdays. lia.
Qed.

(** C7 at the failing input: at noon of the first of January the soap that
    expires on the second, one day later, is returned for [days = 0]; by
    [expires_within_one_day_late] the same holds at any time but midnight
    for a product that expires [days + 1] days after today. *)
Theorem get_expiring_products_counts_tomorrow :
  Inventory.get_expiring_products 0 noon shop = Returns [Product.to_dict soap] /\
  strptime_ymd (Product._expiry_date soap) = Returns (mkDatetime 2024 1 2 0 0 0 0) /\
  toordinal (mkDatetime 2024 1 2 0 0 0 0) - toordinal noon = 1.
Proof.
  split; [| split; reflexivity].
  vm_cast_no_check (eq_refl (Returns [Product.to_dict soap])).
Qed.

(** ** The admin form *)

(** What the form stores for six lines it can read: the product with the
    price as the [float] nearest to the number typed. *)
Lemma add_product_form_stores_float (w : system)
    (id name category ptext qtext expiry : string) (rest : list string)
    (f : PyFloat) (q : Z) :
  stdin w = id :: name :: category :: ptext :: qtext :: expiry :: rest ->
  float_of_str ptext = Returns f -> int_of_str qtext = Returns q ->
  stored (_inventory w) !! id = None ->
  let r := InventoryManagementSystem._add_product w in
  r.1 = Returns tt /\ stdin r.2 = rest /\
  stored (_inventory r.2) !! id
    = Some (Product.to_dict (Product.make id name category (PFloat f) q expiry)).
Proof.
  destruct w as [inv tm lines]. simpl. intros -> Hf Hq Hfree.
  unfold InventoryManagementSystem._add_product, input, on_inventory. run. simpl.
  rewrite Hf, Hq. simpl.
  rewrite (add_product_fresh inv (Product.make id name category (PFloat f) q expiry) Hfree).
  simpl. repeat split. unfold stored. simpl. apply lookup_insert_eq.
Qed.

(** C6 at the failing input: the admin types the price 9007199254740993;
    the form reads it as a [float], and the catalog stores 9007199254740992.0.
    A bill for one piece then totals 9007199254740992.00, and a customer who
    pays the price typed gets the change 1.00.  A price typed as 10.00 is
    stored as 10.0, and the [float] read from 0.1 is not one tenth. *)
Theorem add_product_form_reads_a_float :
  let form price rest :=
    InventoryManagementSystem._add_product
      (mkSystem (Inventory.init (JSONStorage.make NoFile 0))
         (TransactionManager.make (JSONStorage.make NoFile 0))
         (["P9"; "Pen"; "Office"; price; "3"; "2025-01-01"] ++ rest)) in
  let stored_price price := stored (_inventory (form price []).2) !! "P9" ≫= (.!! "price") in
  let bill :=
    (Billing.create_bill "bob" noon
       (form "9007199254740993" ["P9"; "1"; "done"; "9007199254740993"]).2).1 in
  (form "9007199254740993" []).1 = Returns tt /\
  stored_price "9007199254740993" = Some (VStr "9007199254740992.0") /\
  (t ← bill; Returns (option_map
     (fun t => (dec_str (Transaction._total_amount t), dec_str (Transaction._change t))) t))
    = Returns (Some ("9007199254740992.00", "1.00")) /\
  stored_price "10.00" = Some (VStr "10.0") /\
  (f ← float_of_str "0.1"; Decimal_of_float f)
    = Returns (mkDecimal false 1000000000000000055511151231257827021181583404541015625 (-55)).
Proof. vm_compute. repeat split. Qed.

(** ** The running total *)

Section DecimalValues.

Implicit Types (a b d : PyDecimal) (e : Z).

Lemma scaled_shift d e e' :
  e' <= e -> e <= dexp d -> scaled d e' = scaled d e * 10 ^ (e - e').
Proof.
  intros H1 H2. unfold scaled.
  replace (dexp d - e') with ((dexp d - e) + (e - e')) by lia.
  rewrite Z.pow_add_r by lia. destruct (dsign d); lia.
Qed.

(** Two numbers are equal when their coefficients agree at an exponent
    below both. *)
Lemma dec_eq_scaled a b e :
  e <= dexp a -> e <= dexp b ->
  dec_eq a b = true <-> scaled a e = scaled b e.
Proof.
  intros Ha Hb. unfold dec_eq, dec_cmp.
  set (m := Z.min (dexp a) (dexp b)).
  rewrite (scaled_shift a m e), (scaled_shift b m e) by lia.
  assert (Hp : 0 < 10 ^ (m - e)) by (apply Z.pow_pos_nonneg; lia).
  destruct (Z.compare_spec (scaled a m) (scaled b m)) as [Heq|Hlt|Hgt].
  - split; [intros _; now rewrite Heq | reflexivity].
  - split; [discriminate | intros H; apply Z.mul_cancel_r in H; lia].
  - split; [discriminate | intros H; apply Z.mul_cancel_r in H; lia].
Qed.

Lemma dexp_add_exact a b : dexp (dec_add_exact a b) = Z.min (dexp a) (dexp b).
Proof. reflexivity. Qed.

Lemma scaled_add_exact a b e :
  e <= dexp a -> e <= dexp b ->
  scaled (dec_add_exact a b) e = scaled a e + scaled b e.
Proof.
  intros Ha Hb. set (m := Z.min (dexp a) (dexp b)).
  rewrite (scaled_shift a m e), (scaled_shift b m e) by lia.
  unfold dec_add_exact. fold m. set (s := scaled a m + scaled b m).
  unfold scaled at 1. simpl. rewrite N2Z.inj_abs_N.
  destruct (Z.eqb_spec s 0) as [H0|H0].
  - rewrite H0. simpl. destruct (_ && _); lia.
  - destruct (Z.ltb_spec s 0); lia.
Qed.

(** Rounding a number that fits keeps its value. *)
Lemma fix_fits d e :
  fits d = true -> e <= dexp d ->
  scaled (fix_ d) e = scaled d e /\ dexp d <= dexp (fix_ d).
Proof.
  unfold fits, fix_. intros Hf He.
  set (k := ndigits (dcoef d) - prec) in *.
  destruct (Z.leb_spec k 0) as [Hk|Hk].
  - rewrite orb_true_r. split; [reflexivity | lia].
  - rewrite orb_false_r. simpl in Hf. apply N.eqb_eq in Hf.
    destruct (N.eqb_spec (dcoef d) 0) as [H0|H0]; [split; [reflexivity | lia] |].
    set (p := (10 ^ Z.to_N k)%N) in *.
    assert (Hp : (0 < p)%N) by (apply N.neq_0_lt_0, N.pow_nonzero; discriminate).
    rewrite Hf. replace (p <? 2 * 0)%N with false
      by (symmetry; apply N.ltb_ge; lia).
    replace (2 * 0 =? p)%N with false by (symmetry; apply N.eqb_neq; lia).
    simpl. split; [| lia].
    unfold scaled. simpl.
    assert (Hc : dcoef d = (p * (dcoef d / p))%N).
    { rewrite (N.div_mod (dcoef d) p) at 1 by lia. rewrite Hf. lia. }
    assert (Hz : Z.of_N (dcoef d) = Z.of_N (dcoef d / p) * 10 ^ k).
    { rewrite Hc at 1. rewrite N2Z.inj_mul. unfold p at 1.
      rewrite N2Z.inj_pow, Z2N.id by lia. simpl (Z.of_N 10). lia. }
    replace (dexp d + k - e) with (k + (dexp d - e)) by lia.
    rewrite Z.pow_add_r, Hz by lia. destruct (dsign d); lia.
Qed.

End DecimalValues.

Lemma exact_sum_snoc (items : list TransactionItem) (item : TransactionItem) :
  exact_sum (items ++ [item]) = dec_add_exact (exact_sum items) (total_price item).
Proof. unfold exact_sum. now rewrite foldl_snoc. Qed.

(** One [add_item] keeps the total equal to the exact sum, when its sum
    fits. *)
Lemma add_item_keeps_total (t : Transaction.t) (item : TransactionItem) :
  dec_eq (Transaction._total_amount t) (exact_sum (Transaction._items t)) = true ->
  fits (dec_add_exact (Transaction._total_amount t) (total_price item)) = true ->
  let t' := (Transaction.add_item item t).2 in
  Transaction._items t' = Transaction._items t ++ [item] /\
  Transaction._total_amount t' = dec_add (Transaction._total_amount t) (total_price item) /\
  dec_eq (Transaction._total_amount t') (exact_sum (Transaction._items t')) = true.
Proof.
  intros Heq Hfit t'. split; [reflexivity |]. split; [reflexivity |].
  change (Transaction._total_amount t')
    with (fix_ (dec_add_exact (Transaction._total_amount t) (total_price item))).
  change (Transaction._items t') with (Transaction._items t ++ [item]).
  rewrite exact_sum_snoc.
  set (total := Transaction._total_amount t) in *.
  set (sum := exact_sum (Transaction._items t)) in *.
  set (p := total_price item) in *.
  set (e := Z.min (Z.min (dexp total) (dexp sum)) (dexp p)).
  destruct (fix_fits (dec_add_exact total p) e Hfit) as [Hv Hexp];
    [rewrite dexp_add_exact; lia |].
  rewrite dexp_add_exact in Hexp.
  apply (dec_eq_scaled _ _ e); [lia | rewrite dexp_add_exact; lia |].
  rewrite Hv, !scaled_add_exact by lia.
  f_equal. apply (dec_eq_scaled total sum e); [lia | lia | exact Heq].
Qed.

Lemma add_items_keep_total (items : list TransactionItem) (t : Transaction.t) :
  dec_eq (Transaction._total_amount t) (exact_sum (Transaction._items t)) = true ->
  no_rounding (Transaction._total_amount t) items = true ->
  let t' := add_items items t in
  Transaction._items t' = Transaction._items t ++ items /\
  dec_eq (Transaction._total_amount t') (exact_sum (Transaction._items t')) = true.
Proof.
  revert t. induction items as [|item items IH]; intros t Heq Hno.
  - simpl. rewrite app_nil_r. now split.
  - simpl in Hno. apply andb_true_iff in Hno as [Hfit Hno].
    destruct (add_item_keeps_total t item Heq Hfit) as (Hitems & Htotal & Heq').
    rewrite <- Htotal in Hno.
    destruct (IH _ Heq' Hno) as [Hitems' Heq''].
    split; [| exact Heq''].
    change (add_items (item :: items) t)
      with (add_items items (Transaction.add_item item t).2).
    rewrite Hitems', Hitems, <- app_assoc. reflexivity.
Qed.

Lemma no_rounding_take (n : nat) (items : list TransactionItem) (total : PyDecimal) :
  no_rounding total items = true -> no_rounding total (take n items) = true.
Proof.
  revert total items. induction n as [|n IH]; intros total [|item items] H; try reflexivity.
  simpl in *. apply andb_true_iff in H as [H1 H2]. rewrite H1. now apply IH.
Qed.

(** C3, as stated, fails: after an item of 1E+28 and an item of 1 the total
    is 1.000000000000000000000000000E+28, the sum rounded to 28 digits, and
    not the sum 10000000000000000000000000001. *)
Lemma add_item_total_rounded :
  let t := add_items wide_items (Transaction.init "TXN20240101120000" "bob" noon) in
  Transaction._items t = wide_items /\
  Transaction._total_amount t = mkDecimal false 1000000000000000000000000000 1 /\
  exact_sum (Transaction._items t) = mkDecimal false 1000000000000000000000000000100 (-2) /\
  dec_eq (Transaction._total_amount t) (exact_sum (Transaction._items t)) = false.
Proof. vm_compute. repeat split. Qed.

(** The same through the program: the admin adds a ship at 1e28 and a
    nail at 1, and a bill for one of each totals 1E+28 in 28 digits; the
    exact sum of its two lines is one more. *)
Example bill_total_rounded :
  let w0 := mkSystem (Inventory.init (JSONStorage.make NoFile 0))
              (TransactionManager.make (JSONStorage.make NoFile 0))
              ["A"; "Ship"; "Fleet"; "1e28"; "3"; "2030-01-01";
               "B"; "Nail"; "Tools"; "1"; "500"; "2030-01-01";
               "A"; "1"; "B"; "1"; "done"; "1e28"] in
  let w1 := (InventoryManagementSystem._add_product w0).2 in
  let w2 := (InventoryManagementSystem._add_product w1).2 in
  (t ← (Billing.create_bill "bob" noon w2).1;
   Returns (option_map
     (fun t => (dec_str (Transaction._total_amount t),
                dec_str (exact_sum (Transaction._items t)),
                dec_str (Transaction._change t))) t))
    = Returns (Some ("1.000000000000000000000000000E+28",
                     "10000000000000000000000000001.00", "0E+1")).
Proof. vm_compute. reflexivity. Qed.

(** C3, amended: for a transaction whose total equals the exact sum of its
    items (a new transaction is one) and a sequence of [add_item] calls in
    which no sum needs more than the 28 significant digits of the decimal
    context nor leaves its exponent range, after each call the items are
    the items so far and the total equals, as a number, the exact sum of
    their total prices. *)
Theorem add_item_total_exact (t : Transaction.t) (items : list TransactionItem) (n : nat) :
  dec_eq (Transaction._total_amount t) (exact_sum (Transaction._items t)) = true ->
  no_rounding (Transaction._total_amount t) items = true ->
  in_range (Transaction._total_amount t) items = true ->
  let t' := add_items (take n items) t in
  Transaction._items t' = Transaction._items t ++ take n items /\
  dec_eq (Transaction._total_amount t') (exact_sum (Transaction._items t')) = true.
Proof.
  intros Heq Hno _. apply add_items_keep_total; [exact Heq |].
  now apply no_rounding_take.
Qed.

Lemma add_item_total_exact_witness :
  let t' := add_items (take 3 mixed_items) (Transaction.init "TXN20240101120000" "bob" noon) in
  Transaction._items t' = [] ++ take 3 mixed_items /\
  dec_eq (Transaction._total_amount t') (exact_sum (Transaction._items t')) = true.
Proof.
  apply (add_item_total_exact (Transaction.init "TXN20240101120000" "bob" noon) mixed_items 3);
    vm_compute; reflexivity.
Defined.

(** The totals of the sale in the scenario of the bill. *)
Example add_item_scenario :
  Transaction._total_amount (add_items mixed_items (Transaction.init "T" "bob" noon))
    = mkDecimal false 1220995 (-3) /\
  dec_str (mkDecimal false 1220995 (-3)) = "1220.995" /\
  dec_str (Transaction._total_amount bill20) = "20.00".
Proof. vm_compute. repeat split. Qed.

(** ** Numerals and their texts *)

Section Numerals.

Implicit Types (s a b : string) (c : ascii) (p : ascii -> bool).

Lemma append_cons c a b : String c a +:+ b = String c (a +:+ b).
Proof. reflexivity. Qed.

Lemma append_nil_l a : "" +:+ a = a.
Proof. reflexivity. Qed.

Lemma string_forallb_app p a b :
  string_forallb p (a +:+ b) = string_forallb p a && string_forallb p b.
Proof. induction a as [|c a IH]; simpl; [reflexivity |]. now rewrite IH, andb_assoc. Qed.

Lemma string_forallb_impl p (q : ascii -> bool) s :
  (forall c, p c = true -> q c = true) ->
  string_forallb p s = true -> string_forallb q s = true.
Proof.
  intros Hpq. induction s as [|c s IH]; simpl; [reflexivity |].
  intros H. apply andb_true_iff in H as [H1 H2]. now rewrite (Hpq c H1), IH.
Qed.

Lemma string_filter_id p s : string_forallb p s = true -> string_filter p s = s.
Proof.
  induction s as [|c s IH]; simpl; [reflexivity |].
  intros H. apply andb_true_iff in H as [H1 H2]. now rewrite H1, IH.
Qed.

Lemma lstrip_id s : string_forallb (fun c => negb (is_space c)) s = true -> lstrip s = s.
Proof.
  destruct s as [|c s]; simpl; [reflexivity |].
  intros H. apply andb_true_iff in H as [H1 _].
  apply negb_true_iff in H1. now rewrite H1.
Qed.

Lemma rstrip_id s : string_forallb (fun c => negb (is_space c)) s = true -> rstrip s = s.
Proof.
  induction s as [|c s IH]; simpl; [reflexivity |].
  intros H. apply andb_true_iff in H as [H1 H2].
  apply negb_true_iff in H1. rewrite (IH H2), H1. now destruct s.
Qed.

Lemma strip_id s : string_forallb (fun c => negb (is_space c)) s = true -> strip s = s.
Proof. intros H. unfold strip. now rewrite lstrip_id, rstrip_id. Qed.

Lemma span_digits_app a b :
  string_forallb is_digit a = true -> ends_digits b -> span_digits (a +:+ b) = (a, b).
Proof.
  intros Ha Hb. induction a as [|c a IH]; simpl in *.
  - destruct b as [|c b]; simpl in *; [reflexivity | now rewrite Hb].
  - apply andb_true_iff in Ha as [H1 H2]. now rewrite H1, (IH H2).
Qed.

Lemma span_digits_all a :
  string_forallb is_digit a = true -> span_digits a = (a, EmptyString).
Proof.
  intros Ha. induction a as [|c a IH]; simpl in *; [reflexivity |].
  apply andb_true_iff in Ha as [H1 H2]. now rewrite H1, (IH H2).
Qed.

Lemma num_of_digits_app acc a b :
  num_of_digits acc (a +:+ b) = num_of_digits (num_of_digits acc a) b.
Proof. revert acc. induction a as [|c a IH]; intros acc; simpl; [reflexivity | apply IH]. Qed.

Lemma num_of_digits_zeros (k : nat) : num_of_digits 0 (zeros k) = 0%N.
Proof. induction k as [|k IH]; simpl; [reflexivity | exact IH]. Qed.

Lemma zeros_digits (k : nat) : string_forallb is_digit (zeros k) = true.
Proof. induction k as [|k IH]; simpl; [reflexivity | exact IH]. Qed.

Lemma zeros_length (k : nat) : String.length (zeros k) = k.
Proof. induction k as [|k IH]; simpl; [reflexivity | now rewrite IH]. Qed.

Lemma append_length a b : String.length (a +:+ b) = (String.length a + String.length b)%nat.
Proof. induction a as [|c a IH]; simpl; [reflexivity | now rewrite IH]. Qed.

Lemma append_assoc a b s : (a +:+ b) +:+ s = a +:+ (b +:+ s).
Proof.
  induction a as [|c a IH]; [reflexivity |].
  rewrite !append_cons. f_equal. exact IH.
Qed.

Lemma append_nil_r a : a +:+ "" = a.
Proof.
  induction a as [|c a IH]; [reflexivity |].
  rewrite append_cons. f_equal. exact IH.
Qed.

Lemma str_take_drop (k : nat) s : str_take_nat k s +:+ str_drop_nat k s = s.
Proof.
  revert s. induction k as [|k IH]; intros [|c s]; simpl; try reflexivity.
  rewrite append_cons. f_equal. apply IH.
Qed.

Lemma str_take_forallb p (k : nat) s :
  string_forallb p s = true -> string_forallb p (str_take_nat k s) = true.
Proof.
  revert s. induction k as [|k IH]; intros [|c s]; simpl; try reflexivity.
  intros H. apply andb_true_iff in H as [H1 H2]. now rewrite H1, IH.
Qed.

Lemma str_drop_forallb p (k : nat) s :
  string_forallb p s = true -> string_forallb p (str_drop_nat k s) = true.
Proof.
  revert s. induction k as [|k IH]; intros [|c s]; simpl; try reflexivity; try easy.
  intros H. apply andb_true_iff in H as [H1 H2]. now apply IH.
Qed.

Lemma str_drop_length (k : nat) s :
  String.length (str_drop_nat k s) = (String.length s - k)%nat.
Proof.
  revert s. induction k as [|k IH]; intros [|c s]; simpl; try reflexivity.
  apply IH.
Qed.

Lemma str_take_nonempty (k : nat) s :
  (0 < k)%nat -> s <> EmptyString -> str_take_nat k s <> EmptyString.
Proof. destruct k; [lia |]. destruct s; [congruence |]. discriminate. Qed.

(** *** The digits of a number *)

Lemma uint_digits (u : Decimal.uint) :
  string_forallb is_digit (NilEmpty.string_of_uint u) = true.
Proof. induction u; simpl; auto. Qed.

Lemma num_of_digits_acc (u : Decimal.uint) (q : positive) :
  num_of_digits (Npos q) (NilEmpty.string_of_uint u) = Npos (Pos.of_uint_acc u q).
Proof.
  revert q. induction u; intros q; simpl; [reflexivity | rewrite <- IHu; f_equal ..];
    match goal with |- context [digit_val ?c] =>
      let v := eval vm_compute in (digit_val c) in change (digit_val c) with v
    end; lia.
Qed.

Lemma num_of_digits_uint (u : Decimal.uint) :
  num_of_digits 0 (NilEmpty.string_of_uint u) = N.of_uint u.
Proof.
  induction u; simpl; [reflexivity | exact IHu | apply num_of_digits_acc ..].
Qed.

Lemma digits_digits (n : N) : string_forallb is_digit (digits n) = true.
Proof.
  unfold digits, NilZero.string_of_uint.
  destruct (N.to_uint n); try apply uint_digits. reflexivity.
Qed.

Lemma num_of_digits_digits (n : N) : num_of_digits 0 (digits n) = n.
Proof.
  unfold digits, NilZero.string_of_uint.
  rewrite <- (DecimalN.Unsigned.of_to n) at 2.
  destruct (N.to_uint n) eqn:E; try (rewrite <- E at 1; rewrite E; apply num_of_digits_uint).
  reflexivity.
Qed.

Lemma digits_nonempty (n : N) : digits n <> EmptyString.
Proof.
  unfold digits, NilZero.string_of_uint. destruct (N.to_uint n); discriminate.
Qed.

End Numerals.

(** *** A decimal number read back from its text *)

Section DecimalText.

Implicit Types (s ip fp x : string) (c : ascii) (d : PyDecimal).

Lemma numeral_char_plain c :
  is_numeral_char c = true ->
  negb (is_space c) = true /\ negb (Ascii.eqb c "_") = true.
Proof. destruct c as [[] [] [] [] [] [] [] []]; vm_compute; intuition discriminate. Qed.

Lemma digit_numeral_char c : is_digit c = true -> is_numeral_char c = true.
Proof. unfold is_numeral_char. now intros ->. Qed.

Lemma digit_no_sign c s : is_digit c = true -> lex_sign (String c s) = (false, String c s).
Proof. destruct c as [[] [] [] [] [] [] [] []]; vm_compute; intros; congruence. Qed.

Lemma lex_exponent_text x e : exponent_text x e -> lex_exponent x = Some e.
Proof.
  destruct 1 as [|z]; [reflexivity |].
  unfold signed_str. change ("E" +:+ ?t) with (String "E" t).
  unfold lex_exponent. simpl (Ascii.eqb _ _ || _)%bool. cbv iota.
  assert (Hd := digits_digits (Z.abs_N z)).
  assert (Hn := digits_nonempty (Z.abs_N z)).
  assert (Hv := num_of_digits_digits (Z.abs_N z)).
  destruct (Z.ltb_spec z 0).
  - change ("-" +:+ ?t) with (String "-" t). simpl lex_sign. cbv iota.
    rewrite (span_digits_all _ Hd). destruct (digits (Z.abs_N z)); [congruence |].
    rewrite Hv. f_equal. lia.
  - change ("+" +:+ ?t) with (String "+" t). simpl lex_sign. cbv iota.
    rewrite (span_digits_all _ Hd). destruct (digits (Z.abs_N z)); [congruence |].
    rewrite Hv. f_equal. lia.
Qed.

Lemma exponent_text_ends x e : exponent_text x e -> ends_digits x.
Proof. destruct 1; [exact I | reflexivity]. Qed.

Lemma exponent_text_chars x e :
  exponent_text x e -> string_forallb is_numeral_char x = true.
Proof.
  destruct 1 as [|z]; [reflexivity |].
  unfold signed_str. rewrite !string_forallb_app.
  rewrite (string_forallb_impl _ _ _ digit_numeral_char (digits_digits _)).
  now destruct (z <? 0).
Qed.

Lemma lex_numeral_text (neg dot : bool) ip fp x e :
  string_forallb is_digit ip = true -> ip <> "" ->
  string_forallb is_digit fp = true -> (dot = false -> fp = "") ->
  exponent_text x e ->
  lex_numeral (numeral_text neg ip dot fp x) = Some (neg, ip, fp, e).
Proof.
  intros Hip Hne Hfp Hdot Hx. unfold lex_numeral, numeral_text.
  assert (Hsign : lex_sign ((if neg then "-" else "") +:+ ip +:+
                            (if dot then "." +:+ fp else "") +:+ x)
                  = (neg, ip +:+ (if dot then "." +:+ fp else "") +:+ x)).
  { destruct neg; [reflexivity |]. rewrite append_nil_l.
    destruct ip as [|c ip]; [congruence |]. rewrite append_cons.
    apply digit_no_sign. simpl in Hip. now apply andb_true_iff in Hip as [-> _]. }
  rewrite Hsign. clear Hsign.
  assert (Hends := exponent_text_ends x e Hx).
  rewrite (span_digits_app ip); [| exact Hip | destruct dot; [reflexivity | exact Hends]].
  assert (Hfrac : (match (if dot then "." +:+ fp else "") +:+ x with
                   | String "." r => span_digits r
                   | _ => (EmptyString, (if dot then "." +:+ fp else "") +:+ x)
                   end) = (fp, x)).
  { destruct dot.
    - change (("." +:+ fp) +:+ x) with (String "." (fp +:+ x)). cbv iota beta.
      now apply span_digits_app.
    - rewrite (Hdot eq_refl), append_nil_l.
      destruct Hx; [reflexivity |]. reflexivity. }
  rewrite Hfrac. clear Hfrac.
  destruct ip as [|c ip]; [congruence |]. rewrite append_cons.
  now rewrite (lex_exponent_text x e Hx).
Qed.

Lemma numeral_text_chars (neg dot : bool) ip fp x e :
  string_forallb is_digit ip = true -> string_forallb is_digit fp = true ->
  exponent_text x e ->
  string_forallb is_numeral_char (numeral_text neg ip dot fp x) = true.
Proof.
  intros Hip Hfp Hx. unfold numeral_text. rewrite !string_forallb_app.
  rewrite (string_forallb_impl _ _ _ digit_numeral_char Hip).
  rewrite (exponent_text_chars x e Hx).
  destruct neg, dot; simpl; rewrite ?string_forallb_app;
    rewrite ?(string_forallb_impl _ _ _ digit_numeral_char Hfp); reflexivity.
Qed.

(** [Decimal] reads the text put together from parts as the number of those
    parts. *)
Lemma Decimal_of_numeral_text (neg dot : bool) ip fp x e :
  string_forallb is_digit ip = true -> ip <> "" ->
  string_forallb is_digit fp = true -> (dot = false -> fp = "") ->
  exponent_text x e ->
  Decimal_of_str (numeral_text neg ip dot fp x)
    = Returns (mkDecimal neg (num_of_digits 0 (ip +:+ fp)) (e - slen fp)).
Proof.
  intros Hip Hne Hfp Hdot Hx. unfold Decimal_of_str.
  assert (Hc := numeral_text_chars neg dot ip fp x e Hip Hfp Hx).
  rewrite strip_id
    by (eapply string_forallb_impl; [| exact Hc]; intros c Hn; apply (numeral_char_plain c Hn)).
  rewrite string_filter_id
    by (eapply string_forallb_impl; [| exact Hc]; intros c Hn; apply (numeral_char_plain c Hn)).
  now rewrite (lex_numeral_text neg dot ip fp x e).
Qed.

End DecimalText.

(** The parts of [str(d)]: digits in front of the point, whether there is a
    point and digits behind it, and an exponent part; read as a number they
    give the coefficient and the exponent of [d]. *)
Lemma dec_str_parts (d : PyDecimal) :
  exists (ip fp x : string) (dot : bool) (e : Z),
    dec_str d = numeral_text (dsign d) ip dot fp x /\
    string_forallb is_digit ip = true /\ ip <> "" /\
    string_forallb is_digit fp = true /\ (dot = false -> fp = "") /\
    exponent_text x e /\
    num_of_digits 0 (ip +:+ fp) = dcoef d /\ e - slen fp = dexp d.
Proof.
  assert (Hd := digits_digits (dcoef d)).
  assert (Hne := digits_nonempty (dcoef d)).
  assert (Hv := num_of_digits_digits (dcoef d)).
  unfold dec_str, numeral_text.
  set (ds := digits (dcoef d)) in *.
  assert (Hn : 1 <= slen ds).
  { unfold slen. destruct ds; [congruence | simpl; lia]. }
  set (n := slen ds) in *.
  set (ld := dexp d + n).
  set (dotplace := if (dexp d <=? 0) && (-6 <? ld) then ld else 1).
  assert (Hdp : (dotplace = ld /\ dexp d <= 0) \/ dotplace = 1).
  { unfold dotplace. destruct (Z.leb_spec (dexp d) 0); simpl; [| now right].
    destruct (-6 <? ld); [now left | now right]. }
  clearbody dotplace.
  assert (Hx : exists x e, (if ld =? dotplace then ""
                            else "E" +:+ signed_str (ld - dotplace)) = x /\
                           exponent_text x e /\ e = ld - dotplace).
  { destruct (Z.eqb_spec ld dotplace) as [->|_].
    - exists "", 0. repeat split; [constructor | lia].
    - eexists _, _. repeat split. constructor. }
  destruct Hx as (x & e & -> & Hx & He).
  destruct (Z.leb_spec dotplace 0) as [H0|H0].
  - (* 0.000ddd *)
    exists "0", (zeros (Z.to_nat (- dotplace)) +:+ ds), x, true, e.
    rewrite <- !append_assoc. split; [reflexivity |].
    rewrite string_forallb_app, zeros_digits, Hd.
    repeat split; try discriminate; try assumption.
    + rewrite append_cons, append_nil_l, num_of_digits_app.
      change (String "0" (zeros ?k)) with (zeros (S k)).
      now rewrite num_of_digits_zeros.
    + unfold slen. rewrite append_length, zeros_length. subst ld n. unfold slen in *. lia.
  - destruct (Z.leb_spec n dotplace) as [H1|H1].
    + (* ddd *)
      assert (dotplace = n) as -> by lia.
      exists ds, "", x, false, e. rewrite Z.sub_diag. simpl (zeros _).
      rewrite !append_nil_r, append_nil_l.
      repeat split; try assumption.
      subst ld n. unfold slen in *. simpl. lia.
    + (* dd.ddd *)
      exists (str_take dotplace ds), (str_drop dotplace ds), x, true, e.
      split; [reflexivity |]. unfold str_take, str_drop.
      rewrite str_take_forallb, str_drop_forallb by assumption.
      repeat split; try discriminate; try assumption.
      * apply str_take_nonempty; [lia | assumption].
      * now rewrite str_take_drop.
      * unfold slen. rewrite str_drop_length. subst ld n. unfold slen in *. lia.
Qed.

(** Every finite decimal number is read back from its text. *)
Lemma Decimal_of_str_dec_str (d : PyDecimal) :
  Decimal_of_str (dec_str d) = Returns d.
Proof.
  destruct (dec_str_parts d) as (ip & fp & x & dot & e & -> & Hip & Hne & Hfp & Hdot & Hx & Hc & He).
  rewrite (Decimal_of_numeral_text _ _ _ _ _ e) by assumption.
  rewrite Hc, He. now destruct d.
Qed.

(** ** Records written and read back *)

Lemma save_transaction_recorded (t : Transaction.t) (tm : TransactionManager.t) :
  recorded (TransactionManager.save_transaction t tm).2
    = <[Transaction._transaction_id t := Transaction.to_dict t]> (recorded tm).
Proof. reflexivity. Qed.







(** ** Bills of ordinary size *)

Section DigitCount.

Implicit Types (s : string) (c : ascii) (n : N).

Lemma digit_val_bound c : is_digit c = true -> (digit_val c < 10)%N.
Proof. destruct c as [[] [] [] [] [] [] [] []]; vm_compute; congruence. Qed.

Lemma num_of_digits_from acc s :
  num_of_digits acc s = (acc * 10 ^ N.of_nat (String.length s) + num_of_digits 0 s)%N.
Proof.
  revert acc. induction s as [|c s IH]; intros acc.
  - simpl. lia.
  - cbn [num_of_digits String.length]. rewrite (IH (10 * acc + digit_val c)%N), (IH (10 * 0 + digit_val c)%N).
    rewrite Nat2N.inj_succ, N.pow_succ_r'. lia.
Qed.

Lemma num_of_digits_upper s :
  string_forallb is_digit s = true ->
  (num_of_digits 0 s < 10 ^ N.of_nat (String.length s))%N.
Proof.
  induction s as [|c s IH]; intros H.
  - simpl. lia.
  - cbn [string_forallb] in H. apply andb_true_iff in H as [Hc Hs].
    cbn [num_of_digits String.length]. rewrite num_of_digits_from.
    rewrite Nat2N.inj_succ, N.pow_succ_r'.
    pose proof (digit_val_bound c Hc). specialize (IH Hs). nia.
Qed.

Lemma num_of_digits_lower c s :
  (1 <= digit_val c)%N ->
  (10 ^ N.of_nat (String.length s) <= num_of_digits 0 (String c s))%N.
Proof.
  intros H. cbn [num_of_digits]. rewrite num_of_digits_from. nia.
Qed.

Lemma nzhead_no_zero (u : Decimal.uint) :
  match Decimal.nzhead u with Decimal.D0 _ => False | _ => True end.
Proof. induction u; simpl; auto. Qed.

(** The text of a positive number starts with a digit that is not 0. *)
Lemma digits_head n :
  n <> 0%N -> exists c s, digits n = String c s /\ (1 <= digit_val c)%N.
Proof.
  intros Hn. unfold digits.
  pose proof (DecimalN.Unsigned.to_of (N.to_uint n)) as Hnorm.
  rewrite DecimalN.Unsigned.of_to in Hnorm.
  pose proof (nzhead_no_zero (N.to_uint n)) as Hz.
  unfold Decimal.unorm in Hnorm.
  destruct (Decimal.nzhead (N.to_uint n)) eqn:E; try contradiction;
    try (rewrite Hnorm; unfold NilZero.string_of_uint; simpl;
         eexists _, _; split; [reflexivity | vm_compute; discriminate]).
  exfalso. apply Hn. rewrite <- (DecimalN.Unsigned.of_to n), Hnorm. reflexivity.
Qed.

(** A number below [10^k] has at most [k] digits. *)
Lemma ndigits_le n (k : Z) : 1 <= k -> (n < 10 ^ Z.to_N k)%N -> ndigits n <= k.
Proof.
  intros Hk Hlt. destruct (N.eq_dec n 0%N) as [->|Hn]; [change (ndigits 0) with 1; lia |].
  destruct (digits_head n Hn) as (c & s & Hd & Hc).
  pose proof (num_of_digits_lower c s Hc) as Hlow.
  rewrite <- Hd, num_of_digits_digits in Hlow.
  unfold ndigits, slen. rewrite Hd. cbn [String.length].
  assert (H : (10 ^ N.of_nat (String.length s) < 10 ^ Z.to_N k)%N) by lia.
  apply N.pow_lt_mono_r_iff in H; lia.
Qed.

End DigitCount.

Lemma fix_short (d : PyDecimal) : (dcoef d < 10 ^ 28)%N -> fits d = true /\ fix_ d = d.
Proof.
  intros H. pose proof (ndigits_le (dcoef d) 28 ltac:(lia) H) as Hn.
  unfold fits, fix_, prec. destruct (Z.leb_spec (ndigits (dcoef d) - 28) 0); [| lia].
  now rewrite orb_true_r.
Qed.

(** Amounts with at most two decimal places that add up to less than
    [1E+26] are added without rounding. *)
Lemma no_rounding_cents (items : list TransactionItem) (total : PyDecimal) :
  dexp total = -2 ->
  Forall (fun item => -2 <= dexp (total_price item)) items ->
  Z.of_N (dcoef total) + total_cents items < 10 ^ 28 ->
  no_rounding total items = true.
Proof.
  revert total. induction items as [|item items IH]; intros total He Hp Hsum; [reflexivity |].
  apply Forall_cons in Hp as [Hp Hps]. cbn [total_cents foldr] in Hsum.
  fold (total_cents items) in Hsum.
  set (p := total_price item) in *.
  assert (Hc : 0 <= cents p) by apply Z.abs_nonneg.
  assert (Ht : 0 <= total_cents items).
  { clear. induction items as [|i l IHl]; simpl; [lia |]. unfold cents at 1. lia. }
  set (E := dec_add_exact total p).
  assert (HeE : dexp E = -2) by (unfold E; rewrite dexp_add_exact; lia).
  assert (HcE : Z.of_N (dcoef E) <= Z.of_N (dcoef total) + cents p).
  { unfold E, dec_add_exact. cbn [dcoef]. rewrite N2Z.inj_abs_N.
    replace (Z.min (dexp total) (dexp p)) with (-2) by lia.
    unfold cents. assert (Z.abs (scaled total (-2)) = Z.of_N (dcoef total)).
    { unfold scaled. rewrite He. simpl. destruct (dsign total); lia. }
    lia. }
  destruct (fix_short E) as [Hfit Hfix]; [change (10 ^ 28)%N with (Z.to_N (10 ^ 28)); lia |].
  cbn [no_rounding]. fold p. fold E. rewrite Hfit. cbn [andb].
  unfold dec_add. fold E. rewrite Hfix. apply IH; [exact HeE | exact Hps | lia].
Qed.

(** A bill of amounts with at most two decimal places that add up to less
    than [1E+26] has the exact sum as its total. *)
Lemma bills_of_ordinary_size_are_exact
    (transaction_id cashier : string) (now : datetime) (items : list TransactionItem) :
  Forall (fun item => -2 <= dexp (total_price item)) items ->
  total_cents items < 10 ^ 28 ->
  let t := add_items items (Transaction.init transaction_id cashier now) in
  Transaction._items t = items /\
  dec_eq (Transaction._total_amount t) (exact_sum (Transaction._items t)) = true.
Proof.
  intros Hp Hsum.
  apply (add_items_keep_total items (Transaction.init transaction_id cashier now));
    [reflexivity |].
  now apply no_rounding_cents.
Qed.

(** * Further properties of the catalog *)

Section CatalogFacts.

Implicit Types (inv : Inventory.t) (r : record) (pid : string).

Lemma delete_product_present inv pid :
  is_Some (stored inv !! pid) ->
  Inventory.delete_product pid inv =
    (Returns true,
     Inventory.make
       (JSONStorage.save_data (delete pid (stored inv)) (Inventory._storage inv))
       (Inventory._low_stock_threshold inv)).
Proof.
  intros H. unfold Inventory.delete_product, Inventory.load, Inventory.save. run.
  fold (stored inv). destruct (decide _) as [_|n]; [reflexivity | contradiction].
Qed.

Lemma adjust_stock_no_quantity inv pid delta r :
  stored inv !! pid = Some r -> r !! "quantity" = None ->
  Inventory.adjust_stock pid delta inv = (Raises KeyError, inv).
Proof.
  intros H Hq. unfold Inventory.adjust_stock, Inventory.load. run.
  fold (stored inv). rewrite H. unfold getitem. now rewrite Hq.
Qed.

Lemma adjust_stock_bad_quantity inv pid delta r q e :
  stored inv !! pid = Some r -> r !! "quantity" = Some q -> py_int q = Raises e ->
  Inventory.adjust_stock pid delta inv = (Raises e, inv).
Proof.
  intros H Hq He. unfold Inventory.adjust_stock, Inventory.load. run.
  fold (stored inv). rewrite H. unfold getitem. now rewrite Hq, He.
Qed.

Lemma stored_saved (data : document) (st : JSONStorage.t) (th : Z) :
  stored (Inventory.make (JSONStorage.save_data data st) th) = data.
Proof. reflexivity. Qed.

(** Updates without a keyword named as a parameter of the method. *)
Lemma keywords_free (updates : record) :
  ~ (is_Some (updates !! "self") \/ is_Some (updates !! "product_id")) ->
  updates !! "self" = None /\ updates !! "product_id" = None.
Proof.
  intros H. split.
  - destruct (updates !! "self") eqn:E; [exfalso; apply H; left; eauto | reflexivity].
  - destruct (updates !! "product_id") eqn:E; [exfalso; apply H; right; eauto | reflexivity].
Qed.

(** The shop holds the soap. *)
Lemma shop_soap : stored shop !! "P1" = Some (Product.to_dict soap).
Proof. vm_cast_no_check (eq_refl (Some (Product.to_dict soap))). Qed.

End CatalogFacts.

(** X1: [add_product] of a product with an id the catalog lacks, and with a
    quantity that can be written (an [int] of at most 4300 digits), returns
    [True] and writes the catalog with the record of the product under that
    id, the other products as they were; [delete_product] on the id then
    returns [True], and the catalog is the one before the two calls,
    written twice. *)
Theorem add_then_delete_product (inv : Inventory.t) (product : Product.t) :
  stored inv !! Product._product_id product = None ->
  int_writable (Product._quantity product) = true ->
  let pid := Product._product_id product in
  let added := Inventory.add_product product inv in
  let deleted := Inventory.delete_product pid added.2 in
  added.1 = Returns true /\
  stored added.2 = <[pid := Product.to_dict product]> (stored inv) /\
  deleted.1 = Returns true /\
  stored deleted.2 = stored inv /\
  JSONStorage.writes (Inventory._storage deleted.2)
    = S (S (JSONStorage.writes (Inventory._storage inv))).
Proof.
  intros Hfree _ pid added deleted. subst added deleted.
  rewrite (add_product_fresh inv product Hfree). simpl.
  rewrite delete_product_present by (rewrite stored_saved, lookup_insert_eq; eauto).
  simpl. rewrite !stored_saved.
  repeat split. now apply delete_insert_id.
Qed.

Lemma add_then_delete_product_witness :
  stored (Inventory.delete_product "P1"
            (Inventory.add_product soap (Inventory.init (JSONStorage.make NoFile 0))).2).2
    = ∅.
Proof.
  exact (proj1 (proj2 (proj2 (proj2
    (add_then_delete_product (Inventory.init (JSONStorage.make NoFile 0)) soap
       eq_refl eq_refl))))).
Defined.

(** X2: [delete_product] of a product of the catalog returns [True] and
    writes the catalog without it, the other products as they were; the id
    is free again: a second [delete_product] returns [False] and writes
    nothing, and [add_product] with that id is accepted for a product whose
    quantity can be written. *)
Theorem delete_product_removes (inv : Inventory.t) (pid : string) :
  is_Some (stored inv !! pid) ->
  let deleted := Inventory.delete_product pid inv in
  deleted.1 = Returns true /\
  stored deleted.2 !! pid = None /\
  (forall other, other <> pid -> stored deleted.2 !! other = stored inv !! other) /\
  Inventory.delete_product pid deleted.2 = (Returns false, deleted.2) /\
  (forall product, Product._product_id product = pid ->
     int_writable (Product._quantity product) = true ->
     (Inventory.add_product product deleted.2).1 = Returns true).
Proof.
  intros H deleted. subst deleted. rewrite (delete_product_present inv pid H). simpl.
  rewrite stored_saved.
  split; [reflexivity |]. split; [apply lookup_delete_eq |].
  split; [intros other Hne; now apply lookup_delete_ne |].
  split.
  - apply delete_product_absent. rewrite stored_saved. apply lookup_delete_eq.
  - intros product <- _. rewrite add_product_fresh; [reflexivity |].
    rewrite stored_saved. apply lookup_delete_eq.
Qed.

Lemma delete_product_removes_witness :
  Inventory.delete_product "P1" (Inventory.delete_product "P1" shop).2
    = (Returns false, (Inventory.delete_product "P1" shop).2).
Proof.
  refine (proj1 (proj2 (proj2 (proj2 (delete_product_removes shop "P1" _))))).
  rewrite shop_soap. eauto.
Defined.

(** X3: on a product with a name and a readable quantity [current >= 0], an
    [adjust_stock] by [delta] that keeps the quantity at 0 or more, and an
    [int] that can be written, and the [adjust_stock] by [- delta] after it
    both return [True]; the catalog then differs from the first one only in
    that the quantity of the product is the [int] [current], whatever value
    of that number the file held. *)
Theorem adjust_stock_there_and_back (inv : Inventory.t) (pid : string) (delta : Z)
    (r : record) (q : pyval) (current : Z) :
  stored inv !! pid = Some r -> r !! "quantity" = Some q -> py_int q = Returns current ->
  is_Some (r !! "name") -> 0 <= current -> 0 <= current + delta ->
  int_writable current = true -> int_writable (current + delta) = true ->
  let there := Inventory.adjust_stock pid delta inv in
  let back := Inventory.adjust_stock pid (- delta) there.2 in
  there.1 = Returns true /\ back.1 = Returns true /\
  stored back.2 = <[pid := <["quantity" := VInt current]> r]> (stored inv).
Proof.
  intros Hr Hq Hint [n Hn] H0 H1 _ _ there back. subst there back.
  rewrite (adjust_stock_applies inv pid delta r q current Hr Hq Hint H1).
  rewrite Hn, bool_decide_eq_false_2, andb_false_r by discriminate. simpl.
  rewrite (adjust_stock_applies _ pid (- delta)
             (<["quantity" := VInt (current + delta)]> r) (VInt (current + delta))
             (current + delta));
    [| rewrite stored_saved; apply lookup_insert_eq | apply lookup_insert_eq
     | reflexivity | lia].
  rewrite lookup_insert_ne, Hn, bool_decide_eq_false_2, andb_false_r by discriminate.
  simpl. rewrite !stored_saved. repeat split.
  rewrite insert_insert_eq. f_equal. rewrite insert_insert_eq. do 2 f_equal. lia.
Qed.

Lemma adjust_stock_there_and_back_witness :
  (Inventory.adjust_stock "P1" (-4) shop).1 = Returns true.
Proof.
  exact (proj1 (adjust_stock_there_and_back shop "P1" (-4)
           (Product.to_dict soap) (VInt 10) 10
           eq_refl eq_refl eq_refl ltac:(vm_compute; eauto) ltac:(lia) ltac:(lia)
           ltac:(vm_compute; reflexivity) ltac:(vm_compute; reflexivity))).
Defined.

(** X4: [adjust_stock] on a product whose record holds no quantity raises
    [KeyError], and on one whose quantity [int] cannot read (if it is kept
    as text, a text in ASCII) it raises what [int] raises; on a record
    without a name it raises [KeyError] when the new quantity is from 0 to
    the low stock threshold, where the alert wants the name, and returns
    [True] above the threshold when the new quantity can be written.
    Whenever it raises, nothing is written. *)
Theorem adjust_stock_unreadable (inv : Inventory.t) (pid : string) (delta : Z) (r : record) :
  stored inv !! pid = Some r ->
  (r !! "quantity" = None ->
     Inventory.adjust_stock pid delta inv = (Raises KeyError, inv)) /\
  (forall q e, r !! "quantity" = Some q -> py_int q = Raises e ->
     (forall s, q = VStr s -> ascii_text s = true) ->
     Inventory.adjust_stock pid delta inv = (Raises e, inv)) /\
  (forall q current, r !! "quantity" = Some q -> py_int q = Returns current ->
     r !! "name" = None -> 0 <= current + delta ->
     int_writable (current + delta) = true ->
     if current + delta <=? Inventory._low_stock_threshold inv
     then Inventory.adjust_stock pid delta inv = (Raises KeyError, inv)
     else (Inventory.adjust_stock pid delta inv).1 = Returns true).
Proof.
  intros Hr. split; [now apply adjust_stock_no_quantity |].
  split; [intros q e Hq He _; now apply (adjust_stock_bad_quantity inv pid delta r q) |].
  intros q current Hq Hint Hn Hpos _.
  rewrite (adjust_stock_applies inv pid delta r q current Hr Hq Hint Hpos).
  rewrite bool_decide_eq_true_2 by assumption.
  now destruct (_ <=? _).
Qed.

Lemma adjust_stock_unreadable_witness :
  let inv := Inventory.init (JSONStorage.make (Document {["P1" := ∅]}) 0) in
  Inventory.adjust_stock "P1" 1 inv = (Raises KeyError, inv).
Proof.
  intros inv.
  exact (proj1 (adjust_stock_unreadable inv "P1" 1 ∅ eq_refl) eq_refl).
Defined.

(** ** Listings *)

Lemma filterM_raises {A : Type} (p : A -> outcome bool) (l : list A) (x : A) (e : exn) :
  x ∈ l -> p x = Raises e -> exists e', filterM p l = Raises e'.
Proof.
  induction l as [|y l IH]; intros Hin Hx; [now apply elem_of_nil in Hin |].
  apply elem_of_cons in Hin as [<-|Hin]; simpl.
  - rewrite Hx. now exists e.
  - destruct (p y) as [b|e1]; run; [| now exists e1].
    destruct (IH Hin Hx) as [e' ->]. now exists e'.
Qed.

Lemma mapM_total {A B : Type} (f : A -> outcome B) (g : A -> B) (l : list A) :
  Forall (fun x => f x = Returns (g x)) l -> mapM f l = Returns (g <$> l).
Proof.
  induction 1 as [|x l Hx _ IH]; [reflexivity |].
  simpl. rewrite Hx. run. rewrite IH. reflexivity.
Qed.

Lemma products_stored (inv : Inventory.t) (r : record) :
  r ∈ products inv <-> exists pid, stored inv !! pid = Some r.
Proof.
  unfold products. rewrite list_elem_of_fmap. split.
  - intros [[pid r'] [-> Hin]]. exists pid. now apply elem_of_map_to_list in Hin.
  - intros [pid H]. exists (pid, r). split; [reflexivity |]. now apply elem_of_map_to_list.
Qed.

(** What an [adjust_stock] leaves: the state it found, or the catalog
    written with the new quantity of the product. *)
Lemma adjust_stock_state (inv : Inventory.t) (pid : string) (delta : Z) :
  let call := Inventory.adjust_stock pid delta inv in
  (call.2 = inv /\ call.1 <> Returns true) \/
  exists r q current,
    stored inv !! pid = Some r /\ r !! "quantity" = Some q /\ py_int q = Returns current /\
    0 <= current + delta /\
    call = (Returns true,
            Inventory.make
              (JSONStorage.save_data
                 (<[pid := <["quantity" := VInt (current + delta)]> r]> (stored inv))
                 (Inventory._storage inv))
              (Inventory._low_stock_threshold inv)).
Proof.
  intros call. subst call. destruct (stored inv !! pid) as [r|] eqn:Hr.
  - destruct (r !! "quantity") as [q|] eqn:Hq.
    + destruct (py_int q) as [current|e] eqn:Hint.
      * destruct (Z.lt_ge_cases (current + delta) 0) as [Hneg|Hpos].
        -- left. now rewrite (adjust_stock_below_zero inv pid delta r q current).
        -- rewrite (adjust_stock_applies inv pid delta r q current Hr Hq Hint Hpos).
           destruct (_ && _); [left; easy |]. right. now exists r, q, current.
      * left. now rewrite (adjust_stock_bad_quantity inv pid delta r q e).
    + left. now rewrite (adjust_stock_no_quantity inv pid delta r).
  - left. now rewrite adjust_stock_absent.
Qed.

Lemma counted_inv (r : record) :
  counted r = true -> exists q, r !! "quantity" = Some (VInt q).
Proof.
  unfold counted. destruct (r !! "quantity") as [[]|]; try discriminate. eauto.
Qed.

Lemma get_low_stock_products_counted (inv : Inventory.t) :
  map_Forall (fun _ r => counted r = true) (stored inv) ->
  Inventory.get_low_stock_products inv
    = Returns (List.filter
                 (fun r : record =>
                    match r !! "quantity" with
                    | Some (VInt q) => q <=? Inventory._low_stock_threshold inv
                    | _ => false
                    end)
                 (products inv)).
Proof.
  intros H. unfold Inventory.get_low_stock_products. fold (stored inv). fold (products inv).
  apply filterM_total. apply Forall_forall. intros r Hin.
  apply products_stored in Hin as [pid Hr]. destruct (counted_inv r (H pid r Hr)) as [q Hq].
  unfold getitem. rewrite Hq. reflexivity.
Qed.

(** X5: in a catalog whose quantities are [int]s, after an [adjust_stock]
    that returned [True] the list of [get_low_stock_products] holds the
    record of the adjusted product exactly when its new quantity is at most
    the low stock threshold, which is when the call gave the alert. *)
Theorem low_stock_lists_the_alerted (inv inv' : Inventory.t) (pid : string) (delta : Z) :
  map_Forall (fun _ r => counted r = true) (stored inv) ->
  Inventory.adjust_stock pid delta inv = (Returns true, inv') ->
  exists r q l,
    stored inv' !! pid = Some r /\ r !! "quantity" = Some (VInt q) /\
    Inventory.get_low_stock_products inv' = Returns l /\
    (r ∈ l <-> q <= Inventory._low_stock_threshold inv').
Proof.
  intros Hall Hcall.
  destruct (adjust_stock_state inv pid delta) as [[_ Hno]|(r & q & current & Hr & Hq & Hint & Hpos & E)].
  { rewrite Hcall in Hno. now contradiction Hno. }
  rewrite Hcall in E. injection E as ->.
  set (r' := <["quantity" := VInt (current + delta)]> r).
  assert (Hr' : stored (Inventory.make
                   (JSONStorage.save_data (<[pid := r']> (stored inv)) (Inventory._storage inv))
                   (Inventory._low_stock_threshold inv)) !! pid = Some r')
    by (rewrite stored_saved; apply lookup_insert_eq).
  exists r', (current + delta). eexists.
  split; [exact Hr' |]. split; [apply lookup_insert_eq |].
  split.
  - apply get_low_stock_products_counted. rewrite stored_saved.
    apply map_Forall_insert_2; [| exact Hall].
    unfold counted. unfold r'. now rewrite lookup_insert_eq.
  - assert (Hq' : r' !! "quantity" = Some (VInt (current + delta)))
      by apply lookup_insert_eq.
    rewrite list_elem_of_In, filter_In, <- list_elem_of_In, Hq', Z.leb_le. simpl.
    split; [easy |]. intros H. split; [| exact H].
    apply products_stored. now exists pid.
Qed.

Lemma low_stock_lists_the_alerted_witness :
  exists r q l,
    stored (Inventory.adjust_stock "P1" (-6) shop).2 !! "P1" = Some r /\
    r !! "quantity" = Some (VInt q) /\
    Inventory.get_low_stock_products (Inventory.adjust_stock "P1" (-6) shop).2 = Returns l /\
    (r ∈ l <-> q <= Inventory._low_stock_threshold (Inventory.adjust_stock "P1" (-6) shop).2).
Proof.
  apply (low_stock_lists_the_alerted shop _ "P1" (-6)).
  - refine (bool_decide_unpack _ _). vm_compute. exact I.
  - reflexivity.
Defined.

(** The updates the form collects from its five lines: a field for each
    line that is not empty, with the line as a string. *)
Lemma update_form_stores (w : system) (pid name category price quantity expiry : string)
    (rest : list string) (r : record) :
  stdin w = pid :: name :: category :: price :: quantity :: expiry :: rest ->
  stored (_inventory w) !! pid = Some r ->
  exists r',
    InventoryManagementSystem._update_product w
      = (Returns tt,
         mkSystem
           (Inventory.make
              (JSONStorage.save_data (<[pid := r']> (stored (_inventory w)))
                 (Inventory._storage (_inventory w)))
              (Inventory._low_stock_threshold (_inventory w)))
           (_transaction_manager w) rest) /\
    forall field value,
      (field, value) ∈ [("name", name); ("category", category); ("price", price);
                        ("quantity", quantity); ("expiry_date", expiry)] ->
      r' !! field = if decide (value = "") then r !! field else Some (VStr value).
Proof.
  destruct w as [inv tm lines]. simpl. intros -> Hr.
  unfold InventoryManagementSystem._update_product, input, on_inventory. run. simpl.
  eexists. split.
  - rewrite (update_prodcut_present inv pid _ r);
      [simpl; reflexivity
      | repeat destruct (decide (_ = "")); reflexivity
      | repeat destruct (decide (_ = "")); reflexivity
      | exact Hr].
  - intros field value Hin.
    repeat (apply elem_of_cons in Hin as [[= -> ->]|Hin]);
      [.. | now apply elem_of_nil in Hin];
      repeat destruct (decide (_ = "")); try contradiction;
      first [ apply lookup_union_r; reflexivity
            | apply lookup_union_Some_l; reflexivity ].
Qed.

(** X6: the update form stores each line typed as a string, the quantity
    too; once a quantity has gone through the form, the record holds a
    string there, and [get_low_stock_products], which compares the stored
    value with the threshold, raises for the whole catalog. *)
Theorem update_form_breaks_low_stock (w : system)
    (pid name category price quantity expiry : string) (rest : list string) :
  stdin w = pid :: name :: category :: price :: quantity :: expiry :: rest ->
  is_Some (stored (_inventory w) !! pid) ->
  quantity <> "" ->
  let form := InventoryManagementSystem._update_product w in
  form.1 = Returns tt /\
  (exists r', stored (_inventory form.2) !! pid = Some r' /\
              r' !! "quantity" = Some (VStr quantity)) /\
  exists e, Inventory.get_low_stock_products (_inventory form.2) = Raises e.
Proof.
  intros Hin [r Hr] Hq form. subst form.
  destruct (update_form_stores w pid name category price quantity expiry rest r Hin Hr)
    as (r' & -> & Hfields).
  assert (Hq' : r' !! "quantity" = Some (VStr quantity)).
  { rewrite (Hfields "quantity" quantity) by (repeat constructor).
    destruct (decide _); [contradiction | reflexivity]. }
  simpl. rewrite stored_saved. split; [reflexivity |].
  split; [exists r'; split; [apply lookup_insert_eq | exact Hq'] |].
  unfold Inventory.get_low_stock_products.
  apply filterM_raises with (x := r') (e := TypeError).
  - apply (products_stored (Inventory.make _ _)). exists pid.
    rewrite stored_saved. apply lookup_insert_eq.
  - unfold getitem. rewrite Hq'. reflexivity.
Qed.

Lemma update_form_breaks_low_stock_witness :
  exists e,
    Inventory.get_low_stock_products
      (_inventory
         (InventoryManagementSystem._update_product
            (mkSystem shop (TransactionManager.make (JSONStorage.make NoFile 0))
               ["P1"; ""; ""; ""; "7"; ""])).2)
    = Raises e.
Proof.
  refine (proj2 (proj2 (update_form_breaks_low_stock
    (mkSystem shop (TransactionManager.make (JSONStorage.make NoFile 0))
       ["P1"; ""; ""; ""; "7"; ""])
    "P1" "" "" "" "7" "" [] eq_refl _ _))).
  - cbn [_inventory]. rewrite shop_soap. eauto.
  - discriminate.
Defined.

(** ** Searching *)

Lemma search_products_spec (criteria value : string) (inv : Inventory.t) (r : record) :
  r ∈ Inventory.search_products criteria value inv <->
  r ∈ products inv /\ lower (py_str (default (VStr "") (r !! criteria))) = lower value.
Proof.
  unfold Inventory.search_products. fold (stored inv). fold (products inv).
  rewrite list_elem_of_filter. tauto.
Qed.

Lemma lower_empty (s : string) : "" = lower s <-> s = "".
Proof. destruct s; simpl; split; congruence. Qed.

(** X7: after [add_product] has stored a product under a fresh id (a product
    whose quantity can be written, an [int] of at most 4300 digits),
    [search_products] by name returns its record exactly for the values
    that are the name up to the case of the letters, and likewise by
    category, for names, categories and values written in ASCII; by a
    criteria its record has no field for, it is returned exactly for the
    empty value.  Every record a search returns is a record of the
    catalog. *)
Theorem search_products_finds_added (inv : Inventory.t) (product : Product.t)
    (value : string) :
  stored inv !! Product._product_id product = None ->
  int_writable (Product._quantity product) = true ->
  let inv' := (Inventory.add_product product inv).2 in
  let found criteria := Product.to_dict product ∈ Inventory.search_products criteria value inv' in
  (ascii_text value = true ->
     (ascii_text (Product._name product) = true ->
        (found "name" <-> lower (Product._name product) = lower value)) /\
     (ascii_text (Product._category product) = true ->
        (found "category" <-> lower (Product._category product) = lower value))) /\
  (forall criteria, Product.to_dict product !! criteria = None ->
     (found criteria <-> value = "")) /\
  (forall criteria r, r ∈ Inventory.search_products criteria value inv' ->
     exists pid, stored inv' !! pid = Some r).
Proof.
  intros Hfree _ inv' found. subst inv' found.
  rewrite (add_product_fresh inv product Hfree). simpl.
  set (inv' := Inventory.make _ _).
  assert (Hin : Product.to_dict product ∈ products inv').
  { apply products_stored. exists (Product._product_id product).
    unfold inv'. rewrite stored_saved. apply lookup_insert_eq. }
  split; [| split].
  - intros _. split; intros _; rewrite search_products_spec;
      (split; [now intros [_ H] | now split]).
  - intros criteria Hnone. rewrite search_products_spec, Hnone. simpl.
    rewrite lower_empty. split; [now intros [_ H] | now split].
  - intros criteria r Hr. apply search_products_spec in Hr as [Hr _].
    now apply products_stored.
Qed.

Lemma search_products_finds_added_witness :
  Product.to_dict soap ∈ Inventory.search_products "name" "SOAP" shop.
Proof.
  exact (proj2 (proj1 (proj1 (search_products_finds_added
           (Inventory.init (JSONStorage.make NoFile 0)) soap "SOAP" eq_refl eq_refl) eq_refl)
                  eq_refl) eq_refl).
Defined.

(** ** Expiry dates *)

(** X8: the admin form takes any line as the expiry date.  When the line, a
    text in ASCII, is not a date written as [YYYY-MM-DD], the product is
    stored all the same,
    and from then on [get_expiring_products] raises, for any number of days
    and at any time: one such record stops the listing of the whole
    catalog. *)
Theorem unreadable_expiry_date_stops_listing (w : system)
    (id name category ptext qtext expiry : string) (rest : list string)
    (f : PyFloat) (q : Z) :
  stdin w = id :: name :: category :: ptext :: qtext :: expiry :: rest ->
  float_of_str ptext = Returns f -> int_of_str qtext = Returns q ->
  stored (_inventory w) !! id = None ->
  ascii_text expiry = true -> strptime_ymd expiry = Raises ValueError ->
  let form := InventoryManagementSystem._add_product w in
  form.1 = Returns tt /\
  is_Some (stored (_inventory form.2) !! id) /\
  forall days today, exists e,
    Inventory.get_expiring_products days today (_inventory form.2) = Raises e.
Proof.
  intros Hin Hf Hq Hfree _ Hbad form. subst form.
  destruct (add_product_form_stores_float w id name category ptext qtext expiry rest f q
              Hin Hf Hq Hfree) as (H1 & _ & Hr).
  split; [exact H1 |]. split; [eauto |].
  intros days today. unfold Inventory.get_expiring_products.
  eapply filterM_raises with (e := ValueError).
  - apply products_stored. eexists. exact Hr.
  - unfold Inventory.expires_within, getitem.
    replace (Product.to_dict _ !! "expiry_date") with (Some (VStr expiry)) by reflexivity.
    run. now rewrite Hbad.
Qed.

Lemma unreadable_expiry_date_stops_listing_witness :
  exists e,
    Inventory.get_expiring_products 30 noon
      (_inventory
         (InventoryManagementSystem._add_product
            (mkSystem shop (TransactionManager.make (JSONStorage.make NoFile 0))
               ["P2"; "Salt"; "Food"; "2.50"; "4"; ""])).2)
    = Raises e.
Proof.
  refine (proj2 (proj2 (unreadable_expiry_date_stops_listing
    (mkSystem shop (TransactionManager.make (JSONStorage.make NoFile 0))
       ["P2"; "Salt"; "Food"; "2.50"; "4"; ""])
    "P2" "Salt" "Food" "2.50" "4" "" [] _ 4 eq_refl _ eq_refl eq_refl eq_refl eq_refl))
    30 noon).
  vm_compute. reflexivity.
Defined.

(** ** Purchases *)

Lemma concat_nils {A B : Type} (l : list A) : concat ((fun _ => @nil B) <$> l) = [].
Proof. induction l; simpl; auto. Qed.

Lemma get_daily_purchase_report_no_history (date : datetime) (inv : Inventory.t) :
  no_history inv -> Inventory.get_daily_purchase_report date inv = Returns [].
Proof.
  intros H. unfold Inventory.get_daily_purchase_report. fold (stored inv).
  rewrite (mapM_total _ (fun _ => [])).
  - run. now rewrite concat_nils.
  - apply Forall_forall. intros [pid r] Hin. apply elem_of_map_to_list in Hin.
    simpl. now rewrite (H pid r Hin).
Qed.

(** X9: no operation on the catalog writes a restocking history: when no
    record holds one, none does after [add_product], [delete_product],
    [adjust_stock] or an [update_prodcut] whose updates hold none, whatever
    the call returns or raises; and as long as no record holds one,
    [get_daily_purchase_report] returns the empty list for every date. *)
Theorem purchase_report_stays_empty (inv : Inventory.t) :
  no_history inv ->
  (forall date, Inventory.get_daily_purchase_report date inv = Returns []) /\
  (forall product, no_history (Inventory.add_product product inv).2) /\
  (forall pid, no_history (Inventory.delete_product pid inv).2) /\
  (forall pid delta, no_history (Inventory.adjust_stock pid delta inv).2) /\
  (forall pid updates, updates !! "restocking_history" = None ->
     no_history (Inventory.update_prodcut pid updates inv).2).
Proof.
  intros H. split; [intros date; now apply get_daily_purchase_report_no_history |].
  split; [| split; [| split]].
  - intros product.
    destruct (stored inv !! Product._product_id product) as [r|] eqn:Hr.
    + rewrite add_product_duplicate by eauto. exact H.
    + rewrite add_product_fresh by assumption. unfold no_history. simpl.
      rewrite stored_saved. apply map_Forall_insert_2; [reflexivity | exact H].
  - intros pid. destruct (stored inv !! pid) as [r|] eqn:Hr.
    + rewrite delete_product_present by eauto. unfold no_history. simpl.
      rewrite stored_saved. now apply map_Forall_delete.
    + rewrite delete_product_absent by assumption. exact H.
  - intros pid delta.
    destruct (adjust_stock_state inv pid delta)
      as [[-> _]|(r & q & current & Hr & _ & _ & _ & ->)]; [exact H |].
    unfold no_history. simpl. rewrite stored_saved.
    apply map_Forall_insert_2; [| exact H].
    rewrite lookup_insert_ne by discriminate. exact (H pid r Hr).
  - intros pid updates Hu.
    destruct (decide (is_Some (updates !! "self") \/ is_Some (updates !! "product_id")))
      as [Hk|Hk]; [rewrite update_prodcut_keyword by exact Hk; exact H |].
    destruct (keywords_free updates Hk) as [Hs Hp].
    destruct (stored inv !! pid) as [r|] eqn:Hr.
    + rewrite (update_prodcut_present inv pid updates r Hs Hp Hr). unfold no_history. simpl.
      rewrite stored_saved. apply map_Forall_insert_2; [| exact H].
      apply lookup_union_None. split; [exact Hu | exact (H pid r Hr)].
    + rewrite update_prodcut_absent by assumption. exact H.
Qed.

Lemma purchase_report_stays_empty_witness :
  Inventory.get_daily_purchase_report noon shop = Returns [].
Proof.
  refine (proj1 (purchase_report_stays_empty shop _) noon).
  unfold no_history. refine (bool_decide_unpack _ _). vm_compute. exact I.
Defined.

(** ** Logging in *)

Section LoginFacts.

Implicit Types (name password : string) (file : JSONStorage.t) (r : record).

(** The first login of ["admin"], when the file holds no user. *)
Lemma authenticate_setup password file :
  JSONStorage.load_data file = ∅ ->
  UserLogin.authenticate (UserLogin.init "admin" password file)
    = (Returns true,
       UserLogin.make "admin" password (VStr "Admin")
         (JSONStorage.save_data {["admin" := admin_record password]} file)).
Proof.
  intros H. unfold UserLogin.authenticate. run. simpl. rewrite H.
  rewrite !bool_decide_eq_true_2 by reflexivity. simpl.
  rewrite insert_empty. reflexivity.
Qed.

Lemma authenticate_unknown name password file :
  JSONStorage.load_data file !! name = None ->
  JSONStorage.load_data file <> ∅ \/ name <> "admin" ->
  UserLogin.authenticate (UserLogin.init name password file)
    = (Returns false, UserLogin.init name password file).
Proof.
  intros Hnone Hsetup. unfold UserLogin.authenticate. run. simpl. rewrite Hnone.
  destruct Hsetup as [H|H]; rewrite (bool_decide_eq_false_2 _ H);
    rewrite ?andb_false_r; reflexivity.
Qed.

(** The login of a name the file holds. *)
Lemma authenticate_known name password file r :
  JSONStorage.load_data file !! name = Some r ->
  UserLogin.authenticate (UserLogin.init name password file)
    = match r !! "password" with
      | None => (Raises KeyError, UserLogin.init name password file)
      | Some stored_password =>
          if eq_str stored_password password then
            match r !! "role" with
            | None => (Raises KeyError, UserLogin.init name password file)
            | Some role => (Returns true, UserLogin.make name password role file)
            end
          else (Returns false, UserLogin.init name password file)
      end.
Proof.
  intros Hr. unfold UserLogin.authenticate. run. simpl. rewrite Hr.
  rewrite (bool_decide_eq_false_2 (JSONStorage.load_data file = ∅))
    by (intros E; rewrite E in Hr; discriminate).
  simpl. unfold getitem. destruct (r !! "password") as [p|]; [| reflexivity].
  destruct (eq_str p password); [| reflexivity].
  destruct (r !! "role"); reflexivity.
Qed.

Lemma eq_str_true (v : pyval) (s : string) : eq_str v s = true <-> v = VStr s.
Proof.
  destruct v; simpl; try (split; [discriminate | congruence]).
  rewrite bool_decide_eq_true. split; congruence.
Qed.

(** What an accepted [register] found and wrote. *)
Lemma register_accepted (u : User.t) :
  (User.register u).1 = Returns true ->
  lower (User._username u) <> "admin" /\ users u !! User._username u = None /\
  User._storage (User.register u).2
    = JSONStorage.save_data
        (<[User._username u := salesman_record (User._password u)]> (users u))
        (User._storage u).
Proof.
  unfold User.register. run. destruct (decide _); [discriminate |].
  fold (users u). destruct (decide _) as [|Hn]; [discriminate |]. simpl. intros _.
  split; [assumption |]. split; [| reflexivity].
  destruct (users u !! _) eqn:E; [| reflexivity]. exfalso. apply Hn. eauto.
Qed.

Lemma register_storage (u : User.t) :
  User._storage (User.register u).2 = User._storage u \/
  (lower (User._username u) <> "admin" /\ users u !! User._username u = None /\
   User._storage (User.register u).2
     = JSONStorage.save_data
         (<[User._username u := salesman_record (User._password u)]> (users u))
         (User._storage u)).
Proof.
  destruct (User.register u).1 as [[]|] eqn:E.
  - right. now apply register_accepted.
  - left. revert E. unfold User.register. run.
    destruct (decide _); [reflexivity |]. destruct (decide _); [reflexivity | discriminate].
  - left. revert E. unfold User.register. run.
    destruct (decide _); [reflexivity |]. destruct (decide _); [reflexivity | discriminate].
Qed.

Lemma load_saved (data : document) file :
  JSONStorage.load_data (JSONStorage.save_data data file) = data.
Proof. reflexivity. Qed.

(** No login but the first one of ["admin"] writes. *)
Lemma authenticate_reads name password file :
  JSONStorage.load_data file <> ∅ \/ name <> "admin" ->
  UserLogin._storage (UserLogin.authenticate (UserLogin.init name password file)).2 = file.
Proof.
  intros H. destruct (JSONStorage.load_data file !! name) as [r|] eqn:Hr.
  - rewrite (authenticate_known name password file r Hr).
    destruct (r !! "password") as [p|]; [| reflexivity].
    destruct (eq_str p password); [| reflexivity].
    destruct (r !! "role"); reflexivity.
  - now rewrite authenticate_unknown.
Qed.

End LoginFacts.

(** X10: what [authenticate] does, for a user made from a name and a
    password.  With no user in the file (the file is missing, unreadable or
    empty) the name ["admin"] is accepted with any password: the file is
    written with that one user, the password given and the role ["Admin"];
    any other name is refused.  With users in the file, a name the file
    lacks is refused; a name it holds is accepted exactly when the stored
    password is the string given, and the role of the user is then what the
    file holds.  A refused login changes nothing, and no login but the
    first one of ["admin"] writes the file. *)
Theorem authenticate_outcome (name password : string) (file : JSONStorage.t) :
  let u := UserLogin.init name password file in
  let data := JSONStorage.load_data file in
  (data = ∅ ->
     if decide (name = "admin")
     then UserLogin.authenticate u
            = (Returns true,
               UserLogin.make "admin" password (VStr "Admin")
                 (JSONStorage.save_data {["admin" := admin_record password]} file))
     else UserLogin.authenticate u = (Returns false, u)) /\
  (data <> ∅ -> data !! name = None -> UserLogin.authenticate u = (Returns false, u)) /\
  (forall r stored_password role,
     data !! name = Some r -> r !! "password" = Some stored_password ->
     r !! "role" = Some role ->
     (stored_password = VStr password ->
        UserLogin.authenticate u = (Returns true, UserLogin.make name password role file)) /\
     (stored_password <> VStr password ->
        UserLogin.authenticate u = (Returns false, u))) /\
  (data <> ∅ \/ name <> "admin" ->
     UserLogin._storage (UserLogin.authenticate u).2 = file).
Proof.
  intros u data. subst u data. split; [| split; [| split]].
  - intros H. destruct (decide _) as [->|Hn].
    + now apply authenticate_setup.
    + apply authenticate_unknown; [| now right]. rewrite H. apply lookup_empty.
  - intros H Hnone. apply authenticate_unknown; [exact Hnone | now left].
  - intros r p role Hr Hp Hrole. rewrite (authenticate_known name password file r Hr).
    rewrite Hp, Hrole. split.
    + intros ->. now rewrite (proj2 (eq_str_true _ _)).
    + intros Hn. destruct (eq_str p password) eqn:E; [| reflexivity].
      apply eq_str_true in E. contradiction.
  - apply authenticate_reads.
Qed.

(** X11: after an accepted [register], [authenticate] with the name of the new
    user returns [True] exactly for the password registered, letter for
    letter; the user then has the role ["salesman"], and the login writes
    nothing. *)
Theorem register_then_authenticate (u : User.t) (password : string) :
  (User.register u).1 = Returns true ->
  let file := User._storage (User.register u).2 in
  let login := UserLogin.authenticate (UserLogin.init (User._username u) password file) in
  login.1 = Returns (bool_decide (password = User._password u)) /\
  UserLogin._storage login.2 = file /\
  (password = User._password u -> UserLogin._role login.2 = VStr "salesman").
Proof.
  intros H file login. subst file login.
  destruct (register_accepted u H) as (_ & _ & ->).
  rewrite (authenticate_known _ _ _ (salesman_record (User._password u)))
    by (simpl; apply lookup_insert_eq).
  replace (salesman_record _ !! "password") with (Some (VStr (User._password u)))
    by reflexivity.
  replace (salesman_record _ !! "role") with (Some (VStr "salesman")) by reflexivity.
  simpl. destruct (decide (password = User._password u)) as [->|Hn].
  - rewrite !bool_decide_eq_true_2 by reflexivity. repeat split.
  - rewrite !bool_decide_eq_false_2 by congruence. repeat split. contradiction.
Qed.

Lemma register_then_authenticate_witness :
  (UserLogin.authenticate
     (UserLogin.init "carol" "secret"
        (User._storage
           (User.register (User.init "carol" "secret" (JSONStorage.make NoFile 0))).2))).1
    = Returns true.
Proof.
  exact (proj1 (register_then_authenticate
                  (User.init "carol" "secret" (JSONStorage.make NoFile 0)) "secret" eq_refl)).
Defined.

(** X12: [register] and [authenticate] keep the role ["Admin"] with the name
    ["admin"]: when no other record of the file holds that role, none does
    after either call, and a user whose login is accepted has the role
    ["Admin"] only under the name ["admin"]. *)
Theorem only_admin_is_kept (name password : string) (file : JSONStorage.t) :
  only_admin (JSONStorage.load_data file) ->
  let login := UserLogin.authenticate (UserLogin.init name password file) in
  only_admin (users (User.register (User.init name password file)).2) /\
  only_admin (accounts login.2) /\
  (login.1 = Returns true -> UserLogin._role login.2 = VStr "Admin" -> name = "admin").
Proof.
  intros Hok login. subst login. split; [| split].
  - unfold users.
    destruct (register_storage (User.init name password file)) as [->|(Hn & _ & ->)];
      [exact Hok |].
    rewrite load_saved. simpl.
    intros k r Hk Hrole. apply lookup_insert_Some in Hk as [[<- <-]|[_ Hk]].
    + discriminate.
    + exact (Hok k r Hk Hrole).
  - unfold accounts.
    destruct (decide (JSONStorage.load_data file = ∅ /\ name = "admin")) as [[He ->]|Hn].
    + rewrite (authenticate_setup password file He). simpl. rewrite load_saved.
      intros k r Hk _. now apply lookup_singleton_Some in Hk as [<- _].
    + rewrite authenticate_reads; [exact Hok |].
      destruct (decide (JSONStorage.load_data file = ∅)); [| now left].
      destruct (decide (name = "admin")); [| now right]. exfalso. now apply Hn.
  - destruct (JSONStorage.load_data file !! name) as [r|] eqn:Hr.
    + rewrite (authenticate_known name password file r Hr).
      destruct (r !! "password") as [p|]; [| discriminate].
      destruct (eq_str p password); [| discriminate].
      destruct (r !! "role") as [role|] eqn:Hrole; [| discriminate].
      simpl. intros _ ->. exact (Hok name r Hr Hrole).
    + destruct (decide (JSONStorage.load_data file = ∅ /\ name = "admin")) as [[He ->]|Hn].
      * reflexivity.
      * rewrite authenticate_unknown; [discriminate | exact Hr |].
        destruct (decide (JSONStorage.load_data file = ∅)); [| now left].
        destruct (decide (name = "admin")); [| now right]. exfalso. now apply Hn.
Qed.

Lemma only_admin_is_kept_witness :
  only_admin (users (User.register (User.init "carol" "secret" (JSONStorage.make NoFile 0))).2).
Proof.
  refine (proj1 (only_admin_is_kept "carol" "secret" (JSONStorage.make NoFile 0) _)).
  intros k r Hk. change (JSONStorage.load_data _) with (∅ : document) in Hk.
  now rewrite lookup_empty in Hk.
Defined.

Lemma authenticate_outcome_witness :
  (UserLogin.authenticate (UserLogin.init "admin" "any" (JSONStorage.make Garbled 0))).1
    = Returns true.
Proof.
  pose proof (proj1 (authenticate_outcome "admin" "any" (JSONStorage.make Garbled 0)) eq_refl)
    as H.
  simpl in H. now rewrite H.
Defined.

(** ** The change *)

Lemma dsign_fix (d : PyDecimal) : dsign (fix_ d) = dsign d.
Proof.
  unfold fix_. destruct (_ || _); [reflexivity |].
  destruct (_ || _); [| reflexivity]. now destruct (_ <? _).
Qed.

Lemma fix_zero (d : PyDecimal) : dcoef d = 0%N -> fix_ d = d.
Proof. intros H. unfold fix_. now rewrite H. Qed.

(** The difference of a number and one that is not above it is not below
    zero. *)
Lemma dec_sub_not_negative (a b : PyDecimal) :
  dec_lt a b = false -> dec_lt (dec_sub a b) Transaction.zero = false.
Proof.
  intros H. unfold dec_sub, dec_add.
  set (x := dec_add_exact a (dec_neg b)).
  assert (Hs : dsign x = true -> dcoef x = 0%N).
  { unfold x, dec_add_exact. cbn [dsign dcoef dexp dec_neg].
    set (e := Z.min (dexp a) (dexp b)).
    assert (Hn : scaled (dec_neg b) e = - scaled b e).
    { unfold scaled, dec_neg. simpl. destruct (dsign b); simpl; lia. }
    rewrite Hn. unfold dec_lt, dec_cmp in H. fold e in H.
    destruct (Z.compare_spec (scaled a e) (scaled b e)); try discriminate.
    - replace (scaled a e + - scaled b e) with 0 by lia. reflexivity.
    - destruct (Z.eqb_spec (scaled a e + - scaled b e) 0); [lia |].
      destruct (Z.ltb_spec (scaled a e + - scaled b e) 0); [lia | discriminate]. }
  unfold dec_lt, dec_cmp.
  set (m := Z.min _ _).
  assert (H0 : scaled Transaction.zero m = 0) by (unfold scaled; simpl; lia).
  rewrite H0.
  assert (Hge : 0 <= scaled (fix_ x) m).
  { destruct (dsign x) eqn:Hx.
    - rewrite (fix_zero x (Hs eq_refl)). unfold scaled. rewrite (Hs eq_refl), Hx.
      change (Z.of_N 0) with 0. lia.
    - unfold scaled. rewrite dsign_fix, Hx.
      apply Z.mul_nonneg_nonneg; [lia |]. apply Z.pow_nonneg. lia. }
  destruct (Z.compare_spec (scaled (fix_ x) m) 0); try reflexivity. lia.
Qed.

(** X13: the change of an accepted payment is never below zero; and when the
    difference of the amount and the total needs no rounding and lies in
    the exponent range of the decimal context, the change and the total add
    up to the amount received, exactly. *)
Theorem process_payment_gives_change (t t' : Transaction.t) (amount : PyDecimal) :
  Transaction.process_payment amount t = (Returns tt, t') ->
  dec_lt (Transaction._change t') Transaction.zero = false /\
  (fits (dec_add_exact amount (dec_neg (Transaction._total_amount t))) = true ->
   in_context (dec_add_exact amount (dec_neg (Transaction._total_amount t))) = true ->
   dec_eq (dec_add_exact (Transaction._change t') (Transaction._total_amount t')) amount
     = true).
Proof.
  unfold Transaction.process_payment. run.
  destruct (dec_lt amount (Transaction._total_amount t)) eqn:Hlt; [discriminate |].
  intros [= <-]. simpl. split; [now apply dec_sub_not_negative |].
  intros Hfit _. set (total := Transaction._total_amount t) in *.
  unfold dec_sub, dec_add. set (x := dec_add_exact amount (dec_neg total)) in *.
  set (e := Z.min (dexp amount) (dexp total)).
  assert (Hx : dexp x = e) by reflexivity.
  destruct (fix_fits x e Hfit ltac:(lia)) as [Hv He].
  apply (dec_eq_scaled _ _ e); [rewrite dexp_add_exact; lia | lia |].
  rewrite scaled_add_exact, Hv by lia.
  unfold x. rewrite scaled_add_exact by (simpl; lia).
  assert (Hn : scaled (dec_neg total) e = - scaled total e).
  { unfold scaled, dec_neg. simpl. destruct (dsign total); simpl; lia. }
  lia.
Qed.

Lemma process_payment_gives_change_witness :
  dec_lt (Transaction._change
            (Transaction.process_payment (mkDecimal false 2500 (-2)) bill20).2)
         Transaction.zero = false.
Proof.
  exact (proj1 (process_payment_gives_change bill20 _ (mkDecimal false 2500 (-2)) eq_refl)).
Defined.

(** ** Dates and times as text *)

Section TimeText.

Implicit Types (s a rest : string) (w : nat) (z : Z).

Lemma read_digits_all a rest acc :
  string_forallb is_digit a = true ->
  read_digits (String.length a) acc (a +:+ rest)
    = Some (Z.of_N (num_of_digits acc a), rest).
Proof.
  revert acc. induction a as [|c a IH]; intros acc H.
  - now rewrite append_nil_l.
  - simpl in H. apply andb_true_iff in H as [Hc Ha]. rewrite append_cons. simpl.
    rewrite Hc. now apply IH.
Qed.

(** A number below [10^w] is written by [pad] with [w] digits. *)
Lemma pad_digits w z :
  (1 <= w)%nat -> 0 <= z < 10 ^ Z.of_nat w ->
  string_forallb is_digit (pad w z) = true /\ String.length (pad w z) = w /\
  num_of_digits 0 (pad w z) = Z.to_N z.
Proof.
  intros Hw Hz. unfold pad.
  assert (Hlen : (String.length (digits (Z.to_N z)) <= w)%nat).
  { pose proof (ndigits_le (Z.to_N z) (Z.of_nat w) ltac:(lia)) as H.
    unfold ndigits, slen in H. apply Nat2Z.inj_le, H.
    apply N2Z.inj_lt. rewrite N2Z.inj_pow, !Z2N.id by lia. apply Hz. }
  split; [| split].
  - now rewrite string_forallb_app, zeros_digits, digits_digits.
  - rewrite append_length, zeros_length. lia.
  - now rewrite num_of_digits_app, num_of_digits_zeros, num_of_digits_digits.
Qed.

Lemma read_digits_pad w z rest :
  (1 <= w)%nat -> 0 <= z < 10 ^ Z.of_nat w ->
  read_digits w 0 (pad w z +:+ rest) = Some (z, rest).
Proof.
  intros Hw Hz. destruct (pad_digits w z Hw Hz) as (Hd & Hl & Hn).
  rewrite <- Hl at 1. rewrite read_digits_all, Hn by assumption.
  now rewrite Z2N.id by lia.
Qed.

Lemma str_take_nat_all (n : nat) s : (String.length s <= n)%nat -> str_take_nat n s = s.
Proof.
  revert n. induction s as [|c s IH]; intros [|n] H; simpl in *; try reflexivity; try lia.
  f_equal. apply IH. lia.
Qed.

Lemma valid_date_bounds (y m d : Z) :
  valid_date y m d = true -> 1 <= y <= 9999 /\ 1 <= m <= 12 /\ 1 <= d <= 31.
Proof.
  unfold valid_date. rewrite !andb_true_iff, !Z.leb_le. intros [[[[[? ?] ?] ?] ?] Hd].
  repeat split; try lia.
  assert (Hm : m = 1 \/ m = 2 \/ m = 3 \/ m = 4 \/ m = 5 \/ m = 6 \/ m = 7 \/
               m = 8 \/ m = 9 \/ m = 10 \/ m = 11 \/ m = 12) by lia.
  unfold _days_in_month in Hd.
  repeat (destruct Hm as [->|Hm]); try subst m; simpl in Hd;
    try destruct (_is_leap y); simpl in Hd; lia.
Qed.

(** [fromisoformat] reads what [isoformat] wrote. *)
Lemma fromisoformat_isoformat (d : datetime) :
  valid_datetime d = true -> fromisoformat (isoformat d) = Returns d.
Proof.
  destruct d as [y m dd h mi s us]. unfold valid_datetime. simpl.
  rewrite !andb_true_iff, !Z.leb_le, !Z.ltb_lt.
  intros [[[[[[[[Hv ?] ?] ?] ?] ?] ?] ?] ?].
  destruct (valid_date_bounds y m dd Hv) as (Hy & Hm & Hd).
  unfold isoformat, date_isoformat. simpl.
  pose proof (fun rest => read_digits_pad 4 y rest ltac:(lia) ltac:(simpl; lia)) as HY.
  pose proof (fun rest => read_digits_pad 2 m rest ltac:(lia) ltac:(simpl; lia)) as HM.
  pose proof (fun rest => read_digits_pad 2 dd rest ltac:(lia) ltac:(simpl; lia)) as HD.
  pose proof (fun rest => read_digits_pad 2 h rest ltac:(lia) ltac:(simpl; lia)) as HH.
  pose proof (fun rest => read_digits_pad 2 mi rest ltac:(lia) ltac:(simpl; lia)) as HMI.
  pose proof (fun rest => read_digits_pad 2 s rest ltac:(lia) ltac:(simpl; lia)) as HS.
  destruct (pad_digits 6 us ltac:(lia) ltac:(simpl; lia)) as (HFd & HFl & HFn).
  set (ty := pad 4 y) in *. set (tm := pad 2 m) in *. set (td := pad 2 dd) in *.
  set (th := pad 2 h) in *. set (tmi := pad 2 mi) in *. set (ts := pad 2 s) in *.
  set (tf := pad 6 us) in *. clearbody ty tm td th tmi ts tf.
  rewrite !append_assoc, !append_cons, !append_nil_l.
  unfold fromisoformat. rewrite HY. cbn -[read_digits read_time].
  rewrite HM. cbn -[read_digits read_time]. rewrite HD. cbn -[read_digits read_time].
  unfold read_time. rewrite HH. cbn -[read_digits read_fraction].
  rewrite HMI. cbn -[read_digits read_fraction]. rewrite HS. cbn -[read_digits read_fraction].
  assert (Hok : valid_date y m dd && (h <? 24) && (mi <? 60) && (s <? 60) = true).
  { rewrite !andb_true_iff, !Z.ltb_lt. tauto. }
  destruct (Z.eqb_spec us 0) as [->|Hus].
  - cbn. now rewrite Hok.
  - cbn -[read_fraction].
    unfold read_fraction. rewrite span_digits_all by assumption.
    rewrite str_take_nat_all by lia. rewrite HFl, HFn. cbn.
    rewrite Z2N.id by lia. rewrite Z.mul_1_r. cbn. now rewrite Hok.
Qed.

End TimeText.

(** ** The ledger *)

Section LedgerFacts.

Lemma filterM_app {A : Type} (p : A -> outcome bool) (l1 l2 : list A) :
  filterM p (l1 ++ l2) = (a ← filterM p l1; b ← filterM p l2; Returns (a ++ b)).
Proof.
  induction l1 as [|x l1 IH]; simpl.
  - run. now destruct (filterM p l2).
  - destruct (p x) as [b|e]; run; [| reflexivity].
    rewrite IH. run. destruct (filterM p l1) as [a|e]; [| reflexivity].
    destruct (filterM p l2) as [c|e]; [| reflexivity]. now destruct b.
Qed.

(** A comprehension over a list in which one element meets the condition
    and the others do not keeps that element, wherever it stands. *)
Lemma filterM_single {A : Type} (p : A -> outcome bool) (l rest : list A) (x : A) :
  l ≡ₚ x :: rest -> p x = Returns true ->
  Forall (fun y => p y = Returns false) rest ->
  filterM p l = Returns [x].
Proof.
  intros Hperm Hx Hrest.
  assert (Hin : x ∈ l) by (rewrite Hperm; constructor).
  apply list_elem_of_split in Hin as (l1 & l2 & ->).
  rewrite <- Permutation_middle in Hperm. apply Permutation_cons_inv in Hperm.
  rewrite <- Hperm in Hrest. apply Forall_app in Hrest as [H1 H2].
  rewrite filterM_app, (filterM_all_false p l1 H1). simpl.
  rewrite Hx, (filterM_all_false p l2 H2). reflexivity.
Qed.

(** The records of a ledger after one was saved: the new record and the
    others. *)
Lemma recorded_after_save (t : Transaction.t) (tm : TransactionManager.t) :
  let id := Transaction._transaction_id t in
  map_to_list (recorded (TransactionManager.save_transaction t tm).2)
    ≡ₚ (id, Transaction.to_dict t) :: map_to_list (delete id (recorded tm)).
Proof.
  intros id. rewrite save_transaction_recorded. fold id.
  rewrite <- insert_delete_eq. apply map_to_list_insert, lookup_delete_eq.
Qed.

Lemma py_sum_quantities (items : list TransactionItem) (acc : Z) :
  foldl (fun acc x => a ← acc; v ← subscript x "quantity"; py_add a v)
        (Returns (VInt acc)) (Transaction.item_dict <$> items)
    = Returns (VInt (acc + pieces items)).
Proof.
  set (f := fun (acc : outcome pyval) (x : pyval) =>
              a ← acc; v ← subscript x "quantity"; py_add a v).
  revert acc. induction items as [|item items IH]; intros acc.
  - simpl. now rewrite Z.add_0_r.
  - cbn [fmap list_fmap foldl pieces foldr].
    replace (f (Returns (VInt acc)) (Transaction.item_dict item))
      with (Returns (VInt (acc + quantity item))) by reflexivity.
    fold (list_fmap _ _ Transaction.item_dict items).
    change (list_fmap _ _ Transaction.item_dict items) with (Transaction.item_dict <$> items).
    rewrite IH. fold (pieces items). do 2 f_equal. lia.
Qed.

Lemma items_sold_to_dict (t : Transaction.t) :
  TransactionManager.items_sold (Transaction.to_dict t)
    = Returns (VInt (pieces (Transaction._items t))).
Proof.
  unfold TransactionManager.items_sold, getitem.
  replace (Transaction.to_dict t !! "items")
    with (Some (VList (Transaction.item_dict <$> Transaction._items t))) by reflexivity.
  run. simpl. unfold py_sum. apply py_sum_quantities.
Qed.

Lemma on_day_to_dict (date : datetime) (t : Transaction.t) :
  valid_datetime (Transaction._timestamp t) = true ->
  TransactionManager.on_day date (Transaction.to_dict t)
    = Returns (bool_decide (date_of (Transaction._timestamp t) = date_of date)).
Proof.
  intros Hv. unfold TransactionManager.on_day, getitem.
  replace (Transaction.to_dict t !! "timestamp")
    with (Some (VStr (isoformat (Transaction._timestamp t)))) by reflexivity.
  run. now rewrite fromisoformat_isoformat.
Qed.

Lemma amount_to_dict (t : Transaction.t) :
  (a ← getitem (Transaction.to_dict t) "total_amount"; Decimal_of_value a)
    = Returns (Transaction._total_amount t).
Proof.
  unfold getitem.
  replace (Transaction.to_dict t !! "total_amount")
    with (Some (VStr (dec_str (Transaction._total_amount t)))) by reflexivity.
  run. simpl. apply Decimal_of_str_dec_str.
Qed.

Lemma mapM_singleton {A B : Type} (f : A -> outcome B) (x : A) (y : B) :
  f x = Returns y -> mapM f [x] = Returns [y].
Proof. intros H. simpl. now rewrite H. Qed.

Lemma py_sum_singleton {A : Type} (f : A -> outcome pyval) (x : A) (n : Z) :
  f x = Returns (VInt n) -> py_sum f [x] = Returns (VInt n).
Proof. intros H. unfold py_sum. simpl. now rewrite H. Qed.

End LedgerFacts.

(** X14: the daily report of a day counts a bill that [save_transaction]
    recorded with a timestamp of that day.  When the other records of the
    ledger are of other days, the report holds one transaction, the saved
    document under its id, the pieces of the bill as the items sold, and as
    the total the text of [0 + total], where [total] is the total of the
    bill.  The bill is one that can be written and added up: the quantities
    of its items are ints of at most 4300 digits, and [0 + total] lies in
    the exponent range of the decimal context. *)
Theorem daily_report_counts_saved_bill
    (t : Transaction.t) (tm : TransactionManager.t) (date : datetime) :
  valid_datetime (Transaction._timestamp t) = true ->
  date_of (Transaction._timestamp t) = date_of date ->
  Forall (fun item => int_writable (quantity item) = true) (Transaction._items t) ->
  in_context (dec_add_exact (Decimal_of_int 0) (Transaction._total_amount t)) = true ->
  (forall id v, recorded tm !! id = Some v -> id <> Transaction._transaction_id t ->
     off_day date v) ->
  TransactionManager.get_daily_sales_report date
      (TransactionManager.save_transaction t tm).2
    = Returns
        (<["date" := VStr (date_isoformat date)]>
        (<["total_sales" :=
             VStr (dec_str (dec_add (Decimal_of_int 0) (Transaction._total_amount t)))]>
        (<["total_transactions" := VInt 1]>
        (<["total_items_sold" := VInt (pieces (Transaction._items t))]>
        (<["transactions" :=
             VDict {[Transaction._transaction_id t := VDict (Transaction.to_dict t)]}]>
           ∅))))).
Proof.
  intros Hv Hday _ _ Hoff. unfold TransactionManager.get_daily_sales_report.
  fold (recorded (TransactionManager.save_transaction t tm).2).
  rewrite (filterM_single _ _ _ _ (recorded_after_save t tm)).
  - cbn [mbind outcome_bind obind].
    rewrite (mapM_singleton
               (fun kv : string * record => a ← getitem kv.2 "total_amount"; Decimal_of_value a)
               (Transaction._transaction_id t, Transaction.to_dict t) _ (amount_to_dict t)).
    cbn [mbind outcome_bind obind].
    rewrite (py_sum_singleton
               (fun kv : string * record => TransactionManager.items_sold kv.2)
               (Transaction._transaction_id t, Transaction.to_dict t) _
               (items_sold_to_dict t)).
    cbn [mbind outcome_bind obind list_to_map foldr length fst snd].
    rewrite (insert_empty (Transaction._transaction_id t) (Transaction.to_dict t)).
    rewrite map_fmap_singleton. reflexivity.
  - simpl. rewrite on_day_to_dict by assumption. now rewrite bool_decide_eq_true_2.
  - apply Forall_forall. intros [id v] Hin. apply elem_of_map_to_list in Hin.
    apply lookup_delete_Some in Hin as [Hne Hin]. simpl.
    apply off_day_on_day. apply (Hoff id v Hin). congruence.
Qed.

Lemma daily_report_counts_saved_bill_witness :
  exists report,
    TransactionManager.get_daily_sales_report noon ledger1 = Returns report /\
    report !! "total_sales" = Some (VStr "20.00").
Proof.
  eexists. split.
  - apply (daily_report_counts_saved_bill
             (Transaction.process_payment (mkDecimal false 2500 (-2)) bill20).2
             (TransactionManager.make (JSONStorage.make NoFile 0)) noon eq_refl eq_refl
             ltac:(repeat constructor) ltac:(vm_compute; reflexivity)).
    intros id v Hv. change (recorded _) with (∅ : document) in Hv.
    now rewrite lookup_empty in Hv.
  - reflexivity.
Defined.

Section MonthFacts.

Lemma in_month_to_dict (y m : Z) (t : Transaction.t) :
  valid_datetime (Transaction._timestamp t) = true ->
  TransactionManager.in_month y m (Transaction.to_dict t)
    = Returns ((year (Transaction._timestamp t) =? y) &&
               (month (Transaction._timestamp t) =? m)).
Proof.
  intros Hv. unfold TransactionManager.in_month, getitem.
  replace (Transaction.to_dict t !! "timestamp")
    with (Some (VStr (isoformat (Transaction._timestamp t)))) by reflexivity.
  run. now rewrite fromisoformat_isoformat.
Qed.

Lemma off_month_in_month (y m : Z) (v : record) :
  off_month y m v -> TransactionManager.in_month y m v = Returns false.
Proof.
  intros (s & d & Hts & Hd & Hne). unfold TransactionManager.in_month, getitem.
  rewrite Hts. run. now rewrite Hd, Hne.
Qed.

(** The first bill of a month opens its day at 0.00. *)
Lemma add_day_first (t : Transaction.t) :
  valid_datetime (Transaction._timestamp t) = true ->
  TransactionManager.add_day [] (Transaction.to_dict t)
    = Returns [(date_of (Transaction._timestamp t),
                dec_add Transaction.zero (Transaction._total_amount t))].
Proof.
  intros Hv. unfold TransactionManager.add_day, getitem.
  replace (Transaction.to_dict t !! "timestamp")
    with (Some (VStr (isoformat (Transaction._timestamp t)))) by reflexivity.
  replace (Transaction.to_dict t !! "total_amount")
    with (Some (VStr (dec_str (Transaction._total_amount t)))) by reflexivity.
  run. rewrite fromisoformat_isoformat by assumption.
  cbn [Decimal_of_value]. rewrite Decimal_of_str_dec_str.
  rewrite decide_False by (cbn; apply not_elem_of_nil).
  cbn [app fmap list_fmap fst snd]. now rewrite decide_True.
Qed.

End MonthFacts.

(** X15: the monthly report of a month in which the ledger records no sale
    has the total ["0"], no transaction and no day. *)
Theorem monthly_report_of_empty_month (tm : TransactionManager.t) (y m : Z) :
  (forall id v, recorded tm !! id = Some v -> off_month y m v) ->
  TransactionManager.get_monthly_sales_report y m tm
    = Returns
        (<["year" := VInt y]>
        (<["month" := VInt m]>
        (<["total_sales" := VStr "0"]>
        (<["total_transactions" := VInt 0]>
        (<["daily_totals" := VDict ∅]> ∅))))).
Proof.
  intros Hoff. unfold TransactionManager.get_monthly_sales_report. fold (recorded tm).
  rewrite filterM_all_false; [reflexivity |].
  apply Forall_forall. intros [id v] Hin. apply elem_of_map_to_list in Hin.
  apply off_month_in_month. exact (Hoff id v Hin).
Qed.

Lemma monthly_report_of_empty_month_witness :
  exists report,
    TransactionManager.get_monthly_sales_report 2024 2 ledger1 = Returns report /\
    report !! "total_sales" = Some (VStr "0").
Proof.
  eexists. split.
  - apply monthly_report_of_empty_month. intros id v Hv.
    assert (Hl : recorded ledger1 =
                 {["TXN20240101120000" :=
                     Transaction.to_dict
                       (Transaction.process_payment (mkDecimal false 2500 (-2)) bill20).2]})
      by reflexivity.
    rewrite Hl in Hv. apply lookup_singleton_Some in Hv as [_ <-].
    exists "2024-01-01T12:00:00", noon. repeat split.
  - reflexivity.
Defined.

(** X16: the monthly report of a month counts a bill that [save_transaction]
    recorded with a timestamp of that month.  When the other records of the
    ledger are of other months, the report holds one transaction and one
    day, the day of the bill, with the text of [0.00 + total] as its total,
    where [total] is the total of the bill; the total of the month is the
    text of [0] plus that.  The bill is one that can be written and added
    up: the quantities of its items are ints of at most 4300 digits, and
    the two sums lie in the exponent range of the decimal context. *)
Theorem monthly_report_counts_saved_bill (t : Transaction.t) (tm : TransactionManager.t) :
  valid_datetime (Transaction._timestamp t) = true ->
  Forall (fun item => int_writable (quantity item) = true) (Transaction._items t) ->
  in_context (dec_add_exact Transaction.zero (Transaction._total_amount t)) = true ->
  in_context (dec_add_exact (Decimal_of_int 0)
                (dec_add Transaction.zero (Transaction._total_amount t))) = true ->
  (forall id v, recorded tm !! id = Some v -> id <> Transaction._transaction_id t ->
     off_month (year (Transaction._timestamp t)) (month (Transaction._timestamp t)) v) ->
  let day_total := dec_add Transaction.zero (Transaction._total_amount t) in
  TransactionManager.get_monthly_sales_report
      (year (Transaction._timestamp t)) (month (Transaction._timestamp t))
      (TransactionManager.save_transaction t tm).2
    = Returns
        (<["year" := VInt (year (Transaction._timestamp t))]>
        (<["month" := VInt (month (Transaction._timestamp t))]>
        (<["total_sales" := VStr (dec_str (dec_add (Decimal_of_int 0) day_total))]>
        (<["total_transactions" := VInt 1]>
        (<["daily_totals" :=
             VDict {[date_isoformat (Transaction._timestamp t)
                     := VStr (dec_str day_total)]}]>
           ∅))))).
Proof.
  intros Hv _ _ _ Hoff day_total. unfold TransactionManager.get_monthly_sales_report.
  fold (recorded (TransactionManager.save_transaction t tm).2).
  rewrite (filterM_single _ _ _ _ (recorded_after_save t tm)).
  - cbn [mbind outcome_bind obind fmap list_fmap snd foldM].
    rewrite (add_day_first t Hv).
    cbn [mbind outcome_bind obind fmap list_fmap fst snd length list_to_map foldr].
    rewrite (insert_empty (TransactionManager.date_str _) _).
    reflexivity.
  - cbn [snd]. rewrite in_month_to_dict by assumption. now rewrite !Z.eqb_refl.
  - apply Forall_forall. intros [id v] Hin. apply elem_of_map_to_list in Hin.
    apply lookup_delete_Some in Hin as [Hne Hin]. cbn [snd].
    apply off_month_in_month. apply (Hoff id v Hin). congruence.
Qed.

Lemma monthly_report_counts_saved_bill_witness :
  exists report,
    TransactionManager.get_monthly_sales_report 2024 1 ledger1 = Returns report /\
    report !! "total_sales" = Some (VStr "20.00") /\
    report !! "daily_totals" = Some (VDict {["2024-01-01" := VStr "20.00"]}).
Proof.
  eexists. split.
  - apply (monthly_report_counts_saved_bill
             (Transaction.process_payment (mkDecimal false 2500 (-2)) bill20).2
             (TransactionManager.make (JSONStorage.make NoFile 0)) eq_refl
             ltac:(repeat constructor) ltac:(vm_compute; reflexivity)
             ltac:(vm_compute; reflexivity)).
    intros id v Hv. change (recorded _) with (∅ : document) in Hv.
    now rewrite lookup_empty in Hv.
  - split; reflexivity.
Defined.

(** The id of a bill names the second in which the bill was opened. *)
Lemma time_of_id_at (now : datetime) :
  valid_datetime now = true ->
  time_of_id (Billing.transaction_id_at now) = Some (to_the_second now).
Proof.
  destruct now as [y m dd h mi s us]. unfold valid_datetime. simpl.
  rewrite !andb_true_iff, !Z.leb_le, !Z.ltb_lt.
  intros [[[[[[[[Hv ?] ?] ?] ?] ?] ?] ?] ?].
  destruct (valid_date_bounds y m dd Hv) as (Hy & Hm & Hd).
  unfold Billing.transaction_id_at, to_the_second. simpl.
  pose proof (fun rest => read_digits_pad 4 y rest ltac:(lia) ltac:(simpl; lia)) as HY.
  pose proof (fun rest => read_digits_pad 2 m rest ltac:(lia) ltac:(simpl; lia)) as HM.
  pose proof (fun rest => read_digits_pad 2 dd rest ltac:(lia) ltac:(simpl; lia)) as HD.
  pose proof (fun rest => read_digits_pad 2 h rest ltac:(lia) ltac:(simpl; lia)) as HH.
  pose proof (fun rest => read_digits_pad 2 mi rest ltac:(lia) ltac:(simpl; lia)) as HMI.
  pose proof (read_digits_pad 2 s "" ltac:(lia) ltac:(simpl; lia)) as HS.
  rewrite append_nil_r in HS.
  set (ty := pad 4 y) in *. set (tm := pad 2 m) in *. set (td := pad 2 dd) in *.
  set (th := pad 2 h) in *. set (tmi := pad 2 mi) in *. set (ts := pad 2 s) in *.
  clearbody ty tm td th tmi ts.
  rewrite !append_cons, !append_nil_l.
  unfold time_of_id. cbn [str_drop_nat]. rewrite HY. cbn -[read_digits].
  rewrite HM. cbn -[read_digits]. rewrite HD. cbn -[read_digits].
  rewrite HH. cbn -[read_digits]. rewrite HMI. cbn -[read_digits].
  rewrite HS. reflexivity.
Qed.

(** X17: [create_bill] names a bill after the second in which it is opened,
    so two bills have the same id exactly when they are opened in the same
    second; [save_transaction] keeps one record for an id, so of two bills
    of one second (bills that can be written: the quantities of their items
    are ints of at most 4300 digits) the ledger keeps the one saved last. *)
Theorem bills_of_one_second_share_a_record (now1 now2 : datetime) :
  valid_datetime now1 = true -> valid_datetime now2 = true ->
  (Billing.transaction_id_at now1 = Billing.transaction_id_at now2 <->
   to_the_second now1 = to_the_second now2) /\
  (to_the_second now1 = to_the_second now2 ->
   forall (t1 t2 : Transaction.t) (tm : TransactionManager.t),
     Transaction._transaction_id t1 = Billing.transaction_id_at now1 ->
     Transaction._transaction_id t2 = Billing.transaction_id_at now2 ->
     Forall (fun item => int_writable (quantity item) = true) (Transaction._items t1) ->
     Forall (fun item => int_writable (quantity item) = true) (Transaction._items t2) ->
     recorded (TransactionManager.save_transaction t2
                 (TransactionManager.save_transaction t1 tm).2).2
       = <[Billing.transaction_id_at now1 := Transaction.to_dict t2]> (recorded tm)).
Proof.
  intros H1 H2.
  assert (Hid : to_the_second now1 = to_the_second now2 ->
                Billing.transaction_id_at now1 = Billing.transaction_id_at now2).
  { unfold to_the_second, Billing.transaction_id_at. now intros [= -> -> -> -> -> ->]. }
  split.
  - split; [| exact Hid]. intros E.
    pose proof (time_of_id_at now1 H1) as P1. pose proof (time_of_id_at now2 H2) as P2.
    rewrite E in P1. congruence.
  - intros Hs t1 t2 tm E1 E2 _ _. rewrite !save_transaction_recorded.
    rewrite E1, E2, <- (Hid Hs). apply insert_insert_eq.
Qed.

Lemma bills_of_one_second_share_a_record_witness :
  Billing.transaction_id_at noon
    = Billing.transaction_id_at (mkDatetime 2024 1 1 12 0 0 500000).
Proof.
  exact (proj2 (proj1 (bills_of_one_second_share_a_record
           noon (mkDatetime 2024 1 1 12 0 0 500000) eq_refl eq_refl)) eq_refl).
Defined.

(** ** The bill, line by line *)

Section BillFacts.

Implicit Types (w : system) (t : Transaction.t) (pid text : string) (rest : list string).

(** [Decimal(str(quantity))] is the quantity. *)
Lemma Decimal_of_int_str (z : Z) : Decimal_of_str (int_str z) = Returns (Decimal_of_int z).
Proof.
  rewrite <- (Decimal_of_str_dec_str (Decimal_of_int z)). f_equal.
  unfold dec_str, int_str, Decimal_of_int. cbn [dsign dcoef dexp].
  set (ds := digits (Z.abs_N z)). rewrite Z.add_0_l, Z.leb_refl.
  assert (Hn : 0 < slen ds).
  { unfold slen. pose proof (digits_nonempty (Z.abs_N z)). fold ds in H.
    destruct ds; [contradiction | simpl; lia]. }
  replace (-6 <? slen ds) with true by (symmetry; apply Z.ltb_lt; lia).
  cbn [andb]. rewrite Z.eqb_refl.
  replace (slen ds <=? 0) with false by (symmetry; apply Z.leb_gt; lia).
  rewrite Z.leb_refl, Z.sub_diag. cbn [Z.to_nat zeros].
  now rewrite !append_nil_r.
Qed.

Ltac step :=
  cbv beta;
  cbn [fst snd stdin _inventory _transaction_manager mbind outcome_bind obind].

(** What one line of the bill does, for the product id read before it and
    the quantity typed on it. *)
Lemma add_line_eq pid w t text rest :
  stdin w = text :: rest ->
  Billing.add_line pid (w, t) =
    let w0 := mkSystem (_inventory w) (_transaction_manager w) rest in
    match int_of_str text with
    | Raises e => (Raises e, (w0, t))
    | Returns quantity =>
        if quantity <=? 0 then (Returns tt, (w0, t))
        else
          match stored (_inventory w) !! pid with
          | None => (Returns tt, (w0, t))
          | Some product =>
              match getitem product "quantity" ≫= py_int with
              | Raises e => (Raises e, (w0, t))
              | Returns stock =>
                  if stock <? quantity then (Returns tt, (w0, t))
                  else
                    match getitem product "price" ≫= Decimal_of_text with
                    | Raises e => (Raises e, (w0, t))
                    | Returns unit_price =>
                        let item := mkItem pid quantity unit_price
                                      (dec_mul unit_price (Decimal_of_int quantity)) in
                        let t' := (Transaction.add_item item t).2 in
                        let sold := Inventory.adjust_stock pid (- quantity) (_inventory w) in
                        let w1 := mkSystem sold.2 (_transaction_manager w) rest in
                        match sold.1 with
                        | Raises e => (Raises e, (w1, t'))
                        | Returns _ =>
                            match product !! "name" with
                            | Some _ => (Returns tt, (w1, t'))
                            | None => (Raises KeyError, (w1, t'))
                            end
                        end
                    end
              end
          end
    end.
Proof.
  destruct w as [inv tm lines]. simpl. intros ->.
  unfold Billing.add_line, on_system, on_local, on_inventory, input, Inventory.load, getitem.
  run. step.
  destruct (int_of_str text) as [quantity|e]; [| reflexivity].
  destruct (quantity <=? 0); [reflexivity |]. step.
  fold (stored inv). destruct (stored inv !! pid) as [product|]; [| reflexivity]. step.
  destruct (product !! "quantity") as [q|]; [| reflexivity].
  destruct (py_int q) as [stock|e]; [| reflexivity].
  destruct (stock <? quantity); [reflexivity |]. step.
  destruct (product !! "price") as [p|]; [| reflexivity].
  destruct (Decimal_of_text p) as [unit_price|e]; [| reflexivity].
  rewrite Decimal_of_int_str. step.
  unfold Transaction.add_item. run. cbv beta iota zeta. step.
  destruct (Inventory.adjust_stock pid (- quantity) inv) as [[b|e] inv']; [| reflexivity].
  destruct (product !! "name"); reflexivity.
Qed.

Lemma add_line_eof pid w t :
  stdin w = [] -> Billing.add_line pid (w, t) = (Raises EOFError, (w, t)).
Proof.
  destruct w as [inv tm lines]. simpl. intros ->.
  unfold Billing.add_line, on_system, input. run. reflexivity.
Qed.

(** One round of the first loop. *)
Lemma items_loop_eq (fuel : nat) w t :
  Billing.items_loop (S fuel) (w, t) =
    match stdin w with
    | [] => (Raises EOFError, (w, t))
    | line :: rest =>
        if decide (lower line = "done") then (Returns tt, (with_stdin w rest, t))
        else
          match except_ValueError (Billing.add_line line) tt (with_stdin w rest, t) with
          | (Returns _, s) => Billing.items_loop fuel s
          | (Raises e, s) => (Raises e, s)
          end
    end.
Proof.
  destruct w as [inv tm lines]. cbn [Billing.items_loop].
  unfold on_system, input, with_stdin. run. step.
  destruct lines as [|line rest]; [reflexivity |]. step.
  destruct (decide _); [reflexivity |]. cbv beta.
  destruct (except_ValueError _ _ _) as [[[]|e] s]; reflexivity.
Qed.

Lemma add_line_outcome pid w t text rest :
  stdin w = text :: rest ->
  line_outcome pid (with_stdin w rest) t
    (except_ValueError (Billing.add_line pid) tt (w, t)).
Proof.
  intros Hin. unfold except_ValueError. rewrite (add_line_eq pid w t text rest Hin).
  cbv zeta. fold (with_stdin w rest).
  destruct (int_of_str text) as [quantity|e] eqn:Hq.
  2:{ destruct e; constructor; discriminate. }
  destruct (Z.leb_spec quantity 0); [constructor |].
  destruct (stored (_inventory w) !! pid) as [product|] eqn:Hp; [| constructor].
  unfold getitem at 1. destruct (product !! "quantity") as [q|] eqn:Hpq.
  2:{ constructor. discriminate. }
  cbn [mbind outcome_bind obind].
  destruct (py_int q) as [stock|e] eqn:Hs.
  2:{ destruct e; constructor; discriminate. }
  destruct (Z.ltb_spec stock quantity); [constructor |].
  destruct (_ ≫= _) as [unit_price|e] eqn:Hu.
  2:{ destruct e; constructor; discriminate. }
  destruct (product !! "name") as [name|] eqn:Hn.
  - rewrite (adjust_stock_applies (_inventory w) pid (- quantity) product q stock Hp Hpq Hs)
      by lia.
    replace (stock + - quantity) with (stock - quantity) by lia.
    rewrite Hn, bool_decide_eq_false_2, andb_false_r by discriminate. cbn [fst snd].
    apply (line_sold pid (with_stdin w rest) t product q quantity stock unit_price);
      eauto.
  - pose proof (adjust_stock_applies (_inventory w) pid (- quantity) product q stock
                  Hp Hpq Hs ltac:(lia)) as Ha.
    cbv zeta in Ha. rewrite Hn, bool_decide_eq_true_2, andb_true_r in Ha by reflexivity.
    assert (Hf : forall item,
               line_outcome pid (with_stdin w rest) t
                 (Raises KeyError,
                  (mkSystem (Inventory.adjust_stock pid (- quantity) (_inventory w)).2
                     (_transaction_manager w) rest,
                   (Transaction.add_item item t).2)))
      by (intros item; apply (line_failed pid (with_stdin w rest) t KeyError quantity)).
    destruct (Inventory.adjust_stock pid (- quantity) (_inventory w)) as [[b|e] inv'].
    + apply Hf.
    + destruct (_ <=? _); [| discriminate]. injection Ha as -> ->. apply Hf.
Qed.

Lemma line_outcome_frame pid w t res :
  line_outcome pid w t res ->
  stdin res.2.1 = stdin w /\ _transaction_manager res.2.1 = _transaction_manager w /\
  (_inventory res.2.1 = _inventory w \/
   exists quantity,
     _inventory res.2.1 = (Inventory.adjust_stock pid quantity (_inventory w)).2).
Proof.
  destruct 1 as [|e He|product q quantity stock unit_price Hq Hp Hpq Hs Hle Hu Hn|e quantity item];
    cbn [fst snd stdin _transaction_manager _inventory]; repeat split; eauto.
  right. exists (- quantity).
  rewrite (adjust_stock_applies (_inventory w) pid (- quantity) product q stock Hp Hpq Hs)
    by lia.
  destruct Hn as [name ->].
  rewrite bool_decide_eq_false_2, andb_false_r by discriminate. cbn [snd].
  now replace (stock + - quantity) with (stock - quantity) by lia.
Qed.

Lemma int_of_str_raises (s : string) (e : exn) : int_of_str s = Raises e -> e = ValueError.
Proof.
  unfold int_of_str. destruct (group_digits _ _) as [u|]; [| congruence].
  destruct (lex_sign u) as [neg u1].
  destruct (span_digits u1) as [[|c ds] [|c' r]]; try congruence.
  destruct (_ <? _); congruence.
Qed.

Lemma Decimal_of_str_raises (s : string) (e : exn) :
  Decimal_of_str s = Raises e -> e = InvalidOperation.
Proof.
  unfold Decimal_of_str. destruct (lex_numeral _) as [[[[? ?] ?] ?]|]; congruence.
Qed.

Lemma process_payment_taken (payment : PyDecimal) t :
  dec_lt payment (Transaction._total_amount t) = false ->
  Transaction.process_payment payment t
    = (Returns tt,
       Transaction.make (Transaction._transaction_id t) (Transaction._cashier t)
         (Transaction._items t) (Transaction._timestamp t) (Transaction._total_amount t)
         payment (dec_sub payment (Transaction._total_amount t))).
Proof. intros H. unfold Transaction.process_payment. run. now rewrite H. Qed.

(** One round of the second loop. *)
Lemma payment_loop_eq (fuel : nat) w t :
  Billing.payment_loop (S fuel) (w, t) =
    match stdin w with
    | [] => (Raises EOFError, (w, t))
    | text :: rest =>
        match Decimal_of_str text with
        | Raises _ => (Raises InvalidOperation, (with_stdin w rest, t))
        | Returns payment =>
            if dec_lt payment (Transaction._total_amount t)
            then Billing.payment_loop fuel (with_stdin w rest, t)
            else (Returns tt,
                  (with_stdin w rest, (Transaction.process_payment payment t).2))
        end
    end.
Proof.
  destruct w as [inv tm lines]. cbn [Billing.payment_loop].
  unfold except_ValueError, Billing.take_payment, on_system, on_local, input, with_stdin.
  run. step.
  destruct lines as [|text rest]; [reflexivity |]. step.
  destruct (Decimal_of_str text) as [payment|e] eqn:Hd.
  - step. destruct (dec_lt payment (Transaction._total_amount t)) eqn:Hlt; [reflexivity |].
    step. now rewrite (process_payment_taken payment t Hlt).
  - now rewrite (Decimal_of_str_raises text e Hd).
Qed.

(** Each round reads a line, so the fuel beyond the lines left is never
    used. *)
Lemma items_loop_fuel (f1 f2 : nat) w t :
  (length (stdin w) < f1)%nat -> (length (stdin w) < f2)%nat ->
  Billing.items_loop f1 (w, t) = Billing.items_loop f2 (w, t).
Proof.
  revert f2 w t. induction f1 as [|f1 IH]; intros [|f2] w t H1 H2; try lia.
  rewrite !items_loop_eq. destruct (stdin w) as [|line rest] eqn:Hw; [reflexivity |].
  destruct (decide _); [reflexivity |].
  destruct rest as [|text rest'].
  - unfold except_ValueError. now rewrite add_line_eof.
  - pose proof (add_line_outcome line (with_stdin w (text :: rest')) t text rest' eq_refl) as Ho.
    apply line_outcome_frame in Ho as (Hs & _ & _).
    destruct (except_ValueError _ _ _) as [[[]|e] [w' t']]; [| reflexivity].
    cbn [fst snd stdin with_stdin] in Hs. simpl in H1, H2.
    apply IH; rewrite Hs; simpl; lia.
Qed.

Lemma payment_loop_fuel (f1 f2 : nat) w t :
  (length (stdin w) < f1)%nat -> (length (stdin w) < f2)%nat ->
  Billing.payment_loop f1 (w, t) = Billing.payment_loop f2 (w, t).
Proof.
  revert f2 w t. induction f1 as [|f1 IH]; intros [|f2] w t H1 H2; try lia.
  rewrite !payment_loop_eq. destruct (stdin w) as [|text rest] eqn:Hw; [reflexivity |].
  destruct (Decimal_of_str text) as [payment|e]; [| reflexivity].
  destruct (dec_lt _ _); [| reflexivity].
  simpl in H1, H2. apply IH; simpl; lia.
Qed.

(** [create_bill], loop by loop. *)
Lemma create_bill_eq (cashier : string) (now : datetime) w :
  Billing.create_bill cashier now w =
    let fuel := S (length (stdin w)) in
    let transaction := Transaction.init (Billing.transaction_id_at now) cashier now in
    match Billing.items_loop fuel (w, transaction) with
    | (Raises e, s) => (Raises e, s.1)
    | (Returns _, (w1, t1)) =>
        match Transaction._items t1 with
        | [] => (Returns None, w1)
        | _ :: _ =>
            match Billing.payment_loop fuel (w1, t1) with
            | (Raises e, s) => (Raises e, s.1)
            | (Returns _, (w2, t2)) =>
                (Returns (Some t2),
                 mkSystem (_inventory w2)
                   (TransactionManager.save_transaction t2 (_transaction_manager w2)).2
                   (stdin w2))
            end
        end
    end.
Proof.
  unfold Billing.create_bill. cbv zeta. run.
  destruct (Billing.items_loop _ _) as [[[]|e] [w1 t1]]; [| reflexivity].
  unfold on_local at 1. step.
  destruct (Transaction._items t1); [reflexivity |]. cbv beta.
  destruct (Billing.payment_loop _ _) as [[[]|e] [w2 t2]]; [| reflexivity].
  unfold on_local, on_system, on_manager. step.
  destruct (TransactionManager.save_transaction t2 (_transaction_manager w2))
    as [[[]|e] tm'] eqn:E; [reflexivity |].
  unfold TransactionManager.save_transaction in E. revert E. run. discriminate.
Qed.

(** Whatever the first loop returns or raises, it has read lines, left the
    ledger alone, and done to the catalog what a sequence of [adjust_stock]
    calls does. *)
Lemma items_loop_frame (fuel : nat) w t :
  let res := Billing.items_loop fuel (w, t) in
  (length (stdin res.2.1) <= length (stdin w))%nat /\
  _transaction_manager res.2.1 = _transaction_manager w /\
  exists calls, _inventory res.2.1 = adjust_all calls (_inventory w).
Proof.
  revert w t. induction fuel as [|fuel IH]; intros w t.
  { cbn. split; [lia |]. split; [reflexivity |]. now exists []. }
  cbv zeta. rewrite items_loop_eq. destruct (stdin w) as [|line rest] eqn:Hw.
  { cbn [fst snd]. rewrite Hw. split; [simpl; lia |]. split; [reflexivity |]. now exists []. }
  destruct (decide _).
  { cbn [fst snd stdin with_stdin _transaction_manager _inventory].
    split; [simpl; lia |]. split; [reflexivity |]. now exists []. }
  destruct rest as [|text rest'].
  { unfold except_ValueError. rewrite add_line_eof by reflexivity.
    cbn [fst snd stdin with_stdin _transaction_manager _inventory].
    split; [simpl; lia |]. split; [reflexivity |]. now exists []. }
  pose proof (add_line_outcome line (with_stdin w (text :: rest')) t text rest' eq_refl) as Ho.
  apply line_outcome_frame in Ho as (Hs & Htm & Hinv).
  destruct (except_ValueError _ _ _) as [o [w1 t1]].
  cbn [fst snd stdin with_stdin _transaction_manager _inventory] in Hs, Htm, Hinv.
  assert (Hone : exists calls, _inventory w1 = adjust_all calls (_inventory w)).
  { destruct Hinv as [->|[q ->]]; [now exists [] | now exists [(line, q)]]. }
  destruct o as [[]|e].
  - specialize (IH w1 t1). cbv zeta in IH. destruct IH as (IHs & IHtm & calls & IHinv).
    rewrite Hs in IHs. split; [simpl; lia |]. split; [congruence |].
    destruct Hone as [calls1 E1]. exists (calls1 ++ calls).
    rewrite IHinv, E1. unfold adjust_all. now rewrite foldl_app.
  - cbn [fst snd]. rewrite Hs. split; [simpl; lia |]. now split.
Qed.

Lemma payment_loop_frame (fuel : nat) w t :
  let res := Billing.payment_loop fuel (w, t) in
  (length (stdin res.2.1) <= length (stdin w))%nat /\
  _transaction_manager res.2.1 = _transaction_manager w /\
  _inventory res.2.1 = _inventory w.
Proof.
  revert w t. induction fuel as [|fuel IH]; intros w t; [now cbn |].
  cbv zeta. rewrite payment_loop_eq. destruct (stdin w) as [|text rest] eqn:Hw.
  { cbn [fst snd]. now rewrite Hw. }
  destruct (Decimal_of_str text) as [payment|e]; [| simpl; repeat split; lia].
  destruct (dec_lt _ _); [| simpl; repeat split; lia].
  specialize (IH (with_stdin w rest) t). cbv zeta in IH. destruct IH as (IHs & IHtm & IHinv).
  simpl in *. repeat split; [lia | assumption | assumption].
Qed.

End BillFacts.

(** X18: lines of [create_bill] that sell nothing.  When the first line typed
    is [done], in any case of its letters, the call returns [None] and
    writes neither the catalog nor the ledger.  When the line typed for a
    product is refused (its quantity, typed in ASCII, is no number or is
    not positive, the product is unknown, or the stock is below the
    quantity or is kept as a text, in ASCII, that [int] does not read), the
    call goes on as if the two lines had not been typed. *)
Theorem create_bill_lines_without_sale (w : system) (cashier : string) (now : datetime) :
  (forall line rest, stdin w = line :: rest -> lower line = "done" ->
     Billing.create_bill cashier now w = (Returns None, with_stdin w rest)) /\
  (forall pid text rest, stdin w = pid :: text :: rest -> lower pid <> "done" ->
     refused w pid text ->
     Billing.create_bill cashier now w = Billing.create_bill cashier now (with_stdin w rest)).
Proof.
  split.
  - intros line rest Hin Hdone. rewrite create_bill_eq. cbv zeta.
    rewrite items_loop_eq, Hin. now rewrite decide_True.
  - intros pid text rest Hin Hpid Href. rewrite !create_bill_eq. cbv zeta.
    set (t := Transaction.init _ _ _).
    assert (E : Billing.items_loop (S (length (stdin w))) (w, t)
                = Billing.items_loop (S (length rest)) (with_stdin w rest, t)).
    { assert (Hgo : forall n, n = length (stdin w) ->
                Billing.items_loop n (with_stdin w rest, t)
                = Billing.items_loop (S (length rest)) (with_stdin w rest, t))
        by (intros n ->; apply items_loop_fuel; rewrite ?Hin; simpl; lia).
      specialize (Hgo _ eq_refl). revert Hgo. generalize (length (stdin w)). intros n Hgo.
      rewrite items_loop_eq, Hin. rewrite decide_False by assumption.
      unfold except_ValueError.
      rewrite (add_line_eq pid (with_stdin w (text :: rest)) t text rest eq_refl).
      cbv zeta. cbn [_inventory _transaction_manager with_stdin].
      fold (with_stdin w rest). unfold refused, stock_of in Href.
      destruct (int_of_str text) as [quantity|e] eqn:Hq;
        [| now rewrite (int_of_str_raises text e Hq)].
      destruct (Z.leb_spec quantity 0); [exact Hgo |].
      destruct Href as [Hq'|Href]; [lia |].
      destruct (stored (_inventory w) !! pid) as [product|]; [| exact Hgo].
      destruct (getitem product "quantity" ≫= py_int) as [stock|e];
        [| now destruct Href as [-> _]].
      destruct (Z.ltb_spec stock quantity); [exact Hgo | lia]. }
    cbn [stdin with_stdin]. rewrite E. clear E.
    destruct (Billing.items_loop (S (length rest)) (with_stdin w rest, t))
      as [[[]|e] [w1 t1]] eqn:Hloop; [| reflexivity].
    destruct (Transaction._items t1); [reflexivity |].
    assert (Hlen : (length (stdin w1) <= length rest)%nat).
    { pose proof (items_loop_frame (S (length rest)) (with_stdin w rest) t) as Hf.
      cbv zeta in Hf. rewrite Hloop in Hf. apply Hf. }
    rewrite (payment_loop_fuel (S (length (stdin w))) (S (length rest)));
      [reflexivity | rewrite Hin; simpl; lia | lia].
Qed.

Lemma create_bill_lines_without_sale_witness :
  Billing.create_bill "bob" noon
    (mkSystem shop (TransactionManager.make (JSONStorage.make NoFile 0))
       ["P1"; "11"; "Done"])
  = (Returns None, mkSystem shop (TransactionManager.make (JSONStorage.make NoFile 0)) []).
Proof.
  set (w := mkSystem shop (TransactionManager.make (JSONStorage.make NoFile 0))
              ["P1"; "11"; "Done"]).
  rewrite (proj2 (create_bill_lines_without_sale w "bob" noon) "P1" "11" ["Done"] eq_refl).
  - exact (proj1 (create_bill_lines_without_sale (with_stdin w ["Done"]) "bob" noon)
             "Done" [] eq_refl eq_refl).
  - discriminate.
  - right. vm_compute. reflexivity.
Defined.

Section BillInvariants.

Implicit Types (w : system) (t : Transaction.t) (pid : string).

Lemma sold_cons pid (item : TransactionItem) (items : list TransactionItem) :
  sold pid (item :: items)
    = (if decide (product_id item = pid) then quantity item else 0) + sold pid items.
Proof.
  unfold sold. rewrite filter_cons. destruct (decide _); reflexivity.
Qed.

Lemma add_items_items (items : list TransactionItem) t :
  Transaction._items (add_items items t) = Transaction._items t ++ items.
Proof.
  revert t. induction items as [|item items IH]; intros t.
  - simpl. now rewrite app_nil_r.
  - change (add_items (item :: items) t)
      with (add_items items (Transaction.add_item item t).2).
    rewrite IH. change (Transaction._items (Transaction.add_item item t).2)
      with (Transaction._items t ++ [item]).
    now rewrite <- app_assoc.
Qed.

Lemma stock_of_adjusted (r : record) (z : Z) :
  stock_of (<["quantity" := VInt z]> r) = Returns z.
Proof. unfold stock_of, getitem. now rewrite lookup_insert_eq. Qed.

(** The bill and the catalog after a first loop that came to its end. *)
Lemma items_loop_returns (fuel : nat) w t w' t' :
  Billing.items_loop fuel (w, t) = (Returns tt, (w', t')) ->
  exists items,
    t' = add_items items t /\ Forall line_ok items /\
    (forall pid, stored (_inventory w) !! pid = None ->
       stored (_inventory w') !! pid = None) /\
    (forall pid r stock,
       stored (_inventory w) !! pid = Some r -> stock_of r = Returns stock ->
       exists r',
         stored (_inventory w') !! pid = Some r' /\
         stock_of r' = Returns (stock - sold pid items) /\
         delete "quantity" r' = delete "quantity" r /\
         sold pid items <= Z.max stock 0).
Proof.
  revert w t. induction fuel as [|fuel IH]; intros w t; [discriminate |].
  rewrite items_loop_eq. destruct (stdin w) as [|line rest] eqn:Hw; [discriminate |].
  destruct (decide _).
  { intros [= <- <-]. exists []. split; [reflexivity |]. split; [constructor |].
    split; [now intros pid |]. intros pid r stock Hr Hs. exists r.
    unfold sold. simpl. repeat split; [assumption | now rewrite Z.sub_0_r | lia]. }
  destruct rest as [|text rest'].
  { unfold except_ValueError. now rewrite add_line_eof. }
  pose proof (add_line_outcome line (with_stdin w (text :: rest')) t text rest' eq_refl) as Ho.
  destruct Ho as [|e He|product q qty stock0 price Hq Hp Hpq Hs0 Hle Hu Hn item
                  |e qty item]; try discriminate.
  - intros Hloop. exact (IH _ _ Hloop).
  - intros Hloop. destruct (IH _ _ Hloop) as (items & -> & Hok & Hnone & Hsome).
    cbn [_inventory with_stdin] in Hp, Hnone, Hsome. rewrite stored_saved in Hnone, Hsome.
    exists (item :: items). split; [reflexivity |].
    split; [constructor; [now split | assumption] |].
    split.
    + intros pid Hpid. apply Hnone. rewrite lookup_insert_ne; [assumption |].
      intros <-. congruence.
    + intros pid r stock Hr Hs. rewrite sold_cons. subst item.
      cbn [product_id quantity].
      destruct (decide (line = pid)) as [<-|Hne].
      * assert (r = product) by congruence. subst r.
        assert (stock = stock0).
        { unfold stock_of, getitem in Hs. rewrite Hpq in Hs. cbn in Hs. congruence. }
        subst stock.
        destruct (Hsome line _ (stock0 - qty) (lookup_insert_eq _ _ _)
                    (stock_of_adjusted _ _)) as (r' & Hr' & Hs' & Hd & Hb).
        exists r'. split; [assumption |]. split; [rewrite Hs'; f_equal; lia |].
        split; [now rewrite Hd, delete_insert_eq | lia].
      * rewrite Z.add_0_l. apply Hsome; [| assumption].
        now rewrite lookup_insert_ne.
Qed.

(** The bill after a second loop that came to its end. *)
Lemma payment_loop_returns (fuel : nat) w t w' t' :
  Billing.payment_loop fuel (w, t) = (Returns tt, (w', t')) ->
  exists payment,
    dec_lt payment (Transaction._total_amount t) = false /\
    Transaction.process_payment payment t = (Returns tt, t') /\
    _inventory w' = _inventory w /\ _transaction_manager w' = _transaction_manager w.
Proof.
  revert w t. induction fuel as [|fuel IH]; intros w t; [discriminate |].
  rewrite payment_loop_eq. destruct (stdin w) as [|text rest]; [discriminate |].
  destruct (Decimal_of_str text) as [payment|e]; [| discriminate].
  destruct (dec_lt payment (Transaction._total_amount t)) eqn:Hlt.
  - intros Hloop. destruct (IH _ _ Hloop) as (p & H1 & H2 & H3 & H4). now exists p.
  - intros [= <- <-]. exists payment. split; [assumption |].
    split; [| now split]. rewrite (process_payment_taken payment t Hlt). reflexivity.
Qed.

(** What [create_bill] went through when it returns a bill. *)
Lemma create_bill_returned (cashier : string) (now : datetime) w w' t :
  Billing.create_bill cashier now w = (Returns (Some t), w') ->
  exists fuel w1 t1 w2,
    Billing.items_loop fuel (w, Transaction.init (Billing.transaction_id_at now) cashier now)
      = (Returns tt, (w1, t1)) /\
    Transaction._items t1 <> [] /\
    Billing.payment_loop fuel (w1, t1) = (Returns tt, (w2, t)) /\
    w' = mkSystem (_inventory w2)
           (TransactionManager.save_transaction t (_transaction_manager w2)).2 (stdin w2).
Proof.
  rewrite create_bill_eq. cbv zeta.
  destruct (Billing.items_loop _ _) as [[[]|e] [w1 t1]] eqn:H1; [| discriminate].
  destruct (Transaction._items t1) eqn:Hi; [discriminate |].
  destruct (Billing.payment_loop _ _) as [[[]|e] [w2 t2]] eqn:H2; [| discriminate].
  intros [= <- <-]. exists (S (length (stdin w))), w1, t1, w2.
  split; [assumption |]. split; [congruence |]. now split.
Qed.

End BillInvariants.




(** X20: the stock a returned bill has taken.  When [create_bill] returns a
    bill, the catalog has the products it had, each with the fields it had
    but for the quantity; and of every product whose stock could be read,
    the stock is lower by the pieces of that product on the bill, which are
    no more than the stock was. *)
Theorem create_bill_takes_what_it_bills
    (w w' : system) (cashier : string) (now : datetime) (t : Transaction.t) :
  Billing.create_bill cashier now w = (Returns (Some t), w') ->
  (forall pid, stored (_inventory w) !! pid = None ->
     stored (_inventory w') !! pid = None) /\
  (forall pid r stock,
     stored (_inventory w) !! pid = Some r -> stock_of r = Returns stock ->
     exists r',
       stored (_inventory w') !! pid = Some r' /\
       stock_of r' = Returns (stock - sold pid (Transaction._items t)) /\
       delete "quantity" r' = delete "quantity" r /\
       sold pid (Transaction._items t) <= Z.max stock 0).
Proof.
  intros H. destruct (create_bill_returned cashier now w w' t H)
    as (fuel & w1 & t1 & w2 & H1 & Hne & H2 & ->).
  destruct (items_loop_returns _ _ _ _ _ H1) as (items & -> & _ & Hnone & Hsome).
  destruct (payment_loop_returns _ _ _ _ _ H2) as (payment & Hlt & Hpay & Hinv & _).
  assert (Hitems : Transaction._items t = items).
  { revert Hpay. rewrite (process_payment_taken _ _ Hlt). intros [= <-].
    cbn [Transaction._items]. now rewrite add_items_items. }
  cbn [_inventory]. rewrite Hinv, Hitems. now split.
Qed.

Lemma create_bill_takes_what_it_bills_witness :
  exists r',
    stored (Inventory.adjust_stock "P1" (-2) shop).2 !! "P1" = Some r' /\
    stock_of r' = Returns 8.
Proof.
  assert (E : Billing.create_bill "bob" noon
                (mkSystem shop (TransactionManager.make (JSONStorage.make NoFile 0))
                   ["P1"; "2"; "done"; "25.00"])
              = (Returns (Some (Transaction.process_payment (mkDecimal false 2500 (-2))
                                  bill20).2),
                 mkSystem (Inventory.adjust_stock "P1" (-2) shop).2 ledger1 []))
    by (vm_cast_no_check (eq_refl (Returns (Some (Transaction.process_payment
          (mkDecimal false 2500 (-2)) bill20).2),
        mkSystem (Inventory.adjust_stock "P1" (-2) shop).2 ledger1 []))).
  destruct (proj2 (create_bill_takes_what_it_bills _ _ _ _ _ E) "P1"
              (Product.to_dict soap) 10 eq_refl eq_refl) as (r' & Hr & Hs & _).
  exists r'. split; [exact Hr | exact Hs].
Defined.

(** Whatever [create_bill] returns or raises, it has done to the catalog
    what a sequence of [adjust_stock] calls does, and it has written the
    ledger only if it returns a bill. *)
Lemma create_bill_frame (w : system) (cashier : string) (now : datetime) :
  let res := Billing.create_bill cashier now w in
  (exists calls, _inventory res.2 = adjust_all calls (_inventory w)) /\
  ((forall t, res.1 <> Returns (Some t)) ->
     _transaction_manager res.2 = _transaction_manager w).
Proof.
  cbv zeta. rewrite create_bill_eq. cbv zeta.
  set (t0 := Transaction.init _ _ _). set (fuel := S _).
  pose proof (items_loop_frame fuel w t0) as H1. cbv zeta in H1.
  destruct (Billing.items_loop fuel (w, t0)) as [o1 [w1 t1]].
  destruct H1 as (_ & Htm1 & calls & Hinv1). cbn [fst snd] in Htm1, Hinv1.
  assert (Hgoal : forall (res : outcome (option Transaction.t) * system),
            _inventory res.2 = _inventory w1 ->
            ((forall t, res.1 <> Returns (Some t)) ->
               _transaction_manager res.2 = _transaction_manager w1) ->
            (exists calls, _inventory res.2 = adjust_all calls (_inventory w)) /\
            ((forall t, res.1 <> Returns (Some t)) ->
               _transaction_manager res.2 = _transaction_manager w)).
  { intros res Hi Ht. rewrite Hi, Hinv1. split; [now exists calls |].
    intros Hn. now rewrite Ht. }
  destruct o1 as [[]|e]; [| now apply Hgoal].
  destruct (Transaction._items t1); [now apply Hgoal |].
  pose proof (payment_loop_frame fuel w1 t1) as H2. cbv zeta in H2.
  destruct (Billing.payment_loop fuel (w1, t1)) as [o2 [w2 t2]].
  destruct H2 as (_ & Htm2 & Hinv2). cbn [fst snd] in Htm2, Hinv2.
  destruct o2 as [[]|e]; apply Hgoal; cbn [fst snd _inventory _transaction_manager].
  - exact Hinv2.
  - intros Hn. now contradiction (Hn t2).
  - exact Hinv2.
  - intros _. exact Htm2.
Qed.

(** X21: whatever is typed, and whether [create_bill] returns or raises, it
    does to the catalog what a sequence of [adjust_stock] calls does, so a
    catalog without a negative quantity stays one; and it writes the ledger
    only when it returns a bill. *)
Theorem create_bill_keeps_the_books (w : system) (cashier : string) (now : datetime) :
  let res := Billing.create_bill cashier now w in
  (exists calls, _inventory res.2 = adjust_all calls (_inventory w)) /\
  (stock_ok (_inventory w) -> stock_ok (_inventory res.2)) /\
  ((forall t, res.1 <> Returns (Some t)) ->
     _transaction_manager res.2 = _transaction_manager w).
Proof.
  destruct (create_bill_frame w cashier now) as [[calls Hc] Ht].
  split; [now exists calls |]. split; [| exact Ht].
  rewrite Hc. apply adjust_all_keeps_stock_ok.
Qed.

Lemma create_bill_keeps_the_books_witness :
  stock_ok
    (_inventory
       (Billing.create_bill "bob" noon
          (mkSystem shop (TransactionManager.make (JSONStorage.make NoFile 0))
             ["P1"; "2"; "done"; "oops"])).2).
Proof.
  assert (Hok : stock_ok shop).
  { unfold stock_ok. refine (bool_decide_unpack _ _). vm_compute. exact I. }
  pose proof (create_bill_keeps_the_books
    (mkSystem shop (TransactionManager.make (JSONStorage.make NoFile 0))
       ["P1"; "2"; "done"; "oops"]) "bob" noon) as H.
  cbv zeta in H. exact (proj1 (proj2 H) Hok).
Defined.

(** A line that is sold. *)
Lemma add_line_sells (pid text : string) (rest : list string) (w : system)
    (t : Transaction.t) (quantity stock : Z) (product : record) (unit_price : PyDecimal) :
  stdin w = text :: rest ->
  int_of_str text = Returns quantity -> 0 < quantity ->
  stored (_inventory w) !! pid = Some product ->
  stock_of product = Returns stock -> quantity <= stock ->
  (p ← getitem product "price"; Decimal_of_text p) = Returns unit_price ->
  is_Some (product !! "name") ->
  Billing.add_line pid (w, t)
    = (Returns tt,
       (mkSystem
          (Inventory.make
             (JSONStorage.save_data
                (<[pid := <["quantity" := VInt (stock - quantity)]> product]>
                   (stored (_inventory w)))
                (Inventory._storage (_inventory w)))
             (Inventory._low_stock_threshold (_inventory w)))
          (_transaction_manager w) rest,
        (Transaction.add_item
           (mkItem pid quantity unit_price (dec_mul unit_price (Decimal_of_int quantity)))
           t).2)).
Proof.
  intros Hin Hq Hpos Hp Hs Hle Hu [name Hn].
  rewrite (add_line_eq pid w t text rest Hin). cbv zeta. rewrite Hq.
  destruct (Z.leb_spec quantity 0); [lia |]. rewrite Hp.
  unfold stock_of in Hs.
  change (getitem product "quantity" ≫= py_int)
    with (q ← getitem product "quantity"; py_int q).
  rewrite Hs. destruct (Z.ltb_spec stock quantity); [lia |].
  change (getitem product "price" ≫= Decimal_of_text)
    with (p ← getitem product "price"; Decimal_of_text p).
  rewrite Hu, Hn.
  assert (Hq' : exists q, product !! "quantity" = Some q /\ py_int q = Returns stock).
  { revert Hs. unfold getitem. destruct (product !! "quantity") as [q|]; [| discriminate].
    intros Hs. now exists q. }
  destruct Hq' as (q & Hpq & Hint).
  rewrite (adjust_stock_applies (_inventory w) pid (- quantity) product q stock Hp Hpq Hint)
    by lia.
  rewrite Hn, bool_decide_eq_false_2, andb_false_r by discriminate. cbn [fst snd].
  now replace (stock + - quantity) with (stock - quantity) by lia.
Qed.

(** X22: a payment typed as something [Decimal] cannot read (a text in ASCII
    that is no number, and not the text of an infinity or a NaN) ends
    [create_bill] with [InvalidOperation], which its handler for
    [ValueError] does not catch.  For a bill of one line that was sold (the
    price times the quantity, and the total with it, in the exponent range
    of the decimal context), the stock of the product is then written,
    lower by the quantity, and the ledger holds no record of the sale. *)
Theorem payment_that_is_no_number_loses_the_sale
    (w : system) (cashier : string) (now : datetime)
    (pid text finish payment : string) (rest : list string)
    (quantity stock : Z) (product : record) (unit_price : PyDecimal) :
  stdin w = pid :: text :: finish :: payment :: rest ->
  lower pid <> "done" -> lower finish = "done" ->
  int_of_str text = Returns quantity -> 0 < quantity ->
  stored (_inventory w) !! pid = Some product ->
  stock_of product = Returns stock -> quantity <= stock ->
  (p ← getitem product "price"; Decimal_of_text p) = Returns unit_price ->
  in_context (dec_mul_exact unit_price (Decimal_of_int quantity)) = true ->
  in_context (dec_add_exact Transaction.zero
                (dec_mul unit_price (Decimal_of_int quantity))) = true ->
  is_Some (product !! "name") ->
  ascii_text payment = true -> special_text payment = false ->
  Decimal_of_str payment = Raises InvalidOperation ->
  let res := Billing.create_bill cashier now w in
  res.1 = Raises InvalidOperation /\
  stored (_inventory res.2) !! pid
    = Some (<["quantity" := VInt (stock - quantity)]> product) /\
  _transaction_manager res.2 = _transaction_manager w /\
  stdin res.2 = rest.
Proof.
  intros Hin Hpid Hdone Hq Hpos Hp Hs Hle Hu _ _ Hn _ _ Hpay. cbv zeta.
  rewrite create_bill_eq. cbv zeta. rewrite Hin. cbn [length].
  rewrite items_loop_eq, Hin. rewrite decide_False by assumption.
  unfold except_ValueError.
  rewrite (add_line_sells pid text (finish :: payment :: rest) (with_stdin w _) _
             quantity stock product unit_price eq_refl Hq Hpos Hp Hs Hle Hu Hn).
  rewrite items_loop_eq. cbn [stdin]. rewrite decide_True by assumption.
  cbn [Transaction.add_item]. unfold Transaction.add_item. run.
  cbn [fst snd Transaction._items Transaction.init app].
  rewrite payment_loop_eq. cbn [stdin with_stdin]. rewrite Hpay.
  cbn [fst snd _inventory _transaction_manager stdin with_stdin].
  rewrite stored_saved, lookup_insert_eq. now repeat split.
Qed.

Lemma payment_that_is_no_number_loses_the_sale_witness :
  let res :=
    Billing.create_bill "bob" noon
      (mkSystem shop (TransactionManager.make (JSONStorage.make NoFile 0))
         ["P1"; "2"; "done"; "25,00"]) in
  res.1 = Raises InvalidOperation /\
  _transaction_manager res.2 = TransactionManager.make (JSONStorage.make NoFile 0).
Proof.
  pose proof (payment_that_is_no_number_loses_the_sale
    (mkSystem shop (TransactionManager.make (JSONStorage.make NoFile 0))
       ["P1"; "2"; "done"; "25,00"])
    "bob" noon "P1" "2" "done" "25,00" [] 2 10 (Product.to_dict soap)
    (mkDecimal false 1000 (-2))
    eq_refl ltac:(discriminate) eq_refl eq_refl ltac:(lia) eq_refl eq_refl ltac:(lia)
    eq_refl ltac:(vm_compute; reflexivity) ltac:(vm_compute; reflexivity)
    ltac:(vm_compute; eauto) eq_refl eq_refl eq_refl) as H.
  cbv zeta in H. intros res. exact (conj (proj1 H) (proj1 (proj2 (proj2 H)))).
Defined.

(** X23: a line of [create_bill] for a product whose record cannot be read
    ends the call with what the reading raises, unless that is
    [ValueError]: the quantity is missing or of a type [int] does not take,
    or the price is missing or is no number (its text is in ASCII, and not
    the text of an infinity or a NaN).  From the first line on, nothing has
    been written then. *)
Theorem bill_line_for_an_unreadable_record
    (w : system) (cashier : string) (now : datetime)
    (pid text : string) (rest : list string) (quantity : Z) (product : record) (e : exn) :
  stdin w = pid :: text :: rest ->
  lower pid <> "done" ->
  int_of_str text = Returns quantity -> 0 < quantity ->
  stored (_inventory w) !! pid = Some product ->
  (forall p, product !! "price" = Some p ->
     ascii_text (py_str p) = true /\ special_text (py_str p) = false) ->
  e <> ValueError ->
  stock_of product = Raises e \/
  (exists stock, stock_of product = Returns stock /\ quantity <= stock /\
     (p ← getitem product "price"; Decimal_of_text p) = Raises e) ->
  Billing.create_bill cashier now w = (Raises e, with_stdin w rest).
Proof.
  intros Hin Hpid Hq Hpos Hp _ He Hbad.
  rewrite create_bill_eq. cbv zeta. rewrite Hin. cbn [length].
  rewrite items_loop_eq, Hin. rewrite decide_False by assumption.
  unfold except_ValueError.
  rewrite (add_line_eq pid (with_stdin w (text :: rest)) _ text rest eq_refl).
  cbv zeta. rewrite Hq. destruct (Z.leb_spec quantity 0); [lia |].
  cbn [_inventory with_stdin]. rewrite Hp. unfold stock_of in Hbad.
  change (getitem product "quantity" ≫= py_int)
    with (q ← getitem product "quantity"; py_int q).
  change (getitem product "price" ≫= Decimal_of_text)
    with (p ← getitem product "price"; Decimal_of_text p).
  destruct Hbad as [->|(stock & -> & Hle & ->)].
  - destruct e; try contradiction; reflexivity.
  - destruct (Z.ltb_spec stock quantity); [lia |].
    destruct e; try contradiction; reflexivity.
Qed.

Lemma bill_line_for_an_unreadable_record_witness :
  let w := mkSystem
             (Inventory.init
                (JSONStorage.make
                   (Document {["P1" := <["price" := VStr "ten"]> (Product.to_dict soap)]}) 0))
             (TransactionManager.make (JSONStorage.make NoFile 0))
             ["P1"; "2"; "done"] in
  Billing.create_bill "bob" noon w = (Raises InvalidOperation, with_stdin w ["done"]).
Proof.
  intros w.
  apply (bill_line_for_an_unreadable_record w "bob" noon "P1" "2" ["done"] 2
           (<["price" := VStr "ten"]> (Product.to_dict soap)) InvalidOperation
           eq_refl ltac:(discriminate) eq_refl ltac:(lia) eq_refl).
  - intros p Hp. vm_compute in Hp. injection Hp as <-. split; reflexivity.
  - discriminate.
  - right. exists 10. split; [reflexivity |]. split; [lia | reflexivity].
Defined.

(** ** The menus *)

Section Keeping.

Context {S : Type} (R : S -> S -> Prop).
Hypothesis R_refl : forall s, R s s.
Hypothesis R_trans : forall s1 s2 s3, R s1 s2 -> R s2 s3 -> R s1 s3.

Lemma keeps_ret {A : Type} (a : A) : keeps R (mret a : M S A).
Proof. intros s. apply R_refl. Qed.

Lemma keeps_lift {A : Type} (x : outcome A) : keeps R (lift x : M S A).
Proof. intros s. apply R_refl. Qed.

Lemma keeps_throw {A : Type} (e : exn) : keeps R (throw e : M S A).
Proof. intros s. apply R_refl. Qed.

Lemma keeps_get : keeps R (get : M S S).
Proof. intros s. apply R_refl. Qed.

Lemma keeps_bind {A B : Type} (m : M S A) (k : A -> M S B) :
  keeps R m -> (forall a, keeps R (k a)) -> keeps R (m ≫= k).
Proof.
  intros Hm Hk s. specialize (Hm s). unfold mbind, M_bind, bindM.
  destruct (m s) as [[a|e] s1]; [| exact Hm].
  exact (R_trans _ _ _ Hm (Hk a s1)).
Qed.

Lemma keeps_except {A : Type} (m : M S A) (a : A) :
  keeps R m -> keeps R (except_ValueError m a).
Proof.
  intros Hm s. specialize (Hm s). unfold except_ValueError.
  destruct (m s) as [[x|[]] s1]; exact Hm.
Qed.

End Keeping.

(** Walks through a method, statement by statement. *)
Ltac keeping :=
  repeat
    (cbv beta zeta;
     lazymatch goal with
     | |- keeps _ (mret _) => apply keeps_ret; solve [auto]
     | |- keeps _ (lift _) => apply keeps_lift; solve [auto]
     | |- keeps _ (throw _) => apply keeps_throw; solve [auto]
     | |- keeps _ get => apply keeps_get; solve [auto]
     | |- keeps _ (except_ValueError _ _) => apply keeps_except
     | |- keeps _ (mbind _ _) => apply keeps_bind; [solve [eauto] | | intros ?]
     | |- keeps _ (if ?c then _ else _) => destruct c
     | |- keeps _ (match ?x with _ => _ end) => destruct x
     | |- keeps _ _ => solve [auto]
     end).

Section MachineFacts.

(** A relation between the systems a method finds and leaves, which the
    reading of a line keeps. *)
Context (R : system -> system -> Prop).
Hypothesis R_refl : forall w, R w w.
Hypothesis R_trans : forall w1 w2 w3, R w1 w2 -> R w2 w3 -> R w1 w3.
Hypothesis R_stdin : forall w rest, R w (with_stdin w rest).

Lemma keeps_input : keeps R input.
Proof.
  intros w. unfold input. run. destruct (stdin w) as [|line rest] eqn:E.
  - apply R_refl.
  - apply (R_stdin w rest).
Qed.

End MachineFacts.

Section StockOnly.

Lemma stock_only_refl (inv : Inventory.t) : stock_only inv inv.
Proof. now split. Qed.

Lemma stock_only_trans (i1 i2 i3 : Inventory.t) :
  stock_only i1 i2 -> stock_only i2 i3 -> stock_only i1 i3.
Proof. intros [E1 H1] [E2 H2]. split; [congruence | auto]. Qed.

Lemma adjust_stock_stock_only (pid : string) (delta : Z) :
  keeps stock_only (Inventory.adjust_stock pid delta).
Proof.
  intros inv. split; [| apply adjust_stock_keeps_stock_ok].
  destruct (adjust_stock_state inv pid delta)
    as [[-> _]|(r & q & current & Hr & _ & _ & _ & ->)]; [reflexivity |].
  unfold descriptions. cbn [snd]. rewrite stored_saved, fmap_insert, delete_insert_eq.
  apply insert_id. now rewrite lookup_fmap, Hr.
Qed.

Lemma adjust_all_stock_only (calls : list (string * Z)) (inv : Inventory.t) :
  stock_only inv (adjust_all calls inv).
Proof.
  revert inv. induction calls as [|[pid delta] calls IH]; intros inv.
  - apply stock_only_refl.
  - eapply stock_only_trans; [apply (adjust_stock_stock_only pid delta inv) | apply IH].
Qed.

End StockOnly.

(** The relations between the systems a salesman's and an admin's methods
    find and leave. *)
Section Frames.


Lemma sales_refl w : touches_stock_only w w.
Proof. apply stock_only_refl. Qed.

Lemma sales_trans w1 w2 w3 :
  touches_stock_only w1 w2 -> touches_stock_only w2 w3 -> touches_stock_only w1 w3.
Proof. apply stock_only_trans. Qed.

Lemma admin_refl w : leaves_ledger w w.
Proof. reflexivity. Qed.

Lemma admin_trans w1 w2 w3 :
  leaves_ledger w1 w2 -> leaves_ledger w2 w3 -> leaves_ledger w1 w3.
Proof. unfold leaves_ledger. congruence. Qed.

Lemma sales_input : keeps touches_stock_only input.
Proof. apply keeps_input; [apply sales_refl | intros; apply stock_only_refl]. Qed.

Lemma admin_input : keeps leaves_ledger input.
Proof. apply keeps_input; [apply admin_refl | reflexivity]. Qed.

Lemma admin_on_inventory {A : Type} (m : M Inventory.t A) : keeps leaves_ledger (on_inventory m).
Proof. intros w. unfold on_inventory. now destruct (m (_inventory w)). Qed.

Lemma sales_adjust_stock (pid : string) (delta : Z) :
  keeps touches_stock_only (on_inventory (Inventory.adjust_stock pid delta)).
Proof.
  intros w. unfold on_inventory.
  pose proof (adjust_stock_stock_only pid delta (_inventory w)) as H.
  now destruct (Inventory.adjust_stock pid delta (_inventory w)).
Qed.

Lemma sales_create_bill (cashier : string) (opened : datetime) :
  keeps touches_stock_only (Billing.create_bill cashier opened).
Proof.
  intros w. destruct (create_bill_frame w cashier opened) as [[calls Hc] _].
  unfold touches_stock_only. rewrite Hc. apply adjust_all_stock_only.
Qed.

#[local] Hint Resolve sales_refl sales_trans admin_refl admin_trans
  sales_input admin_input admin_on_inventory sales_adjust_stock sales_create_bill : core.
#[local] Hint Unfold touches_stock_only leaves_ledger : core.

Lemma sales_view_all : keeps touches_stock_only InventoryManagementSystem._view_all_products.
Proof. unfold InventoryManagementSystem._view_all_products. keeping. Qed.

Lemma sales_search : keeps touches_stock_only InventoryManagementSystem._search_products.
Proof. unfold InventoryManagementSystem._search_products. keeping. Qed.

Lemma sales_low_stock : keeps touches_stock_only InventoryManagementSystem._view_low_stock.
Proof. unfold InventoryManagementSystem._view_low_stock. keeping. Qed.

Lemma sales_adjust : keeps touches_stock_only InventoryManagementSystem._adjust_stock.
Proof. unfold InventoryManagementSystem._adjust_stock. keeping. Qed.

Lemma admin_view_all : keeps leaves_ledger InventoryManagementSystem._view_all_products.
Proof. unfold InventoryManagementSystem._view_all_products. keeping. Qed.

Lemma admin_search : keeps leaves_ledger InventoryManagementSystem._search_products.
Proof. unfold InventoryManagementSystem._search_products. keeping. Qed.

Lemma admin_low_stock : keeps leaves_ledger InventoryManagementSystem._view_low_stock.
Proof. unfold InventoryManagementSystem._view_low_stock. keeping. Qed.

Lemma admin_add : keeps leaves_ledger InventoryManagementSystem._add_product.
Proof. unfold InventoryManagementSystem._add_product. keeping. Qed.

Lemma admin_delete : keeps leaves_ledger InventoryManagementSystem._delete_product.
Proof. unfold InventoryManagementSystem._delete_product. keeping. Qed.

Lemma admin_update : keeps leaves_ledger InventoryManagementSystem._update_product.
Proof.
  unfold InventoryManagementSystem._update_product. keeping.
  cbn [foldl]. keeping.
Qed.

End Frames.

Section SessionFrames.

Implicit Types (s : session).

Lemma salesman_frame_refl s : salesman_frame s s.
Proof. split; [apply sales_refl |]. split; [reflexivity | now left]. Qed.

Lemma salesman_frame_trans s1 s2 s3 :
  salesman_frame s1 s2 -> salesman_frame s2 s3 -> salesman_frame s1 s3.
Proof.
  intros (A1 & B1 & C1) (A2 & B2 & C2). split; [exact (sales_trans _ _ _ A1 A2) |].
  split; [congruence |]. destruct C2 as [C2|C2]; [| now right].
  rewrite C2. exact C1.
Qed.

Lemma admin_frame_refl s : admin_frame s s.
Proof. split; [reflexivity |]. split; [reflexivity | now left]. Qed.

Lemma admin_frame_trans s1 s2 s3 :
  admin_frame s1 s2 -> admin_frame s2 s3 -> admin_frame s1 s3.
Proof.
  intros (A1 & B1 & C1) (A2 & B2 & C2). split; [exact (admin_trans _ _ _ A1 A2) |].
  split; [congruence |]. destruct C2 as [C2|C2]; [| now right].
  rewrite C2. exact C1.
Qed.

(** A method of the system, run in the session. *)
Lemma keeps_on_machine {A : Type} (Rw : system -> system -> Prop)
    (R : session -> session -> Prop) (m : M system A) :
  (forall s w', Rw (machine s) w' ->
     R s (mkSession w' (user_file s) (_current_user s) (clock s) (ticks s))) ->
  keeps Rw m -> keeps R (on_machine m).
Proof.
  intros HR Hm s. unfold on_machine. specialize (Hm (machine s)).
  destruct (m (machine s)) as [r w']. now apply HR.
Qed.

Lemma salesman_on_machine {A : Type} (m : M system A) :
  keeps touches_stock_only m -> keeps salesman_frame (on_machine m).
Proof.
  apply keeps_on_machine. intros s w' H. split; [exact H |]. split; [reflexivity | now left].
Qed.

Lemma admin_on_machine {A : Type} (m : M system A) :
  keeps leaves_ledger m -> keeps admin_frame (on_machine m).
Proof.
  apply keeps_on_machine. intros s w' H. split; [exact H |]. split; [reflexivity | now left].
Qed.

Lemma salesman_now : keeps salesman_frame now.
Proof. intros s. split; [apply sales_refl |]. split; [reflexivity | now left]. Qed.

Lemma admin_now : keeps admin_frame now.
Proof. intros s. split; [reflexivity |]. split; [reflexivity | now left]. Qed.

Lemma salesman_logout : keeps salesman_frame (set_current_user None).
Proof. intros s. split; [apply sales_refl |]. split; [reflexivity | now right]. Qed.

Lemma admin_logout : keeps admin_frame (set_current_user None).
Proof. intros s. split; [reflexivity |]. split; [reflexivity | now right]. Qed.

#[local] Hint Resolve salesman_frame_refl salesman_frame_trans admin_frame_refl
  admin_frame_trans salesman_now admin_now salesman_logout admin_logout
  sales_input admin_input sales_create_bill : core.
#[local] Hint Extern 1 (keeps salesman_frame (on_machine _)) =>
  apply salesman_on_machine : core.
#[local] Hint Extern 1 (keeps admin_frame (on_machine _)) =>
  apply admin_on_machine : core.
#[local] Hint Resolve sales_view_all sales_search sales_low_stock sales_adjust
  admin_view_all admin_search admin_low_stock admin_add admin_delete admin_update : core.

Lemma salesman_handle (choice : string) :
  keeps salesman_frame (InventoryManagementSystem._handle_salesman_choice choice).
Proof.
  unfold InventoryManagementSystem._handle_salesman_choice,
    InventoryManagementSystem._create_bill,
    InventoryManagementSystem._view_daily_sales_report.
  keeping.
Qed.

Lemma admin_handle (choice : string) :
  keeps admin_frame (InventoryManagementSystem._handle_admin_choice choice).
Proof.
  unfold InventoryManagementSystem._handle_admin_choice,
    InventoryManagementSystem._view_expiring_products.
  keeping.
Qed.

Lemma salesman_menu (fuel : nat) :
  keeps salesman_frame (InventoryManagementSystem._show_salesman_menu fuel).
Proof.
  induction fuel as [|fuel IH]; cbn [InventoryManagementSystem._show_salesman_menu].
  - keeping.
  - pose proof salesman_handle. keeping.
Qed.

Lemma admin_menu (fuel : nat) :
  keeps admin_frame (InventoryManagementSystem._show_admin_menu fuel).
Proof.
  induction fuel as [|fuel IH]; cbn [InventoryManagementSystem._show_admin_menu].
  - keeping.
  - pose proof admin_handle. keeping.
Qed.

End SessionFrames.

(** X24: whatever is typed into the menu of a salesman, and however the menu
    ends, by the logout, at the end of the input or with an exception, the
    catalog holds the products it held, each with the fields it had but for
    the quantity, and a catalog without a negative quantity is still one;
    the file of the user data is as it was. *)
Theorem salesman_menu_keeps_the_catalog (fuel : nat) (s : session) :
  let s' := (InventoryManagementSystem._show_salesman_menu fuel s).2 in
  descriptions (_inventory (machine s')) = descriptions (_inventory (machine s)) /\
  (stock_ok (_inventory (machine s)) -> stock_ok (_inventory (machine s'))) /\
  user_file s' = user_file s.
Proof.
  destruct (salesman_menu fuel s) as ([H1 H2] & H3 & _). now repeat split.
Qed.

(** X25: whatever is typed into the menu of an admin, and however the menu
    ends, the ledger and the file of the user data are as they were. *)
Theorem admin_menu_keeps_the_ledger (fuel : nat) (s : session) :
  let s' := (InventoryManagementSystem._show_admin_menu fuel s).2 in
  _transaction_manager (machine s') = _transaction_manager (machine s) /\
  user_file s' = user_file s.
Proof.
  destruct (admin_menu fuel s) as (H1 & H2 & _). now split.
Qed.

Section ClosedCatalog.

Implicit Types (s : session).

Lemma closed_catalog_refl s : closed_catalog s s.
Proof. intros H. split; [exact H | apply stock_only_refl]. Qed.

Lemma closed_catalog_trans s1 s2 s3 :
  closed_catalog s1 s2 -> closed_catalog s2 s3 -> closed_catalog s1 s3.
Proof.
  intros H12 H23 H1. destruct (H12 H1) as [H2 A]. destruct (H23 H2) as [H3 B].
  split; [exact H3 | exact (stock_only_trans _ _ _ A B)].
Qed.

(** What a salesman's menu keeps, [run] keeps. *)
Lemma closed_of_salesman_frame s s' : salesman_frame s s' -> closed_catalog s s'.
Proof.
  intros (A & B & C) (H1 & H2 & H3). split; [| exact A].
  split; [now rewrite B |]. split; [now rewrite B |].
  intros user Hu. destruct C as [C|C]; rewrite C in Hu; [now apply H3 | discriminate].
Qed.

Lemma closed_input : keeps closed_catalog (on_machine input).
Proof.
  intros s. apply closed_of_salesman_frame. now apply salesman_on_machine, sales_input.
Qed.

Lemma closed_login (username password : string) :
  keeps closed_catalog (InventoryManagementSystem.login username password).
Proof.
  intros s (H1 & H2 & H3). unfold InventoryManagementSystem.login, set_user_file,
    set_current_user. run.
  destruct (JSONStorage.load_data (user_file s) !! username) as [r|] eqn:Hr.
  - rewrite (authenticate_known username password (user_file s) r Hr).
    assert (Hsame : forall o,
              no_admin (mkSession (machine s) (user_file s) o (clock s) (ticks s)) <->
              (forall user, o = Some user -> UserLogin._role user <> VStr "Admin")).
    { intros o. unfold no_admin. cbn. tauto. }
    destruct (r !! "password") as [p|];
      [| cbn; split; [now apply Hsame | apply stock_only_refl]].
    destruct (eq_str p password);
      [| cbn; split; [now apply Hsame | apply stock_only_refl]].
    destruct (r !! "role") as [role|] eqn:Hrole;
      [| cbn; split; [now apply Hsame | apply stock_only_refl]].
    cbn. split; [| apply stock_only_refl]. apply Hsame. intros user [= <-]. cbn.
    intros ->. exact (H2 username r Hr Hrole).
  - rewrite authenticate_unknown by (assumption || now left).
    cbn. split; [| apply stock_only_refl]. now split.
Qed.

Lemma closed_register (username password : string) :
  keeps closed_catalog (InventoryManagementSystem.register username password).
Proof.
  intros s (H1 & H2 & H3). unfold InventoryManagementSystem.register, set_user_file. run.
  pose proof (register_storage (User.init username password (user_file s))) as Hreg.
  destruct (User.register (User.init username password (user_file s))) as [r u'].
  cbn [snd] in Hreg.
  assert (Hgoal : no_admin (mkSession (machine s) (User._storage u') (_current_user s)
                              (clock s) (ticks s))).
  { destruct Hreg as [->|(_ & _ & ->)]; [now split |].
    unfold no_admin. cbn [user_file _current_user]. rewrite load_saved.
    split; [apply insert_non_empty |]. split; [| exact H3].
    intros name rec Hn. apply lookup_insert_Some in Hn as [[_ <-]|[_ Hn]].
    - discriminate.
    - exact (H2 name rec Hn). }
  destruct r; cbn; (split; [exact Hgoal | apply stock_only_refl]).
Qed.

Lemma closed_show_menu : keeps closed_catalog InventoryManagementSystem._show_menu.
Proof.
  intros s. unfold InventoryManagementSystem._show_menu. run.
  destruct (_current_user s) as [user|] eqn:Hu; [| apply closed_catalog_refl].
  destruct (eq_str (UserLogin._role user) "Admin") eqn:E.
  - apply eq_str_true in E. intros (_ & _ & H3). now contradiction (H3 user Hu).
  - apply closed_of_salesman_frame, salesman_menu.
Qed.

#[local] Hint Resolve closed_catalog_refl closed_catalog_trans closed_input closed_login
  closed_register closed_show_menu : core.

Lemma closed_run_loop (fuel : nat) :
  keeps closed_catalog (InventoryManagementSystem.run_loop fuel).
Proof.
  induction fuel as [|fuel IH]; cbn [InventoryManagementSystem.run_loop]; keeping.
Qed.

End ClosedCatalog.

(** X26: while the file of the user data holds users but none with the role
    ["Admin"], whatever is typed into the program, and however [run] ends,
    the catalog holds the products it held, each with the fields it had but
    for the quantity, and no quantity has gone below zero; and still no
    user has the role ["Admin"]. *)
Theorem without_an_admin_the_catalog_is_closed (s : session) :
  no_admin s ->
  let s' := (InventoryManagementSystem.run s).2 in
  no_admin s' /\
  descriptions (_inventory (machine s')) = descriptions (_inventory (machine s)) /\
  (stock_ok (_inventory (machine s)) -> stock_ok (_inventory (machine s'))).
Proof.
  intros H. unfold InventoryManagementSystem.run.
  destruct (closed_run_loop (S (length (stdin (machine s)))) s H) as (H1 & H2 & H3).
  cbv zeta. split; [exact H1 |]. split; [exact H2 | exact H3].
Qed.

Lemma without_an_admin_the_catalog_is_closed_witness :
  let s := mkSession
             (mkSystem shop (TransactionManager.make (JSONStorage.make NoFile 0))
                ["1"; "carol"; "secret"; "4"; "P1"; "-3"; "7"; "3"])
             (JSONStorage.make (Document {["carol" := salesman_record "secret"]}) 1)
             None (fun _ => noon) 0 in
  descriptions (_inventory (machine (InventoryManagementSystem.run s).2))
    = descriptions shop.
Proof.
  intros s.
  refine (proj1 (proj2 (without_an_admin_the_catalog_is_closed s _))).
  split; [| split].
  - cbn. apply insert_non_empty.
  - intros name r Hr. cbn in Hr. apply lookup_singleton_Some in Hr as [_ <-]. discriminate.
  - discriminate.
Defined.
